(** * Evaluation server and agent runtime: protocol state machine

    A shallow embedding of the evaluation-orchestration server
    ([EvaluationServer], eval-server/src/server.js) and of the agent runtime
    peer ([EvaluationAgent], front_end/panels/ai_chat/evaluation), with the
    properties of the wire protocol, the client directory, the dispatcher and
    the validator that the specification states.

    Conventions of the embedding.
    - A JavaScript [Map] with string keys is a [gmap string _].
    - Connection objects are shared and mutated in place (the directory and
      the socket callbacks hold the same object), so the server keeps a heap
      of connection objects addressed by their immutable [id], and the
      directory [connectedAgents] maps a key to such a reference.
    - Sending on a socket, logging and settling a pending call are recorded
      in an effect trace, newest first.
    - [await] points split an operation in the part before and the part
      after the awaited value; the awaited value is an argument.
    - Wall-clock readings ([Date.now()]) and fresh identifiers ([uuidv4()],
      the [rpc-...] id) are arguments.
    - Judge scores are rationals; [0.7] is [7 # 10].
    - A frame off the wire is a JSON object whose fields are independent
      of each other: it may carry a JSON-RPC response and a [type] tag at
      once.
    - The message of an error the JavaScript engine raises (a
      [TypeError]) is worded as V8 words it; timers follow Node's
      [setTimeout]. *)

From stdpp Require Import gmap strings list fin_maps pretty.
From Stdlib Require Import QArith.
Close Scope Q_scope.

Set Default Proof Using "Type".

(** ** Wire protocol *)

Module Protocol.

(** [capabilities.tools] as a [register] frame carries it: absent or
    [null], an array, or a JSON value of another kind (a string, a number,
    an object). *)
Inductive Tools :=
| NoTools
| ToolList (names : list string)
| NotAnArray.

Record Capabilities := {
  tools : Tools;
  maxConcurrency : option nat;
  version : option string;
  tabId : option string
}.

(** Result of an [evaluate] call, [{output, executionTime, status, ...}].
    JSON payloads are kept in serialized form; [output] is [None] when the
    field is absent. *)
Record RpcResult := {
  output : option string;
  executionTime : Z;
  r_status : string;
  r_evaluationId : option string
}.

Record ErrorData := {
  d_tool : string;
  d_error : string;
  d_url : option string
}.

Record RpcError := {
  code : Z;
  message : string;
  data : option ErrorData
}.

(** The control part of a frame a client sends, read off its [type] tag;
    [Other] is a frame of another type, or of none. *)
Inductive Control :=
| Register (clientId : string) (secretKey : option string)
           (capabilities : option Capabilities)
| Ping
| Ready
| Status (evaluationId status : string) (progress : option Q)
         (message : option string)
| Other (type : option string).

(** The JSON-RPC response part of a frame: an [id] with a [result] or with
    an [error]. *)
Inductive Response :=
| RpcSuccess (id : string) (result : RpcResult)
| RpcFailure (id : string) (error : RpcError).

Definition responseId (r : Response) : string :=
  match r with RpcSuccess i _ | RpcFailure i _ => i end.

(** A JSON value off the wire, other than [null]. The fields of an object
    are independent of each other, so one frame may carry a JSON-RPC
    response and a [type] tag at once. *)
Record Frame := {
  rpc : option Response;
  control : Control
}.

(** A control frame that carries no response, and a response that carries
    no [type] tag. *)
Definition typed (c : Control) : Frame := {| rpc := None; control := c |}.

Definition answer (r : Response) : Frame :=
  {| rpc := Some r; control := Other None |}.

Coercion typed : Control >-> Frame.
Coercion answer : Response >-> Frame.

(** A list takes the type of its elements from its context, so that a
    list of frames may be written with control frames and responses in
    it. *)
Arguments cons {A}%_type_scope & _ _.
Arguments app {A}%_type_scope & _ _.

(** What arrives on the socket: text that [JSON.parse] rejects, the JSON
    value [null], or a frame. *)
Inductive Message :=
| Malformed (text : string)
| JsonNull
| Json (frame : Frame).

Inductive AckStatus := accepted | rejected.

Record EvaluateParams := {
  p_evaluationId : string;
  p_name : string;
  p_url : option string;
  p_tool : string;
  p_input : string;
  p_timeout : option Z
}.

(** Frames the server sends. *)
Inductive Outbound :=
| Welcome (serverId version : string)
| RegistrationAck (clientId : string) (status : AckStatus)
                  (reason message : option string)
                  (evaluationsCount : option nat)
| Pong
| RpcRequest (id method : string) (params : EvaluateParams).

End Protocol.

Import Protocol.

(** ** Effects *)

Inductive LogLevel := debug | info | warn | error.

Inductive Settlement :=
| Resolved (id : string) (result : RpcResult)
| Rejected (id : string) (reason : string).

Definition settled_id (s : Settlement) : string :=
  match s with Resolved i _ | Rejected i _ => i end.

(** What a response settles its call with. *)
Definition settlement (r : Response) : Settlement :=
  match r with
  | RpcSuccess i res => Resolved i res
  | RpcFailure i e => Rejected i (Protocol.message e)
  end.

Definition is_rejection (s : Settlement) : bool :=
  match s with Rejected _ _ => true | Resolved _ _ => false end.

Inductive Effect :=
| Send (connection : string) (frame : Outbound)
| Log (level : LogLevel) (text : string)
| Settle (connection : string) (outcome : Settlement).

(** ** RPC correlator *)

Module RpcClient.

Record PendingCall := {
  method : string;
  params : EvaluateParams;
  timeoutMs : Z
}.

(** Modelled from the spec: rpc-client.js is not part of the sources.
    Section 4.2: a correlator owns the calls pending on one connection,
    keyed by correlation id. *)
Record t := { pendingRequests : gmap string PendingCall }.

Definition new : t := {| pendingRequests := ∅ |}.

(** Modelled from the spec: [RpcClient.handleResponse] (4.2) matches the
    frame's id against the pending entries; on a match it removes the
    entry, settles the call with the frame's result or error and returns
    [true]; otherwise it returns [false]. Text that is not JSON and frames
    that are not JSON-RPC responses match nothing. *)
Definition handleResponse (r : t) (m : Message)
  : t * option Settlement * bool :=
  match m with
  | Json f =>
      match rpc f with
      | Some (RpcSuccess i res) =>
          match pendingRequests r !! i with
          | Some _ => ({| pendingRequests := delete i (pendingRequests r) |},
                       Some (Resolved i res), true)
          | None => (r, None, false)
          end
      | Some (RpcFailure i e) =>
          match pendingRequests r !! i with
          | Some _ => ({| pendingRequests := delete i (pendingRequests r) |},
                       Some (Rejected i (Protocol.message e)), true)
          | None => (r, None, false)
          end
      | None => (r, None, false)
      end
  | Malformed _ | JsonNull => (r, None, false)
  end.

(** Modelled from the spec: [RpcClient.callMethod] (4.2) records the call
    under its correlation id and sends the request. *)
Definition callMethod (r : t) (i mth : string) (p : EvaluateParams)
    (timeout : Z) : t * Outbound :=
  ({| pendingRequests :=
        <[i := {| method := mth; params := p; timeoutMs := timeout |}]>
          (pendingRequests r) |},
   RpcRequest i mth p).

(** Modelled from the spec: [RpcClient.cleanup] (4.2) fails every pending
    call of the connection and leaves none behind. *)
Definition cleanup (r : t) : t * list Settlement :=
  (new,
   (λ kv, Rejected kv.1 "Connection closed")
     <$> map_to_list (pendingRequests r)).

End RpcClient.

(** ** Client store *)

Module ClientManager.

(** [validation.llm_judge]; [threshold] is the configured pass mark of
    the data model (section 3). *)
Record LlmJudgeConfig := {
  criteria : option (list string);
  model : option string;
  threshold : option Q
}.

Record ValidationConfig := {
  v_type : string;
  llm_judge : option LlmJudgeConfig
}.

Record JudgeResult := {
  score : Q;
  explanation : string
}.

Record ValidationResult := {
  vr_type : string;
  vr_result : JudgeResult;
  passed : bool
}.

Inductive StoredResult :=
| Outcome (response : RpcResult) (validation : option ValidationResult)
          (duration : Z)
| Failure (error : string) (duration : Z).

(** [targetUrl] is [evaluation.target?.url]. *)
Record Evaluation := {
  id : string;
  name : string;
  description : option string;
  targetUrl : option string;
  url : option string;
  tool : string;
  input : string;
  timeout : option Z;
  validation : option ValidationConfig;
  status : string;
  lastResult : option StoredResult
}.

Record Credentials := { valid : bool; reason : option string }.

Record Registration := {
  clientName : option string;
  evaluationsCount : nat
}.

(** Modelled from the spec: client-manager.js is not part of the sources.
    Section 6: the store answers [validate(clientId, secretKey) ->
    {valid, reason?}] and lists the evaluations a client owns; section 3:
    a client has a name. *)
Record t := {
  validate : string → option string → Credentials;
  names : gmap string string;
  evaluations : gmap string (list Evaluation)
}.

(** Modelled from the spec: [ClientManager.validateClient] is the store's
    [validate] (section 6). *)
Definition validateClient (cm : t) (clientId : string)
    (secretKey : option string) : Credentials :=
  validate cm clientId secretKey.

(** Modelled from the spec: [ClientManager.getClientEvaluations] lists
    the evaluations the client owns (section 6, [listEvaluations]); none
    for a client the store does not know. *)
Definition getClientEvaluations (cm : t) (clientId : string)
  : list Evaluation :=
  default [] (evaluations cm !! clientId).

(** Modelled from the spec: [ClientManager.registerClient] answers the
    client's name and the number of its evaluations (4.3,
    [registration_ack{accepted, evaluationsCount}]); it raises an error
    for credentials the store does not accept. *)
Definition registerClient (cm : t) (clientId : string)
    (secretKey : option string) (caps : option Capabilities)
  : string + Registration :=
  let v := validateClient cm clientId secretKey in
  if valid v then
    inr {| clientName := names cm !! clientId;
           evaluationsCount := length (getClientEvaluations cm clientId) |}
  else inl (default "Invalid credentials" (reason v)).

Definition setStatus (st : string) (res : option StoredResult)
    (e : Evaluation) : Evaluation :=
  {| id := id e; name := name e; description := description e;
     targetUrl := targetUrl e; url := url e; tool := tool e;
     input := input e;
     timeout := timeout e; validation := validation e;
     status := st;
     lastResult := match res with
                   | Some r => Some r
                   | None => lastResult e
                   end |}.

Fixpoint updateFirst (evaluationId : string) (f : Evaluation → Evaluation)
    (l : list Evaluation) : list Evaluation :=
  match l with
  | [] => []
  | e :: l' =>
      if decide (id e = evaluationId) then f e :: l'
      else e :: updateFirst evaluationId f l'
  end.

(** Modelled from the spec: [ClientManager.updateEvaluationStatus] stores
    the status (and the result, when one is given) on the client's
    evaluation of that id (section 3: an evaluation carries its status and
    last result; the status is reset without minting a new id). A client
    id that owns nothing changes nothing. *)
Definition updateEvaluationStatus (cm : t) (clientId : option string)
    (evaluationId st : string) (res : option StoredResult) : t :=
  match clientId with
  | Some c =>
      {| validate := validate cm; names := names cm;
         evaluations :=
           alter (updateFirst evaluationId (setStatus st res)) c
                 (evaluations cm) |}
  | None => cm
  end.

(** [getClientEvaluations(clientId).find(e => e.id === evaluationId)], as
    the operator console looks an evaluation up. *)
Definition findEvaluation (cm : t) (clientId evaluationId : string)
  : option Evaluation :=
  List.find (λ e, bool_decide (id e = evaluationId))
            (getClientEvaluations cm clientId).

(** Modelled from the spec: [ClientManager.getNextEvaluation] is the
    client's first evaluation whose status is [pending]. *)
Definition getNextEvaluation (cm : t) (clientId : string)
  : option Evaluation :=
  List.find (λ e, bool_decide (status e = "pending"))
            (getClientEvaluations cm clientId).

End ClientManager.

(** ** Server process, client directory and dispatcher *)

Module EvaluationServer.

Inductive ReadyState := CONNECTING | OPEN | CLOSING | CLOSED.

Record Connection := {
  id : string;
  ws : ReadyState;
  rpcClient : RpcClient.t;
  connectedAt : string;
  remoteAddress : string;
  registered : bool;
  clientId : option string;
  capabilities : option Capabilities;
  ready : bool
}.

(** [connections] is the heap of connection objects, [connectedAgents]
    the directory ([this.connectedAgents]) from a key to a reference. *)
Record t := {
  connections : gmap string Connection;
  connectedAgents : gmap string string;
  clientManager : ClientManager.t;
  effects : list Effect
}.

Definition empty (cm : ClientManager.t) : t :=
  {| connections := ∅; connectedAgents := ∅; clientManager := cm;
     effects := [] |}.

(** *** Field updates *)

Definition emit (e : Effect) (s : t) : t :=
  {| connections := connections s; connectedAgents := connectedAgents s;
     clientManager := clientManager s; effects := e :: effects s |}.

Definition store (c : Connection) (s : t) : t :=
  {| connections := <[id c := c]> (connections s);
     connectedAgents := connectedAgents s;
     clientManager := clientManager s; effects := effects s |}.

Definition withDirectory (d : gmap string string) (s : t) : t :=
  {| connections := connections s; connectedAgents := d;
     clientManager := clientManager s; effects := effects s |}.

Definition withClientManager (cm : ClientManager.t) (s : t) : t :=
  {| connections := connections s; connectedAgents := connectedAgents s;
     clientManager := cm; effects := effects s |}.

Definition withRpcClient (r : RpcClient.t) (c : Connection) : Connection :=
  {| id := id c; ws := ws c; rpcClient := r;
     connectedAt := connectedAt c; remoteAddress := remoteAddress c;
     registered := registered c; clientId := clientId c;
     capabilities := capabilities c; ready := ready c |}.

Definition withSocket (w : ReadyState) (c : Connection) : Connection :=
  {| id := id c; ws := w; rpcClient := rpcClient c;
     connectedAt := connectedAt c; remoteAddress := remoteAddress c;
     registered := registered c; clientId := clientId c;
     capabilities := capabilities c; ready := ready c |}.

Definition markReady (c : Connection) : Connection :=
  {| id := id c; ws := ws c; rpcClient := rpcClient c;
     connectedAt := connectedAt c; remoteAddress := remoteAddress c;
     registered := registered c; clientId := clientId c;
     capabilities := capabilities c; ready := true |}.

Definition markRegistered (cid : string) (caps : option Capabilities)
    (c : Connection) : Connection :=
  {| id := id c; ws := ws c; rpcClient := rpcClient c;
     connectedAt := connectedAt c; remoteAddress := remoteAddress c;
     registered := true; clientId := Some cid;
     capabilities := caps; ready := ready c |}.

(** The connection a directory key leads to
    ([this.connectedAgents.get(key)]). *)
Definition getAgent (s : t) (key : string) : option Connection :=
  r ← connectedAgents s !! key; connections s !! r.

(** JavaScript truthiness of a string or [null]. *)
Definition truthy (o : option string) : bool :=
  match o with
  | Some x => negb (String.eqb x "")
  | None => false
  end.

(** *** [sendMessage] *)

Definition sendMessage (c : Connection) (frame : Outbound) (s : t) : t :=
  match ws c with
  | OPEN => emit (Send (id c) frame) s
  | _ => s
  end.

(** *** [handleConnection] *)

Definition newConnection (connectionId address at_ : string)
  : Connection :=
  {| id := connectionId; ws := OPEN; rpcClient := RpcClient.new;
     connectedAt := at_; remoteAddress := address;
     registered := false; clientId := None;
     capabilities := None; ready := false |}.

Definition handleConnection (s : t) (connectionId address at_ : string)
  : t :=
  let connection := newConnection connectionId address at_ in
  let s := store connection s in
  let s := withDirectory (<[connectionId := connectionId]>
                            (connectedAgents s)) s in
  let s := emit (Log info "connected") s in
  sendMessage connection (Welcome "server-001" "1.0.0") s.

(** *** [handleRegistration] *)

Definition welcomeText (r : ClientManager.Registration) : string :=
  match ClientManager.clientName r with
  | Some n => if String.eqb n "" then "Client registered successfully"
              else "Welcome " +:+ n
  | None => "Client registered successfully"
  end.

(** [capabilities?.tools?.join(', ')], the text the last log line of
    the handler is built from. The optional chain stops at a missing or
    [null] value; on a value that is present and is not an array [join]
    is no function and the call throws a [TypeError], whose message (as
    V8 words it) is the left summand. *)
Definition joinTools (caps : option Capabilities) : string + option string :=
  match caps with
  | None => inr None
  | Some c =>
      match tools c with
      | NoTools => inr None
      | ToolList names => inr (Some (String.concat ", " names))
      | NotAnArray => inl "capabilities?.tools?.join is not a function"
      end
  end.

(** The [catch] clause of the handler. *)
Definition registrationError (s : t) (connection : Connection)
    (cid message : string) : t :=
  let s := emit (Log error "Registration error") s in
  sendMessage connection
    (RegistrationAck cid rejected (Some message) None None) s.

Definition handleRegistration (s : t) (connection : Connection)
    (cid : string) (secretKey : option string)
    (caps : option Capabilities) : t :=
  let validation :=
    ClientManager.validateClient (clientManager s) cid secretKey in
  if negb (ClientManager.valid validation) then
    let s := sendMessage connection
               (RegistrationAck cid rejected
                  (ClientManager.reason validation) None None) s in
    emit (Log warn "Client registration rejected") s
  else
    match ClientManager.registerClient (clientManager s) cid secretKey
            caps with
    | inr result =>
        let connection := markRegistered cid caps connection in
        let s := store connection s in
        let s := withDirectory (delete (id connection)
                                  (connectedAgents s)) s in
        let s := withDirectory (<[cid := id connection]>
                                  (connectedAgents s)) s in
        let s := sendMessage connection
                   (RegistrationAck cid accepted None
                      (Some (welcomeText result))
                      (Some (ClientManager.evaluationsCount result))) s in
        match joinTools caps with
        | inr _ => emit (Log info "Client registered successfully") s
        | inl message => registrationError s connection cid message
        end
    | inl message => registrationError s connection cid message
    end.

(** *** [handleStatusUpdate] *)

Definition handleStatusUpdate (s : t) (connection : Connection)
    (evaluationId status : string) (progress : option Q)
    (message : option string) : t :=
  if negb (registered connection) then s
  else
    let s := emit (Log info "Evaluation status update") s in
    withClientManager
      (ClientManager.updateEvaluationStatus (clientManager s)
         (clientId connection) evaluationId status None) s.

(** *** [handleMessage] *)

Definition dispatchFrame (s : t) (connection : Connection) (f : Control)
  : t :=
  match f with
  | Register cid secretKey caps =>
      handleRegistration s connection cid secretKey caps
  | Ping => sendMessage connection Pong s
  | Ready =>
      if negb (registered connection) then
        emit (Log warn "Received ready signal from unregistered client") s
      else
        let s := store (markReady connection) s in
        emit (Log info "Client ready for evaluations") s
  | Status evaluationId status progress message =>
      handleStatusUpdate s connection evaluationId status progress message
  | Other _ => emit (Log warn "Unknown message type") s
  end.

Definition handleMessage (s : t) (connection : Connection) (m : Message)
  : t :=
  match RpcClient.handleResponse (rpcClient connection) m with
  | (r, outcome, true) =>
      let s := store (withRpcClient r connection) s in
      match outcome with
      | Some o => emit (Settle (id connection) o) s
      | None => s
      end
  | (_, _, false) =>
      match m with
      | Malformed _ | JsonNull =>
          emit (Log warn "Failed to parse message") s
      | Json f => dispatchFrame s connection (control f)
      end
  end.

(** *** [handleDisconnection] *)

Definition directoryKey (connection : Connection) : string :=
  match clientId connection with
  | Some cid =>
      if registered connection && truthy (Some cid) then cid
      else id connection
  | None => id connection
  end.

Definition handleDisconnection (s : t) (connection : Connection) : t :=
  let '(r, failed) := RpcClient.cleanup (rpcClient connection) in
  let s := store (withRpcClient r connection) s in
  let s := {| connections := connections s;
              connectedAgents := connectedAgents s;
              clientManager := clientManager s;
              effects := (Settle (id connection) <$> failed)
                           ++ effects s |} in
  let s := withDirectory (delete (directoryKey connection)
                            (connectedAgents s)) s in
  emit (Log info "disconnected") s.

(** *** [validateResponse] *)

(** The judge collaborator ([this.evaluator.evaluate]): task, serialized
    output, criteria and model to a result, or an error. *)
Inductive JudgedText :=
| OutputText (o : string)
| ResponseText (response : RpcResult).

Definition Judge : Type :=
  string → JudgedText → list string → option string
  → string + ClientManager.JudgeResult.

(** [JSON.stringify(response.output || response)]: an output that is
    absent or empty gives way to the whole response. *)
Definition judgedText (response : RpcResult) : JudgedText :=
  match Protocol.output response with
  | Some o => if String.eqb o "" then ResponseText response
              else OutputText o
  | None => ResponseText response
  end.

Definition isJudged (ty : string) : bool :=
  String.eqb ty "llm-judge" || String.eqb ty "hybrid".

Definition validateResponse (evaluate : Judge) (response : RpcResult)
    (evaluation : ClientManager.Evaluation)
    (validation : ClientManager.ValidationConfig)
  : string + option ClientManager.ValidationResult :=
  if isJudged (ClientManager.v_type validation) then
    match ClientManager.llm_judge validation with
    | None =>
        inl "Cannot read properties of undefined (reading 'criteria')"
    | Some llmConfig =>
        let criteria := default [] (ClientManager.criteria llmConfig) in
        let task := ClientManager.name evaluation +:+ " - "
                    +:+ default "" (ClientManager.description evaluation) in
        match evaluate task (judgedText response) criteria
                (ClientManager.model llmConfig) with
        | inr judgeResult =>
            inr (Some {| ClientManager.vr_type := "llm-judge";
                         ClientManager.vr_result := judgeResult;
                         ClientManager.passed :=
                           Qle_bool (7 # 10)
                                    (ClientManager.score judgeResult) |})
        | inl e => inl e
        end
    end
  else inr None.

(** *** [executeEvaluation] *)

(** [n || d] on a number that may be absent. *)
Definition orDefault (n : option Z) (d : Z) : Z :=
  match n with
  | Some x => if (x =? 0)%Z then d else x
  | None => d
  end.

Definition rpcParams (evaluation : ClientManager.Evaluation)
  : EvaluateParams :=
  {| p_evaluationId := ClientManager.id evaluation;
     p_name := ClientManager.name evaluation;
     p_url := if truthy (ClientManager.targetUrl evaluation)
              then ClientManager.targetUrl evaluation
              else ClientManager.url evaluation;
     p_tool := ClientManager.tool evaluation;
     p_input := ClientManager.input evaluation;
     p_timeout := Some (orDefault (ClientManager.timeout evaluation)
                                  30000) |}.

(** The part of [executeEvaluation] before the response is awaited: the
    status becomes [running] and the call is issued. [callId] is the
    correlation id the correlator mints. *)
Definition executeEvaluation_call (s : t) (client : Connection)
    (evaluation : ClientManager.Evaluation) (callId : string) : t :=
  let s := emit (Log info "Starting evaluation") s in
  let s := withClientManager
             (ClientManager.updateEvaluationStatus (clientManager s)
                (clientId client) (ClientManager.id evaluation)
                "running" None) s in
  let '(r, request) :=
    RpcClient.callMethod (rpcClient client) callId "evaluate"
      (rpcParams evaluation)
      (orDefault (ClientManager.timeout evaluation) 45000) in
  let s := store (withRpcClient r client) s in
  emit (Send (id client) request) s.

(** The part after the await: [response] is what the call settled with
    (an error for a timeout, an RPC error or a lost connection). The
    second component is the error the operation re-throws. *)
Definition executeEvaluation_settle (evaluate : Judge) (s : t)
    (client : Connection) (evaluation : ClientManager.Evaluation)
    (response : string + RpcResult) (duration : Z) : t * option string :=
  let failed (s : t) (e : string) : t * option string :=
    let s := emit (Log error "Evaluation failed") s in
    (withClientManager
       (ClientManager.updateEvaluationStatus (clientManager s)
          (clientId client) (ClientManager.id evaluation) "failed"
          (Some (ClientManager.Failure e duration))) s,
     Some e) in
  match response with
  | inl e => failed s e
  | inr response =>
      let s := emit (Log info "Evaluation response received") s in
      let validationResult :=
        match ClientManager.validation evaluation with
        | Some v => validateResponse evaluate response evaluation v
        | None => inr None
        end in
      match validationResult with
      | inl e => failed s e
      | inr validationResult =>
          let s := withClientManager
                     (ClientManager.updateEvaluationStatus
                        (clientManager s) (clientId client)
                        (ClientManager.id evaluation) "completed"
                        (Some (ClientManager.Outcome response
                                 validationResult duration))) s in
          (emit (Log info "evaluation") s, None)
      end
  end.

(** The whole operation; [during] is what the socket callbacks did to the
    server while the response was awaited (the frame that settled the call
    among them). *)
Definition executeEvaluation (evaluate : Judge) (during : t → t) (s : t)
    (client : Connection) (evaluation : ClientManager.Evaluation)
    (callId : string) (response : string + RpcResult) (duration : Z)
  : t * option string :=
  executeEvaluation_settle evaluate
    (during (executeEvaluation_call s client evaluation callId))
    client evaluation response duration.

(** *** [processClientEvaluations], up to the awaited response *)

Definition processClientEvaluations (s : t) (key callId : string) : t :=
  match getAgent s key with
  | None => s
  | Some client =>
      if negb (ready client) then s
      else
        match ClientManager.getNextEvaluation (clientManager s) key with
        | None => emit (Log info "No pending evaluations for client") s
        | Some evaluation =>
            executeEvaluation_call s client evaluation callId
        end
  end.

(** *** The server's event loop *)

Inductive Event :=
| Connected (connectionId address at_ : string)
| Received (connection : string) (m : Message)
| Closed (connection : string)
| Process (key callId : string)
| Execute (connection : string) (evaluation : ClientManager.Evaluation)
          (callId : string)
| Settled (evaluate : Judge) (connection : string)
          (evaluation : ClientManager.Evaluation)
          (response : string + RpcResult) (duration : Z).

(** Socket callbacks close over the connection object, so they see its
    current state in the heap. *)
Definition step (s : t) (e : Event) : t :=
  match e with
  | Connected connectionId address at_ =>
      handleConnection s connectionId address at_
  | Received r m =>
      match connections s !! r with
      | Some connection => handleMessage s connection m
      | None => s
      end
  | Closed r =>
      match connections s !! r with
      | Some connection =>
          let connection := withSocket CLOSED connection in
          handleDisconnection (store connection s) connection
      | None => s
      end
  | Process key callId => processClientEvaluations s key callId
  | Execute r evaluation callId =>
      match connections s !! r with
      | Some connection =>
          executeEvaluation_call s connection evaluation callId
      | None => s
      end
  | Settled evaluate r evaluation response duration =>
      match connections s !! r with
      | Some connection =>
          (executeEvaluation_settle evaluate s connection evaluation
             response duration).1
      | None => s
      end
  end.

Definition run (s : t) (es : list Event) : t := foldl step s es.

(** Frames sent to a connection, oldest first. *)
Definition sentTo (r : string) (s : t) : list Outbound :=
  omap (λ e, match e with
             | Send r' f => if decide (r' = r) then Some f else None
             | _ => None
             end) (rev (effects s)).

End EvaluationServer.

(** ** Agent runtime (peer) *)

Module EvaluationAgent.

(** What a tool's [execute(input)] promise does: it fulfils or rejects
    after some milliseconds, or never settles. *)
Inductive Thrown :=
| ErrorObject (message : string)
| NotAnError.

Inductive ToolRun :=
| Returns (after : Z) (result : string)
| Throws (after : Z) (e : Thrown)
| Hangs.

Record Tool := { execute : string → ToolRun }.

(** [ToolRegistry]: the registered tools by name. *)
Definition ToolRegistry : Type := gmap string Tool.

Definition getRegisteredTool (registry : ToolRegistry) (name : string)
  : option Tool := registry !! name.

(** Modelled from the spec: WebSocketRPCClient.js is not part of the
    sources. The client owns one socket; [send] writes a frame on it,
    [disconnect] closes it, [isConnectionReady] tells whether it is
    open. *)
Record WebSocketRPCClient := {
  socket : nat;
  connectionReady : bool
}.

Inductive AgentEffect :=
| Sent (socket : nat) (frame : Frame)
| SocketClosed (socket : nat)
| IntervalSet (ms : Z)
| IntervalCleared
| Logged (level : LogLevel) (text : string).

Record ActiveEvaluation := { startTime : Z; a_tool : string }.

Record t := {
  client : option WebSocketRPCClient;
  clientId : string;
  endpoint : string;
  secretKey : option string;
  registered : bool;
  ready : bool;
  activeEvaluations : gmap string ActiveEvaluation;
  heartbeatInterval : option Z;
  trace : list AgentEffect
}.

Definition new (cid ep : string) (key : option string) : t :=
  {| client := None; clientId := cid; endpoint := ep; secretKey := key;
     registered := false; ready := false; activeEvaluations := ∅;
     heartbeatInterval := None; trace := [] |}.

(** *** Field updates *)

Definition emit (e : AgentEffect) (a : t) : t :=
  {| client := client a; clientId := clientId a; endpoint := endpoint a;
     secretKey := secretKey a; registered := registered a;
     ready := ready a; activeEvaluations := activeEvaluations a;
     heartbeatInterval := heartbeatInterval a; trace := e :: trace a |}.

Definition withClient (c : option WebSocketRPCClient) (a : t) : t :=
  {| client := c; clientId := clientId a; endpoint := endpoint a;
     secretKey := secretKey a; registered := registered a;
     ready := ready a; activeEvaluations := activeEvaluations a;
     heartbeatInterval := heartbeatInterval a; trace := trace a |}.

Definition withRegistered (b : bool) (a : t) : t :=
  {| client := client a; clientId := clientId a; endpoint := endpoint a;
     secretKey := secretKey a; registered := b;
     ready := ready a; activeEvaluations := activeEvaluations a;
     heartbeatInterval := heartbeatInterval a; trace := trace a |}.

Definition withReady (b : bool) (a : t) : t :=
  {| client := client a; clientId := clientId a; endpoint := endpoint a;
     secretKey := secretKey a; registered := registered a;
     ready := b; activeEvaluations := activeEvaluations a;
     heartbeatInterval := heartbeatInterval a; trace := trace a |}.

Definition withActive (m : gmap string ActiveEvaluation) (a : t) : t :=
  {| client := client a; clientId := clientId a; endpoint := endpoint a;
     secretKey := secretKey a; registered := registered a;
     ready := ready a; activeEvaluations := m;
     heartbeatInterval := heartbeatInterval a; trace := trace a |}.

Definition withHeartbeat (h : option Z) (a : t) : t :=
  {| client := client a; clientId := clientId a; endpoint := endpoint a;
     secretKey := secretKey a; registered := registered a;
     ready := ready a; activeEvaluations := activeEvaluations a;
     heartbeatInterval := h; trace := trace a |}.

(** [this.client.send(frame)]. *)
Definition send (c : WebSocketRPCClient) (f : Frame) (a : t) : t :=
  emit (Sent (socket c) f) a.

(** *** [connect] and [disconnect] *)

Definition connect (a : t) (sock : nat) : t :=
  match client a with
  | Some c =>
      if connectionReady c then emit (Logged warn "Already connected") a
      else withClient (Some {| socket := sock; connectionReady := true |})
             (emit (Logged info "Connecting to evaluation server") a)
  | None =>
      withClient (Some {| socket := sock; connectionReady := true |})
        (emit (Logged info "Connecting to evaluation server") a)
  end.

Definition stopHeartbeat (a : t) : t :=
  match heartbeatInterval a with
  | Some _ => withHeartbeat None (emit IntervalCleared a)
  | None => a
  end.

Definition disconnect (a : t) : t :=
  let a := stopHeartbeat a in
  let a := match client a with
           | Some c => withClient None (emit (SocketClosed (socket c)) a)
           | None => a
           end in
  let a := withRegistered false a in
  let a := withReady false a in
  let a := withActive ∅ a in
  emit (Logged info "Disconnected from evaluation server") a.

(** The [disconnected] callback of the socket client. *)
Definition onDisconnected (a : t) : t :=
  let a := emit (Logged info "WebSocket disconnected") a in
  let a := withClient
             (c ← client a;
              Some {| socket := socket c; connectionReady := false |}) a in
  let a := withRegistered false a in
  let a := withReady false a in
  stopHeartbeat a.

(** *** [register], [sendReady], heartbeat, [sendStatus] *)

Definition register (a : t) : t :=
  match client a with
  | None => a
  | Some c =>
      let a := emit (Logged info "Registering with server") a in
      send c (Register (clientId a) (secretKey a)
                (Some {| tools := ToolList []; maxConcurrency := Some 3;
                         version := Some "1.0.0"; tabId := None |})) a
  end.

Definition sendReady (a : t) : t :=
  match client a with
  | None => a
  | Some c =>
      if negb (registered a) then a
      else
        let a := send c Ready a in
        let a := withReady true a in
        emit (Logged info "Sent ready signal to server") a
  end.

Definition startHeartbeat (a : t) : t :=
  match heartbeatInterval a with
  | Some _ => a
  | None => withHeartbeat (Some 30000%Z) (emit (IntervalSet 30000) a)
  end.

(** One tick of the heartbeat interval. *)
Definition heartbeat (a : t) : t :=
  match client a with
  | Some c => if ready a then send c Ping a else a
  | None => a
  end.

Definition sendStatus (evaluationId status : string)
    (progress : option Q) (message : option string) (a : t) : t :=
  match client a with
  | None => a
  | Some c =>
      if negb (ready a) then a
      else send c (Status evaluationId status progress message) a
  end.

(** *** [handleRegistrationAck] *)

Definition handleRegistrationAck (a : t) (status : AckStatus) : t :=
  match status with
  | accepted =>
      let a := emit (Logged info "Registration accepted") a in
      let a := withRegistered true a in
      let a := sendReady a in
      startHeartbeat a
  | rejected =>
      let a := emit (Logged error "Registration rejected") a in
      disconnect a
  end.

(** *** [executeToolWithTimeout] *)

Definition timeoutError (timeout : Z) : Thrown :=
  ErrorObject ("Tool execution timeout after " +:+ pretty timeout +:+ "ms").

(** The milliseconds a timer set by [setTimeout(f, delay)] waits, by the
    rule of Node's timers: a delay below 1, or one that does not fit a
    signed 32-bit integer, is set to 1. *)
Definition timerDelay (delay : Z) : Z :=
  if ((delay <? 1) || (2147483647 <? delay))%Z then 1%Z else delay.

(** The race of the tool's promise against the timer. A promise that is
    settled already settles after 0 milliseconds, before any timer. When
    both fall on the same millisecond the timer, which was set first, is
    taken to fire first. *)
Definition executeToolWithTimeout (tool : Tool) (input : string)
    (timeout : Z) : Thrown + string :=
  match execute tool input with
  | Returns after result =>
      if (after <? timerDelay timeout)%Z then inr result
      else inl (timeoutError timeout)
  | Throws after e =>
      if (after <? timerDelay timeout)%Z then inl e
      else inl (timeoutError timeout)
  | Hangs => inl (timeoutError timeout)
  end.

(** *** [handleEvaluationRequest] *)

(** Modelled from the spec: [ErrorCodes] is declared in
    EvaluationProtocol.js, which is not part of the sources; the code is
    a JSON-RPC server-error code (4.1, [error:{code,message,data}]). *)
Definition TOOL_EXECUTION_ERROR : Z := (-32000)%Z.

(** [error instanceof Error ? error.message : 'Unknown error']. *)
Definition errorMessage (e : Thrown) : string :=
  match e with
  | ErrorObject m => m
  | NotAnError => "Unknown error"
  end.

Definition effectiveTimeout (params : EvaluateParams) : Z :=
  match p_timeout params with
  | Some x => if (x =? 0)%Z then 30000%Z else x
  | None => 30000%Z
  end.

(** The error object of the JSON-RPC error response. *)
Definition toolFailure (params : EvaluateParams) (e : string) : RpcError :=
  {| code := TOOL_EXECUTION_ERROR;
     message := "Tool execution failed";
     data := Some {| d_tool := p_tool params;
                     d_error := e;
                     d_url := p_url params |} |}.

(** The try block up to the awaited tool run. *)
Definition beginEvaluation (registry : ToolRegistry) (a : t)
    (params : EvaluateParams) (now : Z) : t * (Thrown + Tool) :=
  let a := emit (Logged info "Received evaluation request") a in
  let a := withActive
             (<[p_evaluationId params :=
                  {| startTime := now; a_tool := p_tool params |}]>
                (activeEvaluations a)) a in
  let a := sendStatus (p_evaluationId params) "running" (Some (1 # 10)%Q)
             (Some "Starting evaluation...") a in
  match getRegisteredTool registry (p_tool params) with
  | None => (a, inl (ErrorObject ("Tool not found: " +:+ p_tool params)))
  | Some tool =>
      let a := if EvaluationServer.truthy (p_url params) then
                 sendStatus (p_evaluationId params) "running"
                   (Some (2 # 10)%Q) (Some "Navigating to URL...") a
               else a in
      let a := sendStatus (p_evaluationId params) "running"
                 (Some (5 # 10)%Q)
                 (Some ("Executing " +:+ p_tool params +:+ "...")) a in
      (a, inr tool)
  end.

(** What follows the awaited tool run: the reply, the closing status
    frame and the [finally] clause. *)
Definition finishEvaluation (a : t) (requestId : string)
    (params : EvaluateParams) (outcome : Thrown + string)
    (elapsed : Z) : t :=
  let a :=
    match outcome with
    | inr toolResult =>
        let rpcResponse :=
          RpcSuccess requestId
            {| output := Some toolResult; executionTime := elapsed;
               r_status := "success";
               r_evaluationId := Some (p_evaluationId params) |} in
        let a := match client a with
                 | Some c => send c rpcResponse a
                 | None => a
                 end in
        let a := sendStatus (p_evaluationId params) "completed"
                   (Some 1%Q)
                   (Some "Evaluation completed successfully") a in
        emit (Logged info "Evaluation completed successfully") a
    | inl e =>
        let a := emit (Logged error "Evaluation failed") a in
        let rpcResponse :=
          RpcFailure requestId (toolFailure params (errorMessage e)) in
        let a := match client a with
                 | Some c => send c rpcResponse a
                 | None => a
                 end in
        sendStatus (p_evaluationId params) "failed" (Some 1%Q)
          (Some (errorMessage e)) a
    end in
  withActive (delete (p_evaluationId params) (activeEvaluations a)) a.

(** The whole handler; [during] is what other callbacks did to the agent
    while the tool was running (the identity when nothing happened). *)
Definition handleEvaluationRequest (registry : ToolRegistry)
    (during : t → t) (a : t) (requestId : string)
    (params : EvaluateParams) (now elapsed : Z) : t :=
  match beginEvaluation registry a params now with
  | (a, inl e) => finishEvaluation a requestId params (inl e) elapsed
  | (a, inr tool) =>
      finishEvaluation (during a) requestId params
        (executeToolWithTimeout tool (p_input params)
           (effectiveTimeout params))
        elapsed
  end.

(** *** [handleMessage] *)

(** Modelled from the spec: the guards of EvaluationProtocol.js are not
    part of the sources. A frame is an evaluation request when it is a
    JSON-RPC request of method [evaluate], the only method defined
    (4.1). *)
Definition isEvaluationRequest (method : string) : bool :=
  String.eqb method "evaluate".

Definition handleMessage (registry : ToolRegistry) (a : t)
    (m : Outbound) (now elapsed : Z) : t :=
  match m with
  | Welcome _ _ =>
      register (emit (Logged info "Received welcome message from server") a)
  | RegistrationAck _ status _ _ _ => handleRegistrationAck a status
  | RpcRequest i method params =>
      if isEvaluationRequest method then
        handleEvaluationRequest registry (λ a, a) a i params now elapsed
      else emit (Logged warn "Unknown message type") a
  | Pong => emit (Logged debug "Received pong") a
  end.

(** *** The agent's callbacks *)

Inductive Event :=
| Connect (sock : nat)
| Disconnect
| Incoming (m : Outbound) (now elapsed : Z)
| SocketDisconnected
| Tick.

Definition step (registry : ToolRegistry) (a : t) (e : Event) : t :=
  match e with
  | Connect sock => connect a sock
  | Disconnect => disconnect a
  | Incoming m now elapsed => handleMessage registry a m now elapsed
  | SocketDisconnected => onDisconnected a
  | Tick => heartbeat a
  end.

Definition run (registry : ToolRegistry) (a : t) (es : list Event) : t :=
  foldl (step registry) a es.

(** JSON-RPC response frames among the agent's effects, oldest first. *)
Definition responsesOn (sock : nat) (a : t) : list Frame :=
  omap (λ e, match e with
             | Sent k f =>
                 match rpc f with
                 | Some _ => if decide (k = sock) then Some f else None
                 | None => None
                 end
             | _ => None
             end) (rev (trace a)).

Definition isRegister (f : Frame) : bool :=
  match control f with Register _ _ _ => true | _ => false end.

(** Frames written on a socket, oldest first. *)
Definition sentOn (sock : nat) (a : t) : list Frame :=
  omap (λ e, match e with
             | Sent k f => if decide (k = sock) then Some f else None
             | _ => None
             end) (rev (trace a)).

End EvaluationAgent.

(** ** Invariants of the connection heap *)

(** A connection that is ready has registered. *)
Definition readyAfterRegistered (c : EvaluationServer.Connection) : Prop :=
  EvaluationServer.ready c = true → EvaluationServer.registered c = true.

Definition ready_implies_registered (s : EvaluationServer.t) : Prop :=
  ∀ r c, EvaluationServer.connections s !! r = Some c →
         readyAfterRegistered c.

(** ** The agent and its sockets *)

(** The agent holds no client on socket [k]. *)
Definition offSocket (k : nat) (a : EvaluationAgent.t) : Prop :=
  ∀ c, EvaluationAgent.client a = Some c → EvaluationAgent.socket c ≠ k.

(** From [a] to [a1] nothing was written on socket [k], and [a1] holds no
    client on it. *)
Definition quiet (k : nat) (a a1 : EvaluationAgent.t) : Prop :=
  EvaluationAgent.sentOn k a1 = EvaluationAgent.sentOn k a
  ∧ offSocket k a1.

(** Every later [connect] opens a socket other than [k]. *)
Definition otherSockets (k : nat) (es : list EvaluationAgent.Event) : Prop :=
  ∀ sock, EvaluationAgent.Connect sock ∈ es → sock ≠ k.

(** ** The specification's composite key *)

(** The directory key as section 4.3 words it:
    [clientId + ':' + (capabilities.tabId ?? 'default')]. The server under
    verification is compared against it. *)
Definition compositeClientId (clientId : string)
    (capabilities : option Capabilities) : string :=
  clientId +:+ ":" +:+ default "default" (capabilities ≫= tabId).

(** The pass mark as section 4.4 words it: the definition's threshold when
    one is configured, 0.7 otherwise. *)
Definition specThreshold (v : ClientManager.ValidationConfig) : Q :=
  default (7 # 10)%Q (ClientManager.llm_judge v ≫= ClientManager.threshold).

(** ** Concrete stores, connections and runs *)

Module Examples.

Import EvaluationServer.

Definition judged (t : option Q) : ClientManager.ValidationConfig :=
  {| ClientManager.v_type := "llm-judge";
     ClientManager.llm_judge :=
       Some {| ClientManager.criteria := Some ["mentions Paris"];
               ClientManager.model := None;
               ClientManager.threshold := t |} |}.

Definition e1 (t : option Q) : ClientManager.Evaluation :=
  {| ClientManager.id := "e1"; ClientManager.name := "capital";
     ClientManager.description := None; ClientManager.targetUrl := None;
     ClientManager.url := None;
     ClientManager.tool := "chat"; ClientManager.input := "France?";
     ClientManager.timeout := Some 5000%Z;
     ClientManager.validation := Some (judged t);
     ClientManager.status := "pending";
     ClientManager.lastResult := None |}.

(** A store with one client, [base], whose secret is [s3cret] and who
    owns the evaluation [e1], judged with the pass mark [t] when one is
    configured. *)
Definition storeWith (t : option Q) : ClientManager.t :=
  {| ClientManager.validate := λ c k,
       if String.eqb c "base" then
         if bool_decide (k = Some "s3cret") then
           {| ClientManager.valid := true; ClientManager.reason := None |}
         else {| ClientManager.valid := false;
                 ClientManager.reason := Some "Invalid secret key" |}
       else {| ClientManager.valid := false;
               ClientManager.reason := Some "Client not found" |};
     ClientManager.names := {[ "base" := "Base client" ]};
     ClientManager.evaluations := {[ "base" := [e1 t] ]} |}.

Definition store1 : ClientManager.t := storeWith None.

Definition tab (x : string) : option Capabilities :=
  Some {| tools := ToolList []; maxConcurrency := Some 1;
          version := Some "1.0.0"; tabId := Some x |}.

(** Capabilities whose [tools] is not an array (a string, say). *)
Definition toolsAsText : option Capabilities :=
  Some {| tools := NotAnArray; maxConcurrency := Some 1;
          version := Some "1.0.0"; tabId := None |}.

Definition registerAs (x : string) : Message :=
  Json (Register "base" (Some "s3cret") (tab x)).

Definition server0 : t := empty store1.

Definition u1 : Connection := newConnection "u1" "127.0.0.1" "t0".
Definition u2 : Connection := newConnection "u2" "127.0.0.1" "t0".

(** The connection [u1] once it has registered as [base], declared itself
    ready and been sent the call [rpc-1]. *)
Definition busy : Connection :=
  withRpcClient
    (RpcClient.callMethod RpcClient.new "rpc-1" "evaluate"
       (rpcParams (e1 None)) 5000).1
    (markReady (markRegistered "base" (tab "t1") u1)).

(** Two tabs of [base] connect and register. *)
Definition twoTabs : list Event :=
  [Connected "u1" "127.0.0.1" "t0"; Connected "u2" "127.0.0.1" "t0";
   Received "u1" (registerAs "t1"); Received "u2" (registerAs "t2")].

(** A client registers, declares itself ready, is sent [e1], and reports
    [completed] by a [status] frame while the call is pending. *)
Definition statusMidFlight : list Event :=
  [Connected "u1" "127.0.0.1" "t0"; Received "u1" (registerAs "t1");
   Received "u1" (Json Ready); Process "base" "rpc-1";
   Received "u1" (Json (Status "e1" "completed" (Some 1%Q) None))].

(** A client sends [ready] before it registers. *)
Definition readyFirst : list Event :=
  [Connected "u1" "127.0.0.1" "t0"; Received "u1" (Json Ready)].

(** A client registers, never sends [ready], and is sent [e1]. *)
Definition notReady : list Event :=
  [Connected "u1" "127.0.0.1" "t0"; Received "u1" (registerAs "t1");
   Execute "u1" (e1 None) "rpc-1"].

Definition statusOf (s : t) (client evaluation : string) : option string :=
  ClientManager.status
    <$> ClientManager.findEvaluation (clientManager s) client evaluation.

(** A judge that answers a fixed score. *)
Definition scoring (q : Q) : Judge :=
  λ _ _ _ _, inr {| ClientManager.score := q;
                     ClientManager.explanation := "" |}.

Definition paris : RpcResult :=
  {| output := Some "Paris"; executionTime := 100%Z;
     r_status := "success"; r_evaluationId := Some "e1" |}.

(** One JSON object that is a response to the call [i] and carries the
    type tag [ping] as well. *)
Definition taggedPing (i : string) : Frame :=
  {| rpc := Some (RpcSuccess i paris); control := Ping |}.

(** A client registers, declares itself ready, is sent [e1], answers, and
    the judge scores the answer [q]. *)
Definition judgedRun (t : option Q) (q : Q) : list Event :=
  [Connected "u1" "127.0.0.1" "t0"; Received "u1" (registerAs "t1");
   Received "u1" (Json Ready); Process "base" "rpc-1";
   Received "u1" (Json (RpcSuccess "rpc-1" paris));
   Settled (scoring q) "u1" (e1 t) (inr paris) 120].

Definition lastResultOf (s : t) (client evaluation : string)
  : option ClientManager.StoredResult :=
  ClientManager.findEvaluation (clientManager s) client evaluation
  ≫= ClientManager.lastResult.

End Examples.

Module AgentExamples.

Import EvaluationAgent.

Definition chat : Tool := {| execute := λ _, Returns 100 "Paris" |}.
Definition stalled : Tool := {| execute := λ _, Hangs |}.
Definition broken : Tool :=
  {| execute := λ _, Throws 5 (ErrorObject "no such element") |}.

Definition registry1 : ToolRegistry :=
  {[ "chat" := chat; "stalled" := stalled; "broken" := broken ]}.

Definition socket1 : WebSocketRPCClient :=
  {| socket := 1; connectionReady := true |}.

(** An agent that holds an open socket and has sent [register]. *)
Definition waiting : t :=
  register (connect (new "base" "ws://127.0.0.1:8080" (Some "s3cret")) 1).

(** An agent that registered and declared itself ready. *)
Definition serving : t := handleRegistrationAck waiting accepted.

(** What may follow a rejection: the server's frames, ticks, a new
    connection on another socket. *)
Definition afterwards : list Event :=
  [Incoming (Welcome "server-001" "1.0.0") 0 0; Tick;
   Incoming (RegistrationAck "base" accepted None None (Some 1)) 0 0;
   Connect 2; Incoming (Welcome "server-001" "1.0.0") 0 0].

Definition ask (tool : string) (timeout : Z) : EvaluateParams :=
  {| p_evaluationId := "e1"; p_name := "capital"; p_url := None;
     p_tool := tool; p_input := "France?"; p_timeout := Some timeout |}.

End AgentExamples.

(** ** Frames among effects *)

(** The frame an effect sends to connection [r], if it sends one. *)
Definition toConnection (r : string) (e : Effect) : option Outbound :=
  match e with
  | Send r1 f => if decide (r1 = r) then Some f else None
  | _ => None
  end.

(** The frames a list of effects sends, with their addressees. *)
Definition frames (es : list Effect) : list (string * Outbound) :=
  omap (λ e, match e with Send r f => Some (r, f) | _ => None end) es.

(** [ws.readyState === ws.OPEN]. *)
Definition isOpen (w : EvaluationServer.ReadyState) : bool :=
  match w with EvaluationServer.OPEN => true | _ => false end.

(** ** Shape of the connection heap and of the directory *)

(** A connection object sits at its own id, and it carries a client id
    exactly when it has registered. *)
Definition heapCoherent (s : EvaluationServer.t) : Prop :=
  ∀ r c, EvaluationServer.connections s !! r = Some c →
         EvaluationServer.id c = r
         ∧ (EvaluationServer.registered c = true
            ↔ is_Some (EvaluationServer.clientId c)).

(** Every directory entry leads to a connection object. *)
Definition directoryBound (s : EvaluationServer.t) : Prop :=
  ∀ k r, EvaluationServer.connectedAgents s !! k = Some r →
         is_Some (EvaluationServer.connections s !! r).

(** What a connection has been sent starts with the welcome frame, and a
    connection the server never accepted has been sent nothing. *)
Definition welcomedFirst (s : EvaluationServer.t) : Prop :=
  ∀ r, match EvaluationServer.connections s !! r with
       | Some _ =>
           ∃ rest, EvaluationServer.sentTo r s
                   = Welcome "server-001" "1.0.0" :: rest
       | None => EvaluationServer.sentTo r s = []
       end.

(** A connection carries a client id exactly when it has registered. *)
Definition flagsCoherent (c : EvaluationServer.Connection) : Prop :=
  EvaluationServer.registered c = true
  ↔ is_Some (EvaluationServer.clientId c).

(** [c1] is a later state of the connection object [c]: the same id, and
    no flag that was set has been cleared. *)
Definition laterOf (c c1 : EvaluationServer.Connection) : Prop :=
  EvaluationServer.id c1 = EvaluationServer.id c
  ∧ (EvaluationServer.registered c = true
     → EvaluationServer.registered c1 = true)
  ∧ (EvaluationServer.ready c = true → EvaluationServer.ready c1 = true)
  ∧ (flagsCoherent c → flagsCoherent c1).

(** No event of the list accepts a connection under the id [r]. *)
Definition notAcceptedAgain (r : string)
    (es : list EvaluationServer.Event) : Prop :=
  ∀ a t0, EvaluationServer.Connected r a t0 ∉ es.

(** ** Status report *)

Module Report.

Import EvaluationServer.

(** [Array.from(this.connectedAgents.values())]: the connection objects
    the directory leads to. The order of a JavaScript [Map] is not kept;
    the report below only counts. *)
Definition agents (s : t) : list Connection :=
  omap (λ kv, connections s !! kv.2) (map_to_list (connectedAgents s)).

Record Status := {
  connectedCount : nat;
  readyCount : nat;
  activeEvaluations : nat
}.

(** [getStatus]: [connectedAgents] is the size of the directory,
    [readyAgents] the number of its connections that are ready.
    [this.activeEvaluations] is set to 0 by the constructor and assigned
    nowhere else. *)
Definition getStatus (s : t) : Status :=
  {| connectedCount := size (connectedAgents s);
     readyCount := length (List.filter ready (agents s));
     activeEvaluations := 0 |}.

End Report.

(** ** Queries and bookkeeping of the agent *)

Module AgentQueries.

Import EvaluationAgent.

(** [getActiveEvaluationsCount]. *)
Definition getActiveEvaluationsCount (a : t) : nat :=
  size (activeEvaluations a).

(** [getActiveEvaluations]: the ids of the evaluations being run. *)
Definition getActiveEvaluations (a : t) : list string :=
  (map_to_list (activeEvaluations a)).*1.

(** Interval timers set and not yet cleared, counted over a trace. *)
Fixpoint liveIntervals (tr : list AgentEffect) : Z :=
  match tr with
  | [] => 0%Z
  | IntervalSet _ :: tr => (liveIntervals tr + 1)%Z
  | IntervalCleared :: tr => (liveIntervals tr - 1)%Z
  | _ :: tr => liveIntervals tr
  end.

(** The timers the trace accounts for are the one the agent holds. *)
Definition timersBalanced (a : t) : Prop :=
  liveIntervals (trace a)
  = match heartbeatInterval a with Some _ => 1%Z | None => 0%Z end.

(** A ready agent is registered, holds a client and runs its heartbeat. *)
Definition readyMeansServing (a : t) : Prop :=
  ready a = true →
  registered a = true ∧ is_Some (client a) ∧ is_Some (heartbeatInterval a).

(** From [a] to [a1] the agent only talked: its flags, its client, its
    heartbeat and the timers of its trace are as they were. *)
Definition onlyTalked (a a1 : t) : Prop :=
  ready a1 = ready a
  ∧ registered a1 = registered a
  ∧ client a1 = client a
  ∧ heartbeatInterval a1 = heartbeatInterval a
  ∧ liveIntervals (trace a1) = liveIntervals (trace a).

Definition isRunningStatus (evaluationId : string) (f : Frame) : Prop :=
  ∃ progress message, f = Status evaluationId "running" progress message.

End AgentQueries.

(** ** A session of one agent with the server *)

Module Session.

(** The agent on socket [k] talks to the server as connection [r]. Each
    side is handed, in order, the frames the other side has written and it
    has not seen yet ([j] frames of the server and [i] frames of the agent
    are delivered); the server's frames go first. The exchange stops when
    nothing is left to deliver. *)
Fixpoint exchange (fuel : nat) (registry : EvaluationAgent.ToolRegistry)
    (r : string) (k : nat) (s : EvaluationServer.t) (a : EvaluationAgent.t)
    (i j : nat) : EvaluationServer.t * EvaluationAgent.t :=
  match fuel with
  | 0 => (s, a)
  | S fuel =>
      match EvaluationServer.sentTo r s !! j with
      | Some m =>
          exchange fuel registry r k s
            (EvaluationAgent.handleMessage registry a m 0 0) i (S j)
      | None =>
          match EvaluationAgent.sentOn k a !! i with
          | Some f =>
              exchange fuel registry r k
                (EvaluationServer.step s
                   (EvaluationServer.Received r (Json f)))
                a (S i) j
          | None => (s, a)
          end
      end
  end.

End Session.

(** ** Operator console *)

Module Console.

Import EvaluationServer.

(** What the console prints at the end of a command. *)
Inductive Line :=
| NotConnected
| NotFound
| NoEvaluations
| Completed
| Failed (message : string)
| Results (completed failed : nat).

(** [runSpecificEvaluation(clientId, evaluationId)]; [callId], [during],
    [response] and [duration] are those of the awaited
    [executeEvaluation]. *)
Definition runSpecificEvaluation (evaluate : Judge) (during : t → t)
    (s : t) (clientId evaluationId callId : string)
    (response : string + RpcResult) (duration : Z) : t * Line :=
  match getAgent s clientId with
  | None => (s, NotConnected)
  | Some connection =>
      if negb (ready connection) then (s, NotConnected)
      else
        match ClientManager.findEvaluation (clientManager s) clientId
                evaluationId with
        | None => (s, NotFound)
        | Some evaluation =>
            let s := withClientManager
                       (ClientManager.updateEvaluationStatus
                          (clientManager s) (Some clientId) evaluationId
                          "pending" None) s in
            match executeEvaluation evaluate during s connection
                    evaluation callId response duration with
            | (s, None) => (s, Completed)
            | (s, Some message) => (s, Failed message)
            end
        end
  end.

(** What one awaited [executeEvaluation] of a batch is answered with. *)
Record Answer := {
  callId : string;
  during : t → t;
  response : string + RpcResult;
  duration : Z
}.

(** The loop of [runAllEvaluations] over the client's evaluations. The
    connection is the object found at the start, read in its current
    state at each turn; the loop is cut short when the answers run out
    (the console is then still waiting). *)
Fixpoint runEach (evaluate : Judge) (s : t) (connection clientId : string)
    (evaluations : list ClientManager.Evaluation) (answers : list Answer)
    (completed failed : nat) : t * nat * nat :=
  match evaluations, answers with
  | evaluation :: evaluations, answer :: answers =>
      match connections s !! connection with
      | None => (s, completed, failed)
      | Some client =>
          let s := withClientManager
                     (ClientManager.updateEvaluationStatus
                        (clientManager s) (Some clientId)
                        (ClientManager.id evaluation) "pending" None) s in
          match executeEvaluation evaluate (during answer) s client
                  evaluation (callId answer) (response answer)
                  (duration answer) with
          | (s, None) =>
              runEach evaluate s connection clientId evaluations answers
                (S completed) failed
          | (s, Some _) =>
              runEach evaluate s connection clientId evaluations answers
                completed (S failed)
          end
      end
  | _, _ => (s, completed, failed)
  end.

(** [runAllEvaluations(clientId)]. *)
Definition runAllEvaluations (evaluate : Judge) (s : t) (clientId : string)
    (answers : list Answer) : t * Line :=
  match connectedAgents s !! clientId with
  | None => (s, NotConnected)
  | Some connection =>
      match connections s !! connection with
      | None => (s, NotConnected)
      | Some client =>
          if negb (ready client) then (s, NotConnected)
          else
            match ClientManager.getClientEvaluations (clientManager s)
                    clientId with
            | [] => (s, NoEvaluations)
            | evaluations =>
                let '(s, completed, failed) :=
                  runEach evaluate s connection clientId evaluations
                    answers 0 0 in
                (s, Results completed failed)
            end
      end
  end.

(** Whether an answer completes the evaluation: the call answered, and
    validation, when configured, raised no error. *)
Definition completes (evaluate : Judge)
    (evaluation : ClientManager.Evaluation)
    (response : string + RpcResult) : bool :=
  match response with
  | inl _ => false
  | inr resp =>
      match ClientManager.validation evaluation with
      | Some cfg =>
          match validateResponse evaluate resp evaluation cfg with
          | inr _ => true
          | inl _ => false
          end
      | None => true
      end
  end.

(** What happens while an answer is awaited leaves the connection object
    in the heap, under its id, and only adds to the trace. *)
Definition keepConnection (connection : string) (answers : list Answer)
  : Prop :=
  ∀ answer x,
    answer ∈ answers →
    (∀ c, connections x !! connection = Some c → id c = connection →
          ∃ c1, connections (during answer x) !! connection = Some c1
                ∧ id c1 = connection)
    ∧ ∃ new, effects (during answer x) = new ++ effects x.

(** The [evaluate] requests of a batch, one for each evaluation, in
    order. *)
Definition batchRequests (evaluations : list ClientManager.Evaluation)
    (answers : list Answer) : list Outbound :=
  zip_with (λ evaluation answer,
              RpcRequest (callId answer) "evaluate" (rpcParams evaluation))
    evaluations answers.

End Console.

(** ** Delivery of the agent's frames *)

(** The frames the agent wrote on socket [k] between [a] and [a1]. *)
Definition written (k : nat) (a a1 : EvaluationAgent.t) : list Frame :=
  drop (length (EvaluationAgent.sentOn k a)) (EvaluationAgent.sentOn k a1).

(** The server receives the frames, in order, on connection [r]. *)
Definition deliver (r : string) (fs : list Frame) (s : EvaluationServer.t)
  : EvaluationServer.t :=
  EvaluationServer.run s
    ((λ f, EvaluationServer.Received r (Json f)) <$> fs).

Definition isStatus (f : Frame) : Prop :=
  ∃ evaluationId status progress message,
    f = Status evaluationId status progress message.

Definition isLog (e : Effect) : Prop := ∃ level text, e = Log level text.

(** What the [try] block of the agent's [handleEvaluationRequest] ends
    with: the tool's result, or what was thrown (tool not found, the
    tool's own error, or the timeout). *)
Definition toolOutcome (registry : EvaluationAgent.ToolRegistry)
    (params : EvaluateParams) : EvaluationAgent.Thrown + string :=
  match EvaluationAgent.getRegisteredTool registry (p_tool params) with
  | None =>
      inl (EvaluationAgent.ErrorObject
             ("Tool not found: " +:+ p_tool params))
  | Some tool =>
      EvaluationAgent.executeToolWithTimeout tool (p_input params)
        (EvaluationAgent.effectiveTimeout params)
  end.

(** ** Further scenarios *)

Module Scenarios.

Import EvaluationServer Examples.

(** [u1] has registered as [base] and declared itself ready. *)
Definition oneReady : t :=
  run server0
    [Connected "u1" "127.0.0.1" "t0"; Received "u1" (registerAs "t1");
     Received "u1" (Json Ready)].

(** The connection object of [u1] in [oneReady]. *)
Definition readyU1 : Connection :=
  markReady (markRegistered "base" (tab "t1") u1).

(** Two connections accepted, neither registered. *)
Definition twoAccepted : t :=
  run server0
    [Connected "u1" "127.0.0.1" "t0"; Connected "u2" "127.0.0.1" "t0"].

(** A store that knows two clients, [base] and [spare], and asks for no
    secret. *)
Definition store2 : ClientManager.t :=
  {| ClientManager.validate := λ c _,
       if String.eqb c "base" || String.eqb c "spare" then
         {| ClientManager.valid := true; ClientManager.reason := None |}
       else {| ClientManager.valid := false;
               ClientManager.reason := Some "Client not found" |};
     ClientManager.names :=
       {[ "base" := "Base client"; "spare" := "Spare client" ]};
     ClientManager.evaluations := ∅ |}.

Definition oneAccepted2 : t :=
  run (empty store2) [Connected "u1" "127.0.0.1" "t0"].

(** [u1] has registered there as [base]. *)
Definition onceRegistered : t :=
  run oneAccepted2 [Received "u1" (Json (Register "base" None None))].

(** An evaluation validated by snapshot, which no judge scores. *)
Definition e2 : ClientManager.Evaluation :=
  {| ClientManager.id := "e2"; ClientManager.name := "front page";
     ClientManager.description := None;
     ClientManager.targetUrl := None;
     ClientManager.url := Some "https://example.org";
     ClientManager.tool := "chat"; ClientManager.input := "look";
     ClientManager.timeout := None;
     ClientManager.validation :=
       Some {| ClientManager.v_type := "snapshot";
               ClientManager.llm_judge := None |};
     ClientManager.status := "pending";
     ClientManager.lastResult := None |}.

(** The call [rpc-1] answered with [paris], nothing else happening
    meanwhile. *)
Definition answerParis : Console.Answer :=
  {| Console.callId := "rpc-1"; Console.during := λ x, x;
     Console.response := inr paris; Console.duration := 120 |}.

(** An agent that has just opened its socket, with the right secret and
    with a wrong one. *)
Definition fresh : EvaluationAgent.t :=
  EvaluationAgent.connect
    (EvaluationAgent.new "base" "ws://127.0.0.1:8080" (Some "s3cret")) 1.

Definition intruder : EvaluationAgent.t :=
  EvaluationAgent.connect
    (EvaluationAgent.new "base" "ws://127.0.0.1:8080" (Some "guess")) 1.

End Scenarios.

(** * Properties *)

(** ** Client store and correlator *)

Section Collaborators.

Import ClientManager.

Lemma registerClient_valid (cm : ClientManager.t) (cid : string)
    (key : option string) (caps : option Capabilities) :
  valid (validateClient cm cid key) = true →
  registerClient cm cid key caps
  = inr {| clientName := names cm !! cid;
           evaluationsCount := length (getClientEvaluations cm cid) |}.
Proof. intros Hv. unfold registerClient. by rewrite Hv. Qed.

Lemma find_updateFirst (i : string) (f : Evaluation → Evaluation)
    (l : list Evaluation) (e : Evaluation) :
  id (f e) = id e →
  List.find (λ x, bool_decide (id x = i)) l = Some e →
  List.find (λ x, bool_decide (id x = i)) (updateFirst i f l)
  = Some (f e).
Proof.
  intros Hid. induction l as [|x l IH]; simpl; [done|].
  case_bool_decide as Hx.
  - intros [= ->]. rewrite decide_True by done. simpl.
    by rewrite bool_decide_true by congruence.
  - intros Hl. rewrite decide_False by done. simpl.
    rewrite bool_decide_false by done. auto.
Qed.

Lemma findEvaluation_update (cm : ClientManager.t) (cid i st : string)
    (res : option StoredResult) (e : Evaluation) :
  findEvaluation cm cid i = Some e →
  findEvaluation (updateEvaluationStatus cm (Some cid) i st res) cid i
  = Some (setStatus st res e).
Proof.
  unfold findEvaluation, getClientEvaluations, updateEvaluationStatus.
  simpl. rewrite lookup_alter_eq.
  destruct (evaluations cm !! cid) as [l|]; simpl; [|done].
  by apply find_updateFirst.
Qed.

End Collaborators.

(** ** Registration and the directory *)

Section Directory.

Import EvaluationServer.

Implicit Types (s : EvaluationServer.t) (c : Connection).

Lemma handleRegistration_accepted s c cid key caps :
  ClientManager.valid
    (ClientManager.validateClient (clientManager s) cid key) = true →
  handleRegistration s c cid key caps
  = let s1 :=
      sendMessage (markRegistered cid caps c)
        (RegistrationAck cid accepted None
           (Some (welcomeText
                    {| ClientManager.clientName :=
                         ClientManager.names (clientManager s) !! cid;
                       ClientManager.evaluationsCount :=
                         length (ClientManager.getClientEvaluations
                                   (clientManager s) cid) |}))
           (Some (length (ClientManager.getClientEvaluations
                            (clientManager s) cid))))
        (withDirectory
           (<[cid := id c]> (delete (id c) (connectedAgents s)))
           (store (markRegistered cid caps c) s)) in
    match joinTools caps with
    | inr _ => emit (Log info "Client registered successfully") s1
    | inl message =>
        registrationError s1 (markRegistered cid caps c) cid message
    end.
Proof.
  intros Hv. unfold handleRegistration. rewrite Hv. simpl.
  by rewrite (registerClient_valid _ _ _ caps Hv).
Qed.

Lemma handleRegistration_rejected s c cid key caps :
  ClientManager.valid
    (ClientManager.validateClient (clientManager s) cid key) = false →
  handleRegistration s c cid key caps
  = emit (Log warn "Client registration rejected")
      (sendMessage c
         (RegistrationAck cid rejected
            (ClientManager.reason
               (ClientManager.validateClient (clientManager s) cid key))
            None None) s).
Proof. intros Hv. unfold handleRegistration. by rewrite Hv. Qed.

Lemma connectedAgents_sendMessage c f s :
  connectedAgents (sendMessage c f s) = connectedAgents s.
Proof. unfold sendMessage. by destruct (ws c). Qed.

Lemma connections_sendMessage c f s :
  connections (sendMessage c f s) = connections s.
Proof. unfold sendMessage. by destruct (ws c). Qed.

Lemma clientManager_sendMessage c f s :
  clientManager (sendMessage c f s) = clientManager s.
Proof. unfold sendMessage. by destruct (ws c). Qed.

Lemma connectedAgents_registered s c cid key caps :
  ClientManager.valid
    (ClientManager.validateClient (clientManager s) cid key) = true →
  connectedAgents (handleRegistration s c cid key caps)
  = <[cid := id c]> (delete (id c) (connectedAgents s)).
Proof.
  intros Hv. rewrite handleRegistration_accepted by done. cbv zeta.
  destruct (joinTools caps); unfold registrationError;
    rewrite ?connectedAgents_sendMessage; cbn -[sendMessage];
    by rewrite ?connectedAgents_sendMessage.
Qed.

Lemma connections_registered s c cid key caps :
  ClientManager.valid
    (ClientManager.validateClient (clientManager s) cid key) = true →
  connections (handleRegistration s c cid key caps)
  = <[id c := markRegistered cid caps c]> (connections s).
Proof.
  intros Hv. rewrite handleRegistration_accepted by done. cbv zeta.
  destruct (joinTools caps); unfold registrationError;
    rewrite ?connections_sendMessage; cbn -[sendMessage];
    by rewrite ?connections_sendMessage.
Qed.

Lemma clientManager_handleRegistration s c cid key caps :
  clientManager (handleRegistration s c cid key caps) = clientManager s.
Proof.
  unfold handleRegistration, registrationError.
  destruct (ClientManager.valid
              (ClientManager.validateClient (clientManager s) cid key));
    cbn -[sendMessage].
  - destruct (ClientManager.registerClient _ _ _ _); cbn -[sendMessage];
      [by rewrite clientManager_sendMessage|].
    destruct (joinTools caps);
      repeat first [rewrite clientManager_sendMessage
                   |progress cbn -[sendMessage]]; done.
  - by rewrite clientManager_sendMessage.
Qed.

(** C1, as the server implements it. A [register] frame that passes
    credential validation moves the connection's directory entry from its
    transient connection id to the key [clientId] alone: the tab id of
    the capabilities takes no part in the key. All other keys are left as
    they were. Two connections that register under different client ids
    both keep their entry; two connections that register under the same
    client id (for instance two tabs of one base client) share the key,
    and the later registration replaces the earlier one's entry. *)
Theorem registration_keyed_by_clientId s c cid key caps :
  ClientManager.valid
    (ClientManager.validateClient (clientManager s) cid key) = true →
  let s1 := handleRegistration s c cid key caps in
  connectedAgents s1 !! cid = Some (id c)
  ∧ getAgent s1 cid = Some (markRegistered cid caps c)
  ∧ (id c ≠ cid → connectedAgents s1 !! id c = None)
  ∧ (∀ k, k ≠ cid → k ≠ id c →
       connectedAgents s1 !! k = connectedAgents s !! k)
  ∧ (∀ c2 cid2 key2 caps2,
       ClientManager.valid
         (ClientManager.validateClient (clientManager s) cid2 key2)
       = true →
       id c2 ≠ id c →
       let s2 := handleRegistration s1 c2 cid2 key2 caps2 in
       (cid2 ≠ cid → id c2 ≠ cid →
          connectedAgents s2 !! cid = Some (id c)
          ∧ connectedAgents s2 !! cid2 = Some (id c2))
       ∧ (cid2 = cid →
          connectedAgents s2 !! cid = Some (id c2)
          ∧ ∀ k, connectedAgents s2 !! k = Some (id c) →
                 k ≠ cid ∧ k ≠ id c
                 ∧ connectedAgents s !! k = Some (id c))).
Proof.
  intros Hv s1.
  assert (Hd1 : connectedAgents s1
                = <[cid := id c]> (delete (id c) (connectedAgents s)))
    by by apply connectedAgents_registered.
  split; [|split; [|split; [|split]]].
  - rewrite Hd1. apply lookup_insert_eq.
  - unfold getAgent. rewrite Hd1, lookup_insert_eq. simpl.
    unfold s1. rewrite connections_registered by done.
    apply lookup_insert_eq.
  - intros Hne. rewrite Hd1, lookup_insert_ne by done.
    apply lookup_delete_eq.
  - intros k Hk1 Hk2. rewrite Hd1, lookup_insert_ne by done.
    by rewrite lookup_delete_ne.
  - intros c2 cid2 key2 caps2 Hv2 Hids s2.
    assert (Hd2 : connectedAgents s2
                  = <[cid2 := id c2]> (delete (id c2) (connectedAgents s1))).
    { apply connectedAgents_registered.
      unfold s1. by rewrite clientManager_handleRegistration. }
    rewrite Hd2, Hd1. split.
    + intros Hne1 Hne2. split; [|apply lookup_insert_eq].
      rewrite lookup_insert_ne, lookup_delete_ne by done.
      apply lookup_insert_eq.
    + intros ->. split; [apply lookup_insert_eq|].
      intros k Hk.
      destruct (decide (cid = k)) as [<-|Hk1].
      { rewrite lookup_insert_eq in Hk. congruence. }
      rewrite lookup_insert_ne in Hk by done.
      destruct (decide (id c2 = k)) as [<-|Hk2].
      { by rewrite lookup_delete_eq in Hk. }
      rewrite lookup_delete_ne, lookup_insert_ne in Hk by done.
      destruct (decide (id c = k)) as [<-|Hk3].
      { by rewrite lookup_delete_eq in Hk. }
      rewrite lookup_delete_ne in Hk by done.
      repeat split; congruence.
Qed.

End Directory.

Section DirectoryExamples.

Import EvaluationServer Examples.

Lemma registration_keyed_by_clientId_witness :
  ClientManager.valid
    (ClientManager.validateClient (clientManager server0) "base"
       (Some "s3cret")) = true
  ∧ (let s1 := handleRegistration server0 u1 "base" (Some "s3cret")
                 (tab "t1") in
     connectedAgents s1 !! "base" = Some "u1"
     ∧ connectedAgents
         (handleRegistration s1 u2 "base" (Some "s3cret") (tab "t2"))
       !! "base" = Some "u2").
Proof.
  split; [reflexivity|].
  pose proof (registration_keyed_by_clientId server0 u1 "base"
                (Some "s3cret") (tab "t1") eq_refl) as (H1 & _ & _ & _ & H2).
  split; [exact H1|].
  destruct (H2 u2 "base" (Some "s3cret") (tab "t2") eq_refl) as [_ H3].
  - discriminate.
  - exact (proj1 (H3 eq_refl)).
Defined.

(** C1 fails as stated: after two tabs [t1] and [t2] of the client
    [base] have registered, the directory holds nothing under the
    composite keys [base:t1] and [base:t2]; it holds one entry, under
    [base], and that entry is the second tab's connection. *)
Lemma two_tabs_share_one_entry :
  let s := run server0 twoTabs in
  connectedAgents s !! compositeClientId "base" (tab "t1") = None
  ∧ connectedAgents s !! compositeClientId "base" (tab "t2") = None
  ∧ map_to_list (connectedAgents s) = [("base", "u2")]
  ∧ sentTo "u1" s
    = [Welcome "server-001" "1.0.0";
       RegistrationAck "base" accepted None (Some "Welcome Base client")
         (Some 1)].
Proof. vm_compute. done. Qed.

End DirectoryExamples.

(** ** Status frames *)

Section StatusFrames.

Import EvaluationServer.

Implicit Types (s : EvaluationServer.t) (c : Connection).

(** C2, as the server implements it. A [status] frame from a registered
    connection stores the frame's own [status] value as the status of the
    evaluation of that id owned by the connection's client, through the
    same store operation the dispatcher uses; the last result is kept, and
    progress and message are logged only, never stored. A [status] frame
    from an unregistered connection changes nothing. The connection heap
    and the directory are untouched either way. *)
Theorem status_frame_sets_stored_status s c evaluationId st progress message :
  let s1 := handleStatusUpdate s c evaluationId st progress message in
  (registered c = false → s1 = s)
  ∧ (registered c = true →
     ∀ cid e,
       clientId c = Some cid →
       ClientManager.findEvaluation (clientManager s) cid evaluationId
       = Some e →
       ∃ e1,
         ClientManager.findEvaluation (clientManager s1) cid evaluationId
         = Some e1
         ∧ ClientManager.status e1 = st
         ∧ ClientManager.lastResult e1 = ClientManager.lastResult e)
  ∧ (registered c = true →
     clientManager s1
     = ClientManager.updateEvaluationStatus (clientManager s) (clientId c)
         evaluationId st None)
  ∧ s1 = handleStatusUpdate s c evaluationId st None None
  ∧ connections s1 = connections s
  ∧ connectedAgents s1 = connectedAgents s.
Proof.
  intros s1. unfold s1, handleStatusUpdate.
  destruct (registered c); simpl.
  - split; [done|]. split; [|done].
    intros _ cid e Hc He. rewrite Hc.
    exists (ClientManager.setStatus st None e). split; [|done].
    by apply findEvaluation_update.
  - split; [done|]. split; [intros [=]|]. split; [intros [=]|done].
Qed.

End StatusFrames.

Section StatusExamples.

Import EvaluationServer Examples.

Lemma status_frame_sets_stored_status_witness :
  registered (markRegistered "base" (tab "t1") u1) = true
  ∧ clientId (markRegistered "base" (tab "t1") u1) = Some "base"
  ∧ ClientManager.findEvaluation (clientManager server0) "base" "e1"
    = Some (e1 None)
  ∧ ∃ e,
      ClientManager.findEvaluation
        (clientManager
           (handleStatusUpdate server0 (markRegistered "base" (tab "t1") u1)
              "e1" "failed" None None)) "base" "e1" = Some e
      ∧ ClientManager.status e = "failed"
      ∧ ClientManager.lastResult e = None.
Proof.
  repeat (split; [reflexivity|]).
  exact (proj1 (proj2 (status_frame_sets_stored_status server0
                         (markRegistered "base" (tab "t1") u1)
                         "e1" "failed" None None))
           eq_refl "base" (e1 None) eq_refl eq_refl).
Defined.

(** C2 fails as stated: while the call for [e1] is pending on the
    connection (the stored status is [running]), a [status] frame with
    [status: completed] sets the stored status to [completed], a terminal
    value. *)
Lemma status_frame_reaches_terminal_status :
  let before := run server0 (take 4 statusMidFlight) in
  let after := run server0 statusMidFlight in
  statusOf before "base" "e1" = Some "running"
  ∧ (c ← connections after !! "u1";
     RpcClient.method
       <$> RpcClient.pendingRequests (rpcClient c) !! "rpc-1")
    = Some "evaluate"
  ∧ statusOf after "base" "e1" = Some "completed".
Proof. by vm_compute. Qed.

End StatusExamples.

(** ** Dispatch *)

Section Dispatch.

Import EvaluationServer.

Implicit Types (s : EvaluationServer.t) (c : Connection).

(** C3, as the server implements it. [executeEvaluation] makes no
    readiness check of its own: for every connection, ready or not, it
    stores the status [running] and issues the [evaluate] call (the request
    is sent and the call is pending on the connection). Readiness is
    checked by the caller: [processClientEvaluations] leaves the server as
    it is when the key leads to no connection or to one that is not
    ready. *)
Theorem executeEvaluation_has_no_ready_check s c evaluation callId :
  let s1 := executeEvaluation_call s c evaluation callId in
  (∀ cid e,
     clientId c = Some cid →
     ClientManager.findEvaluation (clientManager s) cid
       (ClientManager.id evaluation) = Some e →
     ∃ e1,
       ClientManager.findEvaluation (clientManager s1) cid
         (ClientManager.id evaluation) = Some e1
       ∧ ClientManager.status e1 = "running")
  ∧ effects s1
    = Send (id c) (RpcRequest callId "evaluate" (rpcParams evaluation))
        :: Log info "Starting evaluation" :: effects s
  ∧ (∃ c1, connections s1 !! id c = Some c1
           ∧ ready c1 = ready c
           ∧ is_Some (RpcClient.pendingRequests (rpcClient c1) !! callId))
  ∧ (∀ key callId1,
       (∀ c1, getAgent s key = Some c1 → ready c1 = false) →
       processClientEvaluations s key callId1 = s).
Proof.
  intros s1. unfold s1, executeEvaluation_call. simpl.
  split; [|split; [done|split]].
  - intros cid e Hc He. rewrite Hc.
    exists (ClientManager.setStatus "running" None e). split; [|done].
    by apply findEvaluation_update.
  - eexists. split; [apply lookup_insert_eq|]. split; [done|].
    simpl. rewrite lookup_insert_eq. by eexists.
  - intros key callId1 Hk. unfold processClientEvaluations.
    destruct (getAgent s key) as [c1|]; [|done].
    by rewrite (Hk c1 eq_refl).
Qed.

End Dispatch.

Section DispatchExamples.

Import EvaluationServer Examples.

Lemma executeEvaluation_has_no_ready_check_witness :
  clientId (markRegistered "base" (tab "t1") u1) = Some "base"
  ∧ ClientManager.findEvaluation (clientManager server0) "base" "e1"
    = Some (e1 None)
  ∧ ready (markRegistered "base" (tab "t1") u1) = false
  ∧ ∃ e,
      ClientManager.findEvaluation
        (clientManager
           (executeEvaluation_call server0
              (markRegistered "base" (tab "t1") u1) (e1 None) "rpc-1"))
        "base" "e1" = Some e
      ∧ ClientManager.status e = "running".
Proof.
  repeat (split; [reflexivity|]).
  exact (proj1 (executeEvaluation_has_no_ready_check server0
                  (markRegistered "base" (tab "t1") u1) (e1 None) "rpc-1")
           "base" (e1 None) eq_refl eq_refl).
Defined.

(** C3 fails as stated: a connection that registered but never sent
    [ready] is handed [e1]; the operation raises no error, stores the
    status [running] and sends the [evaluate] request. *)
Lemma executeEvaluation_runs_on_unready_connection :
  let before := run server0 (take 2 notReady) in
  let after := run server0 notReady in
  (ready <$> connections before !! "u1") = Some false
  ∧ statusOf before "base" "e1" = Some "pending"
  ∧ statusOf after "base" "e1" = Some "running"
  ∧ last (sentTo "u1" after)
    = Some (RpcRequest "rpc-1" "evaluate" (rpcParams (e1 None))).
Proof. by vm_compute. Qed.

End DispatchExamples.

(** ** Validation *)

Section Validation.

Import EvaluationServer.

Lemma validateResponse_passed (evaluate : Judge) (response : RpcResult)
    (evaluation : ClientManager.Evaluation)
    (v : ClientManager.ValidationConfig)
    (cfg : ClientManager.LlmJudgeConfig) (jr : ClientManager.JudgeResult) :
  isJudged (ClientManager.v_type v) = true →
  ClientManager.llm_judge v = Some cfg →
  evaluate (ClientManager.name evaluation +:+ " - "
            +:+ default "" (ClientManager.description evaluation))
    (judgedText response) (default [] (ClientManager.criteria cfg))
    (ClientManager.model cfg) = inr jr →
  validateResponse evaluate response evaluation v
  = inr (Some {| ClientManager.vr_type := "llm-judge";
                 ClientManager.vr_result := jr;
                 ClientManager.passed :=
                   Qle_bool (7 # 10) (ClientManager.score jr) |}).
Proof.
  intros Hty Hcfg Hj. unfold validateResponse.
  by rewrite Hty, Hcfg, Hj.
Qed.

(** The pass mark of the code is 0.7 and the boundary is exact: a score of
    0.7 passes and every score below it does not. *)
Lemma pass_mark_boundary (q : Q) :
  Qle_bool (7 # 10) (7 # 10) = true
  ∧ ((q < 7 # 10)%Q → Qle_bool (7 # 10) q = false)
  ∧ ((7 # 10 <= q)%Q → Qle_bool (7 # 10) q = true).
Proof.
  split; [done|]. split.
  - intros Hq. destruct (Qle_bool (7 # 10) q) eqn:E; [|done].
    apply Qle_bool_iff in E. by apply Qlt_not_le in Hq.
  - intros Hq. by apply Qle_bool_iff.
Qed.

End Validation.

Section ValidationExamples.

Import EvaluationServer Examples.

(** C4 at the failing input: the evaluation [e1] is configured with the
    pass mark 0.9 and the judge scores the answer 0.8. By the claim the
    result does not pass ([0.8 >= 0.9] is false); the validator compares
    with 0.7 and stores [passed = true]. *)
Theorem validateResponse_ignores_configured_threshold :
  let v := judged (Some (9 # 10)%Q) in
  let stored := lastResultOf (run (empty (storeWith (Some (9 # 10)%Q)))
                                (judgedRun (Some (9 # 10)%Q) (8 # 10)%Q))
                  "base" "e1" in
  Qle_bool (specThreshold v) (8 # 10) = false
  ∧ validateResponse (scoring (8 # 10)%Q) paris (e1 (Some (9 # 10)%Q)) v
    = inr (Some {| ClientManager.vr_type := "llm-judge";
                   ClientManager.vr_result :=
                     {| ClientManager.score := (8 # 10)%Q;
                        ClientManager.explanation := "" |};
                   ClientManager.passed := true |})
  ∧ stored
    = Some (ClientManager.Outcome paris
              (Some {| ClientManager.vr_type := "llm-judge";
                       ClientManager.vr_result :=
                         {| ClientManager.score := (8 # 10)%Q;
                            ClientManager.explanation := "" |};
                       ClientManager.passed := true |}) 120).
Proof. by vm_compute. Qed.

End ValidationExamples.

(** ** Readiness follows registration *)

Section Readiness.

Import EvaluationServer.

Implicit Types (s : EvaluationServer.t) (c : Connection).

Lemma ready_implies_registered_store s c :
  ready_implies_registered s → readyAfterRegistered c →
  ready_implies_registered (store c s).
Proof.
  intros Hs Hc r c0. unfold store; simpl.
  intros [[_ <-]|[_ Hl]]%lookup_insert_Some; [done|by eapply Hs].
Qed.

Lemma ready_implies_registered_same s s1 :
  connections s1 = connections s →
  ready_implies_registered s → ready_implies_registered s1.
Proof. intros Heq Hs r c0. rewrite Heq. apply Hs. Qed.

Lemma connections_handleRegistration s c cid key caps :
  connections (handleRegistration s c cid key caps) = connections s
  ∨ connections (handleRegistration s c cid key caps)
    = <[id c := markRegistered cid caps c]> (connections s).
Proof.
  unfold handleRegistration, registrationError.
  destruct (ClientManager.valid
              (ClientManager.validateClient (clientManager s) cid key));
    cbn -[sendMessage].
  - destruct (ClientManager.registerClient _ _ _ _); cbn -[sendMessage];
      [left; by rewrite connections_sendMessage|].
    right. destruct (joinTools caps);
      repeat first [rewrite connections_sendMessage
                   |progress cbn -[sendMessage]]; done.
  - left. by rewrite connections_sendMessage.
Qed.

Lemma ready_implies_registered_handleMessage s c m :
  ready_implies_registered s → readyAfterRegistered c →
  ready_implies_registered (handleMessage s c m).
Proof.
  intros Hs Hc. unfold handleMessage.
  destruct (RpcClient.handleResponse (rpcClient c) m) as [[r o] []].
  - assert (ready_implies_registered (store (withRpcClient r c) s))
      by by apply ready_implies_registered_store.
    by destruct o.
  - destruct m as [text| |f]; [done|done|].
    destruct (control f) as [cid key caps| | |i st p t0|ty]; simpl;
      try done.
    + destruct (connections_handleRegistration s c cid key caps)
        as [Heq|Heq].
      * by eapply ready_implies_registered_same.
      * intros r0 c0. rewrite Heq.
        intros [[_ <-]|[_ Hl]]%lookup_insert_Some; [done|by eapply Hs].
    + eapply ready_implies_registered_same; [|done].
      apply connections_sendMessage.
    + destruct (registered c) eqn:Hreg; simpl; [|done].
      apply (ready_implies_registered_store s (markReady c)); [done|].
      by intros _.
    + unfold handleStatusUpdate. by destruct (registered c).
Qed.

Lemma ready_implies_registered_handleDisconnection s c :
  ready_implies_registered s → readyAfterRegistered c →
  ready_implies_registered (handleDisconnection s c).
Proof.
  intros Hs Hc. unfold handleDisconnection. simpl.
  apply (ready_implies_registered_store s
           (withRpcClient RpcClient.new c)); done.
Qed.

Lemma ready_implies_registered_executeEvaluation_call s c evaluation i :
  ready_implies_registered s → readyAfterRegistered c →
  ready_implies_registered (executeEvaluation_call s c evaluation i).
Proof.
  intros Hs Hc. unfold executeEvaluation_call. simpl.
  intros r c0. simpl.
  intros [[_ <-]|[_ Hl]]%lookup_insert_Some; [done|by eapply Hs].
Qed.

Lemma connections_executeEvaluation_settle evaluate s c evaluation
    response duration :
  connections (executeEvaluation_settle evaluate s c evaluation response
                 duration).1
  = connections s.
Proof.
  unfold executeEvaluation_settle.
  destruct response as [e|response]; [done|].
  destruct (ClientManager.validation evaluation) as [v|]; [|done].
  by destruct (validateResponse evaluate response evaluation v).
Qed.

Lemma ready_implies_registered_step s e :
  ready_implies_registered s → ready_implies_registered (step s e).
Proof.
  intros Hs. destruct e as [i a t0|r m|r|key i|r ev i|j r ev resp d]; simpl.
  - unfold handleConnection.
    eapply ready_implies_registered_same;
      [apply connections_sendMessage|]. simpl.
    apply (ready_implies_registered_store s (newConnection i a t0));
      [done|]. by intros [=].
  - destruct (connections s !! r) as [c|] eqn:Hl; [|done].
    apply ready_implies_registered_handleMessage; [done|by eapply Hs].
  - destruct (connections s !! r) as [c|] eqn:Hl; [|done].
    assert (readyAfterRegistered (withSocket CLOSED c))
      by exact (Hs _ _ Hl).
    apply ready_implies_registered_handleDisconnection; [|done].
    by apply ready_implies_registered_store.
  - unfold processClientEvaluations, getAgent.
    destruct (connectedAgents s !! key) as [r|]; simpl; [|done].
    destruct (connections s !! r) as [c|] eqn:Hl; simpl; [|done].
    destruct (ready c); simpl; [|done].
    destruct (ClientManager.getNextEvaluation _ _); [|done].
    apply ready_implies_registered_executeEvaluation_call;
      [done|by eapply Hs].
  - destruct (connections s !! r) as [c|] eqn:Hl; [|done].
    apply ready_implies_registered_executeEvaluation_call;
      [done|by eapply Hs].
  - destruct (connections s !! r) as [c|] eqn:Hl; [|done].
    eapply ready_implies_registered_same; [|done].
    apply connections_executeEvaluation_settle.
Qed.

Lemma ready_implies_registered_run s es :
  ready_implies_registered s → ready_implies_registered (run s es).
Proof.
  revert s. induction es as [|e es IH]; intros s Hs; [done|].
  simpl. apply IH. by apply ready_implies_registered_step.
Qed.

(** C5. In every state the server reaches from its start, whatever the
    connections, frames, disconnections and dispatches, every connection
    that is ready has registered; every message-handling step preserves
    this; and a [ready] frame on a connection that has not registered only
    adds a warning to the log: the connection's flags, the directory and
    the store stay as they were. The only message that sets the flag is a
    frame tagged [ready], on a connection that has registered. *)
Theorem ready_only_after_registered :
  (∀ cm es, ready_implies_registered (run (empty cm) es))
  ∧ (∀ s c m,
       ready_implies_registered s → readyAfterRegistered c →
       ready_implies_registered (handleMessage s c m))
  ∧ (∀ s c,
       registered c = false →
       handleMessage s c (Json Ready)
       = emit (Log warn "Received ready signal from unregistered client") s)
  ∧ (∀ s c m c1,
       connections s !! id c = Some c →
       connections (handleMessage s c m) !! id c = Some c1 →
       ready c = false → ready c1 = true →
       (∃ f, m = Json f ∧ control f = Ready) ∧ registered c = true).
Proof.
  split; [|split; [|split]].
  - intros cm es. apply ready_implies_registered_run. by intros r c.
  - apply ready_implies_registered_handleMessage.
  - intros s c Hreg. unfold handleMessage. simpl. by rewrite Hreg.
  - intros s c m c1 Hin. unfold handleMessage.
    destruct (RpcClient.handleResponse (rpcClient c) m) as [[r o] []].
    { destruct o; simpl; rewrite lookup_insert_eq; intros [= <-]; simpl;
        congruence. }
    destruct m as [text| |f]; simpl.
    { rewrite Hin. congruence. }
    { rewrite Hin. congruence. }
    destruct (control f) as [cid key caps| | |i st p t0|ty] eqn:Hf; simpl;
      try (rewrite Hin; congruence).
    + destruct (connections_handleRegistration s c cid key caps)
        as [Heq|Heq]; rewrite Heq.
      * rewrite Hin. congruence.
      * simpl. rewrite lookup_insert_eq. intros [= <-]; simpl. congruence.
    + rewrite connections_sendMessage, Hin. congruence.
    + destruct (registered c); simpl; [by eauto|].
      rewrite Hin. congruence.
    + unfold handleStatusUpdate. destruct (registered c); simpl;
        rewrite Hin; congruence.
Qed.

End Readiness.

(** ** Routing of inbound frames *)

Section Routing.

Import EvaluationServer.

Implicit Types (s : EvaluationServer.t) (c : Connection).

Lemma handleResponse_cases (r : RpcClient.t) (m : Message) :
  (∃ f rp,
     m = Json f ∧ rpc f = Some rp
     ∧ is_Some (RpcClient.pendingRequests r !! responseId rp)
     ∧ RpcClient.handleResponse r m
       = ({| RpcClient.pendingRequests :=
               delete (responseId rp) (RpcClient.pendingRequests r) |},
          Some (settlement rp), true))
  ∨ (RpcClient.handleResponse r m = (r, None, false)
     ∧ ∀ f rp, m = Json f → rpc f = Some rp →
               RpcClient.pendingRequests r !! responseId rp = None).
Proof.
  destruct m as [text| |[[[i res|i e]|] ctl]]; simpl;
    try (right; split; [done|]; by intros f rp [=]).
  - destruct (RpcClient.pendingRequests r !! i) eqn:Hp.
    + left. eexists _, _. split; [done|]. split; [done|]. simpl.
      rewrite Hp. by split.
    + right. split; [done|]. by intros f rp [= <-] [= <-].
  - destruct (RpcClient.pendingRequests r !! i) eqn:Hp.
    + left. eexists _, _. split; [done|]. split; [done|]. simpl.
      rewrite Hp. by split.
    + right. split; [done|]. by intros f rp [= <-] [= <-].
  - right. split; [done|]. by intros f rp [= <-] [=].
Qed.

Lemma handleResponse_consumes (r : RpcClient.t) (m : Message) :
  (RpcClient.handleResponse r m).2 = true
  ↔ ∃ f rp, m = Json f ∧ rpc f = Some rp
            ∧ is_Some (RpcClient.pendingRequests r !! responseId rp).
Proof.
  destruct (handleResponse_cases r m)
    as [(f & rp & -> & Hrp & Hp & ->)|[-> Hnone]]; simpl.
  - split; [|done]. intros _. by exists f, rp.
  - split; [done|]. intros (f & rp & Hm & Hrp & [p Hp]).
    by rewrite (Hnone f rp Hm Hrp) in Hp.
Qed.

(** What the handler does with a frame the correlator does not consume. *)
Lemma handleMessage_unconsumed s c m :
  RpcClient.handleResponse (rpcClient c) m = (rpcClient c, None, false) →
  handleMessage s c m
  = match m with
    | Malformed _ | JsonNull => emit (Log warn "Failed to parse message") s
    | Json f => dispatchFrame s c (control f)
    end.
Proof. intros Hr. unfold handleMessage. by rewrite Hr. Qed.

(** C6. Every inbound frame goes to the connection's correlator first,
    whatever its [type] tag. The correlator consumes the frame exactly when
    it carries a JSON-RPC response whose id is pending on the connection;
    the handler then only records the settlement and drops the pending
    entry: nothing is sent, and neither the directory nor the client store
    changes, even when the frame is also tagged [register], [ping],
    [ready] or [status]. A frame that is not consumed is handled by its
    [type] tag: [register] is handed to the registration handler, [ping]
    is answered with [pong], [ready] marks a registered connection ready,
    [status] is handed to the status handler, and a frame of any other
    type is logged as unknown; none of them touches the pending calls.
    Text that is not JSON, and the JSON value [null], add one warning to
    the log and nothing else: the connection, its socket state and its
    directory entry stay as they were, and the connection goes on being
    served. *)
Theorem correlator_first_then_type_dispatch s c m :
  ((RpcClient.handleResponse (rpcClient c) m).2 = true
   ↔ ∃ f rp, m = Json f ∧ rpc f = Some rp
             ∧ is_Some (RpcClient.pendingRequests (rpcClient c)
                          !! responseId rp))
  ∧ (∀ f rp,
       m = Json f → rpc f = Some rp →
       is_Some (RpcClient.pendingRequests (rpcClient c) !! responseId rp) →
       handleMessage s c m
       = emit (Settle (id c) (settlement rp))
           (store (withRpcClient
                     {| RpcClient.pendingRequests :=
                          delete (responseId rp)
                            (RpcClient.pendingRequests (rpcClient c)) |}
                     c) s)
       ∧ (∀ r, sentTo r (handleMessage s c m) = sentTo r s)
       ∧ connectedAgents (handleMessage s c m) = connectedAgents s
       ∧ clientManager (handleMessage s c m) = clientManager s)
  ∧ (∀ f,
       m = Json f →
       (∀ rp, rpc f = Some rp →
              RpcClient.pendingRequests (rpcClient c) !! responseId rp
              = None) →
       handleMessage s c m
       = match control f with
         | Register cid key caps => handleRegistration s c cid key caps
         | Ping => sendMessage c Pong s
         | Ready =>
             if registered c then
               emit (Log info "Client ready for evaluations")
                 (store (markReady c) s)
             else
               emit (Log warn
                       "Received ready signal from unregistered client") s
         | Status evaluationId st progress message =>
             handleStatusUpdate s c evaluationId st progress message
         | Other _ => emit (Log warn "Unknown message type") s
         end
       ∧ ∀ c1, connections (handleMessage s c m) !! id c = Some c1 →
               connections s !! id c = Some c →
               rpcClient c1 = rpcClient c)
  ∧ (m = JsonNull ∨ (∃ text, m = Malformed text) →
     handleMessage s c m = emit (Log warn "Failed to parse message") s
     ∧ connections (handleMessage s c m) = connections s
     ∧ connectedAgents (handleMessage s c m) = connectedAgents s
     ∧ ∀ r, connections (step s (Received r m)) !! r
            = connections s !! r).
Proof.
  split; [apply handleResponse_consumes|]. split; [|split].
  - intros f rp -> Hrp [p Hp].
    destruct (handleResponse_cases (rpcClient c) (Json f))
      as [(f' & rp' & [= <-] & Hrp' & _ & Hr)|[_ Hnone]].
    + assert (rp' = rp) as -> by congruence.
      unfold handleMessage. rewrite Hr. split; [done|].
      split; [|done]. intros r. unfold sentTo. simpl.
      rewrite omap_app. simpl. apply app_nil_r.
    + by rewrite (Hnone f rp eq_refl Hrp) in Hp.
  - intros f -> Hnone.
    destruct (handleResponse_cases (rpcClient c) (Json f))
      as [(f' & rp' & [= <-] & Hrp' & [p Hp] & _)|[Hr _]].
    { by rewrite (Hnone rp' Hrp') in Hp. }
    rewrite (handleMessage_unconsumed s c _ Hr). unfold dispatchFrame.
    split.
    { destruct (control f); [done|done| |done|done].
      by destruct (registered c). }
    intros c1 Hc1 Hin. revert Hc1.
    destruct (control f) as [cid key caps| | |i st p t0|ty].
    + destruct (connections_handleRegistration s c cid key caps)
        as [Heq|Heq]; rewrite Heq.
      * rewrite Hin. by intros [= <-].
      * rewrite lookup_insert_eq. by intros [= <-].
    + rewrite connections_sendMessage, Hin. by intros [= <-].
    + destruct (registered c); simpl.
      * rewrite lookup_insert_eq. by intros [= <-].
      * rewrite Hin. by intros [= <-].
    + unfold handleStatusUpdate. destruct (registered c); simpl;
        rewrite Hin; by intros [= <-].
    + simpl. rewrite Hin. by intros [= <-].
  - intros Hm.
    assert (handleMessage s c m
            = emit (Log warn "Failed to parse message") s) as He
      by (destruct Hm as [->|[text ->]]; done).
    split; [done|]. rewrite He. split; [done|]. split; [done|].
    intros r. cbn [step]. destruct (connections s !! r) as [c0|] eqn:E;
      [|by rewrite E].
    assert (handleMessage s c0 m
            = emit (Log warn "Failed to parse message") s) as ->
      by (destruct Hm as [->|[text ->]]; done).
    done.
Qed.

End Routing.

(** ** Acknowledging a registration *)

Section Acknowledgement.

Import EvaluationServer.

Implicit Types (s : EvaluationServer.t) (c : Connection).

Lemma joinTools_throws (caps : option Capabilities) (message : string) :
  joinTools caps = inl message
  ↔ (∃ cp, caps = Some cp ∧ tools cp = NotAnArray)
    ∧ message = "capabilities?.tools?.join is not a function".
Proof.
  unfold joinTools. destruct caps as [cp|]; [|split; [done|]].
  - destruct (tools cp) eqn:Ht.
    + split; [done|]. intros [(cp' & [= <-] & Hc) _]. congruence.
    + split; [done|]. intros [(cp' & [= <-] & Hc) _]. congruence.
    + split.
      * intros [= <-]. split; [by exists cp|done].
      * by intros [_ ->].
  - by intros [(cp & Hc & _) _].
Qed.

(** What an accepted registration adds to the trace on an open socket. *)
Lemma handleRegistration_accepted_effects s c cid key caps :
  ws c = OPEN →
  ClientManager.valid
    (ClientManager.validateClient (clientManager s) cid key) = true →
  effects (handleRegistration s c cid key caps)
  = match joinTools caps with
    | inr _ => [Log info "Client registered successfully"]
    | inl message =>
        [Send (id c) (RegistrationAck cid rejected (Some message) None None);
         Log error "Registration error"]
    end
    ++ Send (id c)
         (RegistrationAck cid accepted None
            (Some (welcomeText
                     {| ClientManager.clientName :=
                          ClientManager.names (clientManager s) !! cid;
                        ClientManager.evaluationsCount :=
                          length (ClientManager.getClientEvaluations
                                    (clientManager s) cid) |}))
            (Some (length (ClientManager.getClientEvaluations
                             (clientManager s) cid))))
       :: effects s.
Proof.
  intros Hopen Hv. rewrite handleRegistration_accepted by done.
  unfold registrationError, sendMessage. cbn [ws markRegistered].
  rewrite Hopen. by destruct (joinTools caps).
Qed.


End Acknowledgement.

(** ** Disconnection *)

Section Disconnection.

Import EvaluationServer.

Implicit Types (s : EvaluationServer.t) (c : Connection).

Lemma cleanup_fails_all (r : RpcClient.t) :
  let failed := (RpcClient.cleanup r).2 in
  RpcClient.pendingRequests (RpcClient.cleanup r).1 = ∅
  ∧ length failed = size (RpcClient.pendingRequests r)
  ∧ NoDup (settled_id <$> failed)
  ∧ Forall (λ o, o = Rejected (settled_id o) "Connection closed") failed
  ∧ ∀ i, is_Some (RpcClient.pendingRequests r !! i)
         ↔ i ∈ settled_id <$> failed.
Proof.
  unfold RpcClient.cleanup. simpl.
  assert (Hids : settled_id
                   <$> ((λ kv : string * RpcClient.PendingCall,
                           Rejected kv.1 "Connection closed")
                          <$> map_to_list (RpcClient.pendingRequests r))
                 = (map_to_list (RpcClient.pendingRequests r)).*1).
  { rewrite <- list_fmap_compose. by apply list_fmap_ext. }
  split; [done|]. split; [by rewrite length_fmap, length_map_to_list|].
  rewrite Hids. split; [apply NoDup_fst_map_to_list|]. split.
  - apply Forall_fmap, Forall_forall. by intros [i p] _.
  - intros i. rewrite list_elem_of_fmap. split.
    + intros [p Hp]. exists (i, p). split; [done|].
      by apply elem_of_map_to_list.
    + intros ([j p] & -> & Hp). exists p. by apply elem_of_map_to_list.
Qed.

(** C8. Handling the disconnection of a connection with any number of
    pending calls fails every one of them, each once, with a
    connection-closed error, and leaves none pending. It removes the
    directory entry under the connection's key: the client id when the
    connection registered (under a non-empty client id), the transient
    connection id otherwise. A lookup of that key afterwards finds no
    connection, and every other key is left as it was. *)
Theorem disconnection_fails_calls_and_removes_entry s c :
  let s1 := handleDisconnection s c in
  let pending := RpcClient.pendingRequests (rpcClient c) in
  (∃ failed,
     effects s1
     = Log info "disconnected" :: (Settle (id c) <$> failed) ++ effects s
     ∧ length failed = size pending
     ∧ NoDup (settled_id <$> failed)
     ∧ Forall (λ o, o = Rejected (settled_id o) "Connection closed") failed
     ∧ ∀ i, is_Some (pending !! i) ↔ i ∈ settled_id <$> failed)
  ∧ (∃ c1, connections s1 !! id c = Some c1
           ∧ RpcClient.pendingRequests (rpcClient c1) = ∅)
  ∧ connectedAgents s1 !! directoryKey c = None
  ∧ getAgent s1 (directoryKey c) = None
  ∧ (∀ k, k ≠ directoryKey c →
          connectedAgents s1 !! k = connectedAgents s !! k)
  ∧ (registered c = false → directoryKey c = id c)
  ∧ (∀ cid, registered c = true → clientId c = Some cid → cid ≠ "" →
            directoryKey c = cid).
Proof.
  intros s1 pending.
  destruct (cleanup_fails_all (rpcClient c)) as (He & Hn & Hnd & Hall & Hin).
  split; [|split; [|split; [|split; [|split; [|split]]]]].
  - exists (RpcClient.cleanup (rpcClient c)).2. done.
  - eexists. split; [apply lookup_insert_eq|done].
  - apply lookup_delete_eq.
  - unfold getAgent, s1, handleDisconnection. simpl.
    by rewrite lookup_delete_eq.
  - intros k Hk. unfold s1, handleDisconnection. simpl.
    by rewrite lookup_delete_ne.
  - intros Hr. unfold directoryKey. rewrite Hr.
    by destruct (clientId c).
  - intros cid Hr Hc Hne. unfold directoryKey. rewrite Hr, Hc. simpl.
    destruct (String.eqb cid "") eqn:E; [|done].
    by apply String.eqb_eq in E.
Qed.

End Disconnection.

(** ** The agent's reply to an evaluation request *)

Section AgentReply.

Import EvaluationAgent.

Implicit Types (a : EvaluationAgent.t) (k : nat).

Lemma sentOn_emit k e a :
  sentOn k (emit e a)
  = sentOn k a
    ++ match e with
       | Sent k1 f => if decide (k1 = k) then [f] else []
       | _ => []
       end.
Proof.
  unfold sentOn. simpl. rewrite omap_app. f_equal. simpl.
  destruct e as [k1 f| | | |]; simpl; try done.
  by destruct (decide (k1 = k)).
Qed.

Lemma responsesOn_emit k e a :
  responsesOn k (emit e a)
  = responsesOn k a
    ++ match e with
       | Sent k1 f =>
           match rpc f with
           | Some _ => if decide (k1 = k) then [f] else []
           | None => []
           end
       | _ => []
       end.
Proof.
  unfold responsesOn. simpl. rewrite omap_app. f_equal. simpl.
  destruct e as [k1 f| | | |]; simpl; try done.
  destruct (rpc f); [|done]. by destruct (decide (k1 = k)).
Qed.

Lemma responsesOn_sendStatus k i st p m a :
  responsesOn k (sendStatus i st p m a) = responsesOn k a.
Proof.
  unfold sendStatus. destruct (client a); [|done].
  destruct (ready a); simpl; [|done].
  unfold send. rewrite responsesOn_emit. simpl. apply app_nil_r.
Qed.

Lemma client_sendStatus i st p m a :
  client (sendStatus i st p m a) = client a.
Proof.
  unfold sendStatus. destruct (client a) eqn:E; [|done].
  by destruct (ready a).
Qed.

Lemma responsesOn_withActive k m a :
  responsesOn k (withActive m a) = responsesOn k a.
Proof. done. Qed.

Lemma beginEvaluation_quiet registry a params now k :
  client (beginEvaluation registry a params now).1 = client a
  ∧ responsesOn k (beginEvaluation registry a params now).1
    = responsesOn k a
  ∧ (beginEvaluation registry a params now).2
    = match getRegisteredTool registry (p_tool params) with
      | Some tool => inr tool
      | None => inl (ErrorObject ("Tool not found: " +:+ p_tool params))
      end.
Proof.
  unfold beginEvaluation.
  destruct (getRegisteredTool registry (p_tool params)) as [tool|]; simpl.
  - destruct (EvaluationServer.truthy (p_url params)); simpl;
      rewrite ?client_sendStatus, ?responsesOn_sendStatus; simpl;
      rewrite ?client_sendStatus, ?responsesOn_sendStatus; simpl;
      rewrite ?client_sendStatus, ?responsesOn_sendStatus; simpl;
      rewrite responsesOn_withActive, responsesOn_emit; simpl;
      by rewrite app_nil_r.
  - rewrite client_sendStatus, responsesOn_sendStatus. simpl.
    rewrite responsesOn_withActive, responsesOn_emit. simpl.
    by rewrite app_nil_r.
Qed.

Lemma finishEvaluation_reply a requestId params outcome elapsed c :
  client a = Some c →
  responsesOn (socket c)
    (finishEvaluation a requestId params outcome elapsed)
  = responsesOn (socket c) a
    ++ [match outcome with
        | inr toolResult =>
            answer
              (RpcSuccess requestId
                 {| output := Some toolResult; executionTime := elapsed;
                    r_status := "success";
                    r_evaluationId := Some (p_evaluationId params) |})
        | inl e =>
            answer
              (RpcFailure requestId (toolFailure params (errorMessage e)))
        end].
Proof.
  intros Hc. unfold finishEvaluation.
  destruct outcome as [e|toolResult]; simpl; rewrite Hc.
  - rewrite responsesOn_withActive, responsesOn_sendStatus. unfold send.
    rewrite !responsesOn_emit. simpl.
    rewrite decide_True by done. by rewrite app_nil_r.
  - rewrite responsesOn_withActive, responsesOn_emit,
      responsesOn_sendStatus. unfold send.
    rewrite responsesOn_emit. simpl.
    rewrite decide_True by done. by rewrite app_nil_r.
Qed.

(** On the other sockets the handler writes no response. *)
Lemma finishEvaluation_elsewhere a requestId params outcome elapsed c k :
  client a = Some c → k ≠ socket c →
  responsesOn k (finishEvaluation a requestId params outcome elapsed)
  = responsesOn k a.
Proof.
  intros Hc Hk. unfold finishEvaluation.
  destruct outcome as [e|toolResult]; simpl; rewrite Hc.
  - rewrite responsesOn_withActive, responsesOn_sendStatus. unfold send.
    rewrite !responsesOn_emit. simpl.
    rewrite decide_False by done. by rewrite !app_nil_r.
  - rewrite responsesOn_withActive, responsesOn_emit,
      responsesOn_sendStatus. unfold send.
    rewrite responsesOn_emit. simpl.
    rewrite decide_False by done. by rewrite !app_nil_r.
Qed.

(** An agent that holds no client writes nothing at all. *)
Lemma finishEvaluation_silent a requestId params outcome elapsed k :
  client a = None →
  sentOn k (finishEvaluation a requestId params outcome elapsed)
  = sentOn k a.
Proof.
  intros Hc. unfold finishEvaluation, sendStatus.
  destruct outcome as [e|toolResult];
    repeat (progress (simpl; rewrite ?Hc));
    unfold sentOn; simpl; rewrite omap_app; simpl; apply app_nil_r.
Qed.

Lemma timeout_wins tool input timeout :
  (execute tool input = Hangs
   ∨ ∃ after, (timerDelay timeout < after)%Z
              ∧ ((∃ r, execute tool input = Returns after r)
                 ∨ (∃ e, execute tool input = Throws after e))) →
  executeToolWithTimeout tool input timeout = inl (timeoutError timeout).
Proof.
  unfold executeToolWithTimeout.
  intros [->|(after & Hlt & [[r ->]|[e ->]])]; [done| |];
    by rewrite (proj2 (Z.ltb_ge after (timerDelay timeout))) by lia.
Qed.

Lemma timerDelay_range (delay : Z) :
  ((1 ≤ delay ≤ 2147483647)%Z → timerDelay delay = delay)
  ∧ ((delay < 1 ∨ 2147483647 < delay)%Z → timerDelay delay = 1%Z).
Proof.
  unfold timerDelay. split.
  - intros [H1 H2]. rewrite (proj2 (Z.ltb_ge delay 1)) by lia.
    by rewrite (proj2 (Z.ltb_ge 2147483647 delay)) by lia.
  - intros [H|H].
    + by rewrite (proj2 (Z.ltb_lt delay 1)) by lia.
    + rewrite (proj2 (Z.ltb_lt 2147483647 delay)) by lia.
      by rewrite orb_true_r.
Qed.


End AgentReply.

(** ** A rejected registration *)

Section Rejection.

Import EvaluationAgent.

Implicit Types (a x : EvaluationAgent.t) (k : nat).

Lemma quiet_refl k a : offSocket k a → quiet k a a.
Proof. by split. Qed.

Lemma quiet_emit k a x e :
  (∀ k1 f, e = Sent k1 f → k1 ≠ k) → quiet k a x → quiet k a (emit e x).
Proof.
  intros He [Hs Ho]. split; [|done].
  rewrite sentOn_emit, Hs. destruct e as [k1 f| | | |];
    rewrite ?app_nil_r; try done.
  rewrite decide_False by by eapply He. apply app_nil_r.
Qed.

Lemma quiet_send k a x c f :
  client x = Some c → quiet k a x → quiet k a (send c f x).
Proof.
  intros Hc Hq. apply quiet_emit; [|done].
  intros k1 f1 [= <- _]. by apply Hq.
Qed.

Lemma quiet_withRegistered k a x b :
  quiet k a x → quiet k a (withRegistered b x).
Proof. done. Qed.

Lemma quiet_withReady k a x b : quiet k a x → quiet k a (withReady b x).
Proof. done. Qed.

Lemma quiet_withActive k a x m : quiet k a x → quiet k a (withActive m x).
Proof. done. Qed.

Lemma quiet_withHeartbeat k a x h :
  quiet k a x → quiet k a (withHeartbeat h x).
Proof. done. Qed.

Lemma quiet_withClient k a x o :
  (∀ c, o = Some c → socket c ≠ k) → quiet k a x →
  quiet k a (withClient o x).
Proof. intros Ho [Hs _]. by split. Qed.

Lemma quiet_stopHeartbeat k a x :
  quiet k a x → quiet k a (stopHeartbeat x).
Proof.
  intros Hq. unfold stopHeartbeat. destruct (heartbeatInterval x); [|done].
  by apply quiet_withHeartbeat, quiet_emit.
Qed.

Lemma quiet_startHeartbeat k a x :
  quiet k a x → quiet k a (startHeartbeat x).
Proof.
  intros Hq. unfold startHeartbeat. destruct (heartbeatInterval x); [done|].
  by apply quiet_withHeartbeat, quiet_emit.
Qed.

Lemma quiet_sendStatus k a x i st p m :
  quiet k a x → quiet k a (sendStatus i st p m x).
Proof.
  intros Hq. unfold sendStatus. destruct (client x) eqn:Hc; [|done].
  destruct (ready x); simpl; [|done]. by apply quiet_send.
Qed.

Lemma quiet_register k a x : quiet k a x → quiet k a (register x).
Proof.
  intros Hq. unfold register. destruct (client x) eqn:Hc; [|done].
  apply quiet_send; [done|]. by apply quiet_emit.
Qed.

Lemma quiet_sendReady k a x : quiet k a x → quiet k a (sendReady x).
Proof.
  intros Hq. unfold sendReady. destruct (client x) eqn:Hc; [|done].
  destruct (registered x); simpl; [|done].
  apply quiet_emit; [done|]. by apply quiet_withReady, quiet_send.
Qed.

Lemma quiet_heartbeat k a x : quiet k a x → quiet k a (heartbeat x).
Proof.
  intros Hq. unfold heartbeat. destruct (client x) eqn:Hc; [|done].
  destruct (ready x); [|done]. by apply quiet_send.
Qed.

Lemma quiet_disconnect k a x : quiet k a x → quiet k a (disconnect x).
Proof.
  intros Hq. unfold disconnect.
  apply quiet_emit; [done|].
  apply quiet_withActive, quiet_withReady, quiet_withRegistered.
  apply (quiet_stopHeartbeat k a x) in Hq.
  destruct (client (stopHeartbeat x)); [|done].
  apply quiet_withClient; [done|]. by apply quiet_emit.
Qed.

Lemma quiet_onDisconnected k a x :
  quiet k a x → quiet k a (onDisconnected x).
Proof.
  intros Hq. unfold onDisconnected.
  apply quiet_stopHeartbeat, quiet_withReady, quiet_withRegistered.
  apply quiet_withClient; [|by apply quiet_emit].
  simpl. destruct (client x) as [c0|] eqn:Hc; simpl; [|done].
  intros c [= <-]. simpl. by apply Hq.
Qed.

Lemma quiet_connect k a x sock :
  sock ≠ k → quiet k a x → quiet k a (connect x sock).
Proof.
  intros Hne Hq. unfold connect.
  destruct (client x) as [c|] eqn:Hc.
  - destruct (connectionReady c).
    + by apply quiet_emit.
    + apply quiet_withClient; [by intros c0 [= <-]|]. by apply quiet_emit.
  - apply quiet_withClient; [by intros c0 [= <-]|]. by apply quiet_emit.
Qed.

Lemma quiet_handleRegistrationAck k a x status :
  quiet k a x → quiet k a (handleRegistrationAck x status).
Proof.
  intros Hq. destruct status; simpl.
  - apply quiet_startHeartbeat, quiet_sendReady, quiet_withRegistered.
    by apply quiet_emit.
  - apply quiet_disconnect. by apply quiet_emit.
Qed.

Lemma quiet_finishEvaluation k a x requestId params outcome elapsed :
  quiet k a x →
  quiet k a (finishEvaluation x requestId params outcome elapsed).
Proof.
  intros Hq. unfold finishEvaluation. apply quiet_withActive.
  destruct outcome as [e|r].
  - apply quiet_sendStatus.
    destruct (client (emit (Logged error "Evaluation failed") x)) eqn:Hc.
    + apply quiet_send; [done|]. by apply quiet_emit.
    + by apply quiet_emit.
  - apply quiet_emit; [done|]. apply quiet_sendStatus.
    destruct (client x) eqn:Hc; [|done]. by apply quiet_send.
Qed.

Lemma quiet_handleEvaluationRequest k a x registry requestId params now
    elapsed :
  quiet k a x →
  quiet k a (handleEvaluationRequest registry (λ y, y) x requestId params
               now elapsed).
Proof.
  intros Hq. unfold handleEvaluationRequest, beginEvaluation.
  assert (quiet k a
            (sendStatus (p_evaluationId params) "running"
               (Some (1 # 10)%Q) (Some "Starting evaluation...")
               (withActive
                  (<[p_evaluationId params :=
                       {| startTime := now; a_tool := p_tool params |}]>
                     (activeEvaluations
                        (emit (Logged info "Received evaluation request")
                           x)))
                  (emit (Logged info "Received evaluation request") x))))
    as Hq1.
  { apply quiet_sendStatus, quiet_withActive. by apply quiet_emit. }
  destruct (getRegisteredTool registry (p_tool params)) as [tool|].
  - apply quiet_finishEvaluation, quiet_sendStatus.
    destruct (EvaluationServer.truthy (p_url params)); [|done].
    by apply quiet_sendStatus.
  - by apply quiet_finishEvaluation.
Qed.

Lemma quiet_step k a x registry e :
  (∀ sock, e = Connect sock → sock ≠ k) →
  quiet k a x → quiet k a (step registry x e).
Proof.
  intros He Hq. destruct e as [sock| |m now elapsed| |]; simpl.
  - apply quiet_connect; [by apply He|done].
  - by apply quiet_disconnect.
  - destruct m as [sid v|cid st r m n| |i method params]; simpl.
    + apply quiet_register. by apply quiet_emit.
    + by apply quiet_handleRegistrationAck.
    + by apply quiet_emit.
    + destruct (isEvaluationRequest method).
      * by apply quiet_handleEvaluationRequest.
      * by apply quiet_emit.
  - by apply quiet_onDisconnected.
  - by apply quiet_heartbeat.
Qed.

Lemma quiet_run k a x registry es :
  otherSockets k es → quiet k a x → quiet k a (run registry x es).
Proof.
  revert x. induction es as [|e es IH]; intros x Hes Hq; [done|].
  simpl. apply IH.
  - intros sock Hin. apply Hes. by right.
  - apply quiet_step; [|done]. intros sock ->. apply Hes. by left.
Qed.

(** C10. On a [registration_ack] with status [rejected] the agent
    disconnects: it closes its socket and drops the client, it is neither
    registered nor ready, its heartbeat is stopped and its map of active
    evaluations is empty. The handler writes no frame on the socket, and
    nothing the agent does afterwards (frames it receives, heartbeat
    ticks, disconnections, connections on other sockets) writes a frame on
    that socket again: no second [register] is ever sent on it. *)
Theorem rejected_ack_disconnects_for_good a :
  let a1 := handleRegistrationAck a rejected in
  client a1 = None
  ∧ registered a1 = false
  ∧ ready a1 = false
  ∧ heartbeatInterval a1 = None
  ∧ activeEvaluations a1 = ∅
  ∧ (is_Some (heartbeatInterval a) → IntervalCleared ∈ trace a1)
  ∧ (∀ c, client a = Some c →
          SocketClosed (socket c) ∈ trace a1
          ∧ sentOn (socket c) a1 = sentOn (socket c) a
          ∧ ∀ registry es,
              otherSockets (socket c) es →
              sentOn (socket c) (run registry a1 es) = sentOn (socket c) a).
Proof.
  intros a1.
  assert (Hst : client a1 = None ∧ heartbeatInterval a1 = None
                ∧ (is_Some (heartbeatInterval a) → IntervalCleared ∈ trace a1)
                ∧ ∀ c, client a = Some c →
                       SocketClosed (socket c) ∈ trace a1
                       ∧ sentOn (socket c) a1 = sentOn (socket c) a).
  { unfold a1, handleRegistrationAck, disconnect, stopHeartbeat. simpl.
    destruct (heartbeatInterval a) as [h|] eqn:Hh; simpl;
      destruct (client a) as [c0|] eqn:Hc; simpl; rewrite ?Hc, ?Hh;
      (split; [done|]); (split; [done|]);
      (split; [intros [? Hx]; (discriminate Hx || set_solver)|]);
      intros c Hx; try discriminate Hx; injection Hx as <-;
      (split; [set_solver|]);
      unfold sentOn; simpl; rewrite ?omap_app; simpl;
      by rewrite ?app_nil_r. }
  destruct Hst as (Hc1 & Hh1 & Hcl & Hsock).
  split; [done|]. split; [done|]. split; [done|]. split; [done|].
  split; [done|]. split; [done|].
  intros c Hc. destruct (Hsock c Hc) as [Hclosed Hs1].
  split; [done|]. split; [done|].
  intros registry es Hes. rewrite <- Hs1.
  apply (quiet_run (socket c) a1 a1 registry es Hes).
  apply quiet_refl. intros c0. by rewrite Hc1.
Qed.

End Rejection.

(** ** The properties at concrete inputs *)

Section ServerExamples.

Import EvaluationServer Examples.

Lemma ready_only_after_registered_witness :
  registered u1 = false
  ∧ handleMessage server0 u1 (Json Ready)
    = emit (Log warn "Received ready signal from unregistered client")
        server0
  ∧ ready_implies_registered (run server0 readyFirst)
  ∧ (ready <$> connections (run server0 readyFirst) !! "u1") = Some false.
Proof.
  split; [reflexivity|]. split; [|split].
  - exact (proj1 (proj2 (proj2 ready_only_after_registered))
             server0 u1 eq_refl).
  - exact (proj1 ready_only_after_registered store1 readyFirst).
  - vm_compute. reflexivity.
Defined.

Lemma correlator_first_then_type_dispatch_witness :
  RpcClient.pendingRequests (rpcClient busy) !! "rpc-1"
  = Some {| RpcClient.method := "evaluate";
            RpcClient.params := rpcParams (e1 None);
            RpcClient.timeoutMs := 5000 |}
  ∧ RpcClient.pendingRequests (rpcClient busy) !! "rpc-9" = None
  ∧ ws busy = OPEN
  ∧ handleMessage server0 busy (Json (taggedPing "rpc-1"))
    = emit (Settle "u1" (Resolved "rpc-1" paris))
        (store (withRpcClient RpcClient.new busy) server0)
  ∧ sentTo "u1" (handleMessage server0 busy (Json (taggedPing "rpc-1")))
    = []
  ∧ handleMessage server0 busy (Json (taggedPing "rpc-9"))
    = emit (Send "u1" Pong) server0
  ∧ handleMessage server0 busy (Malformed "{oops")
    = emit (Log warn "Failed to parse message") server0
  ∧ handleMessage server0 busy JsonNull
    = emit (Log warn "Failed to parse message") server0.
Proof.
  assert (H1 : RpcClient.pendingRequests (rpcClient busy) !! "rpc-1"
               = Some {| RpcClient.method := "evaluate";
                         RpcClient.params := rpcParams (e1 None);
                         RpcClient.timeoutMs := 5000 |})
    by (vm_compute; reflexivity).
  assert (H9 : RpcClient.pendingRequests (rpcClient busy) !! "rpc-9" = None)
    by (vm_compute; reflexivity).
  split; [exact H1|]. split; [exact H9|]. split; [reflexivity|].
  destruct (correlator_first_then_type_dispatch server0 busy
              (Json (taggedPing "rpc-1"))) as (_ & Hyes & _ & _).
  destruct (Hyes (taggedPing "rpc-1") (RpcSuccess "rpc-1" paris) eq_refl
              eq_refl (ex_intro _ _ H1)) as (He & Hsent & _).
  split; [rewrite He; vm_compute; reflexivity|].
  split; [rewrite (Hsent "u1"); reflexivity|].
  destruct (correlator_first_then_type_dispatch server0 busy
              (Json (taggedPing "rpc-9"))) as (_ & _ & Hno & _).
  assert (Hnone : ∀ rp, rpc (taggedPing "rpc-9") = Some rp →
                        RpcClient.pendingRequests (rpcClient busy)
                          !! responseId rp = None).
  { intros rp Hrp. injection Hrp as <-. exact H9. }
  destruct (Hno (taggedPing "rpc-9") eq_refl Hnone) as (Hp & _).
  split; [exact Hp|].
  destruct (correlator_first_then_type_dispatch server0 busy
              (Malformed "{oops")) as (_ & _ & _ & Hbad).
  split; [exact (proj1 (Hbad (or_intror (ex_intro _ "{oops" eq_refl))))|].
  destruct (correlator_first_then_type_dispatch server0 busy JsonNull)
    as (_ & _ & _ & Hnull).
  exact (proj1 (Hnull (or_introl eq_refl))).
Defined.


Lemma disconnection_fails_calls_and_removes_entry_witness :
  registered busy = true
  ∧ clientId busy = Some "base"
  ∧ "base" ≠ ""
  ∧ directoryKey busy = "base"
  ∧ connectedAgents
      (handleDisconnection (run server0 (take 4 statusMidFlight)) busy)
    !! "base" = None
  ∧ effects
      (handleDisconnection (run server0 (take 4 statusMidFlight)) busy)
    = Log info "disconnected"
      :: Settle "u1" (Rejected "rpc-1" "Connection closed")
      :: effects (run server0 (take 4 statusMidFlight)).
Proof.
  pose proof (disconnection_fails_calls_and_removes_entry
                (run server0 (take 4 statusMidFlight)) busy)
    as (_ & _ & Hgone & _ & _ & _ & Hkey).
  assert (Hne : "base" ≠ "") by discriminate.
  split; [reflexivity|]. split; [reflexivity|]. split; [exact Hne|].
  split; [exact (Hkey "base" eq_refl eq_refl Hne)|]. split.
  - rewrite <- (Hkey "base" eq_refl eq_refl Hne). exact Hgone.
  - vm_compute. reflexivity.
Defined.

End ServerExamples.

Section AgentWitnesses.

Import EvaluationAgent AgentExamples.


Lemma otherSockets_afterwards : otherSockets 1 afterwards.
Proof.
  intros sock Hin. unfold afterwards in Hin.
  repeat (apply elem_of_cons in Hin as [Hin|Hin]; [by inversion Hin|]).
  by apply elem_of_nil in Hin.
Qed.

Lemma rejected_ack_disconnects_for_good_witness :
  client waiting = Some socket1
  ∧ is_Some (heartbeatInterval serving)
  ∧ otherSockets 1 afterwards
  ∧ client (handleRegistrationAck waiting rejected) = None
  ∧ IntervalCleared ∈ trace (handleRegistrationAck serving rejected)
  ∧ sentOn 1 (run registry1 (handleRegistrationAck waiting rejected)
                afterwards)
    = sentOn 1 waiting.
Proof.
  split; [reflexivity|]. split; [by eexists|].
  split; [exact otherSockets_afterwards|]. split; [|split].
  - exact (proj1 (rejected_ack_disconnects_for_good waiting)).
  - pose proof (rejected_ack_disconnects_for_good serving)
      as (_ & _ & _ & _ & _ & Hcl & _).
    apply Hcl. by eexists.
  - pose proof (rejected_ack_disconnects_for_good waiting)
      as (_ & _ & _ & _ & _ & _ & Hs).
    exact (proj2 (proj2 (Hs socket1 eq_refl)) registry1 afterwards
             otherSockets_afterwards).
Defined.

End AgentWitnesses.

(** ** Boundary cases *)

Section Boundaries.

Import AgentExamples.


(** The race is against the timer, not against the number the request
    carries: a timeout of 2^31 ms does not fit the timer, which then waits
    1 ms, so a tool that returns after 100 ms is answered with the timeout
    error. *)
Lemma timer_cuts_long_timeout_short :
  EvaluationAgent.executeToolWithTimeout chat "France?" 2147483648
  = inl (EvaluationAgent.ErrorObject
           "Tool execution timeout after 2147483648ms")
  ∧ EvaluationAgent.executeToolWithTimeout chat "France?" 2147483647
    = inr "Paris".
Proof. by vm_compute. Qed.

(** The guard [connection.registered && connection.clientId] of the
    disconnection handler takes an empty client id for absent. *)
Lemma directoryKey_empty_clientId (c : EvaluationServer.Connection) :
  EvaluationServer.clientId c = Some "" →
  EvaluationServer.directoryKey c = EvaluationServer.id c.
Proof.
  intros Hc. unfold EvaluationServer.directoryKey. rewrite Hc. simpl.
  by rewrite andb_false_r.
Qed.

End Boundaries.

(** * Further properties *)

Set Warnings "-clear-no-such-hyp".

(** ** What the message handler sends *)

Section Replies.

Import EvaluationServer.

Implicit Types (s : EvaluationServer.t) (c : Connection).

Lemma frames_app (l1 l2 : list Effect) :
  frames (l1 ++ l2) = frames l1 ++ frames l2.
Proof. apply omap_app. Qed.

Lemma sendMessage_effects c f s :
  effects (sendMessage c f s)
  = (if isOpen (ws c) then [Send (id c) f] else []) ++ effects s.
Proof. unfold sendMessage. by destruct (ws c). Qed.

Lemma handleRegistration_effects s c cid key caps :
  ∃ new,
    effects (handleRegistration s c cid key caps) = new ++ effects s
    ∧ frames new
      = if isOpen (ws c) then
          (λ f, (id c, f))
            <$> (if ClientManager.valid
                      (ClientManager.validateClient (clientManager s) cid
                         key)
                 then
                   match ClientManager.registerClient (clientManager s) cid
                           key caps with
                   | inr result =>
                       match joinTools caps with
                       | inr _ => []
                       | inl message =>
                           [RegistrationAck cid rejected (Some message) None
                              None]
                       end
                       ++ [RegistrationAck cid accepted None
                             (Some (welcomeText result))
                             (Some (ClientManager.evaluationsCount result))]
                   | inl message =>
                       [RegistrationAck cid rejected (Some message) None
                          None]
                   end
                 else
                   [RegistrationAck cid rejected
                      (ClientManager.reason
                         (ClientManager.validateClient (clientManager s)
                            cid key)) None None])
        else [].
Proof.
  unfold handleRegistration, registrationError.
  destruct (ClientManager.valid
              (ClientManager.validateClient (clientManager s) cid key))
    eqn:Hv; cbn -[sendMessage].
  - destruct (ClientManager.registerClient _ _ _ _) as [message|result];
      cbn -[sendMessage].
    + rewrite sendMessage_effects. cbn -[sendMessage].
      eexists ((if isOpen (ws c) then _ else [])
               ++ [Log error "Registration error"]).
      split; [by rewrite <- app_assoc|].
      rewrite frames_app. simpl. rewrite app_nil_r.
      by destruct (isOpen (ws c)).
    + destruct (joinTools caps) as [message|joined];
        repeat first [rewrite sendMessage_effects
                     |progress cbn -[sendMessage isOpen]].
      * eexists ((if isOpen (ws c) then _ else [])
                 ++ Log error "Registration error"
                 :: (if isOpen (ws c) then _ else [])).
        split; [by rewrite <- app_assoc|].
        rewrite frames_app. by destruct (isOpen (ws c)).
      * eexists (Log info "Client registered successfully"
                 :: (if isOpen (ws c) then _ else [])).
        split; [done|]. by destruct (isOpen (ws c)).
  - rewrite sendMessage_effects.
    eexists (Log warn "Client registration rejected"
             :: (if isOpen (ws c) then _ else [])).
    split; [done|]. by destruct (isOpen (ws c)).
Qed.

(** X1. Handling one inbound message sends frames only to the connection
    the message came from, and none when that connection's socket is not
    open. The only frames it ever sends are acknowledgements of a
    [register] frame and the [pong] of a [ping]; [ready] and [status]
    frames, consumed responses, unknown frames, [null] and text that is
    not JSON are never answered. It sends at most one frame, with one
    exception: a [register] frame with accepted credentials whose
    [capabilities.tools] is not an array is answered twice, first with
    [accepted] and then with [rejected]. *)
Theorem handleMessage_answers_sender_only s c m :
  ∃ new,
    effects (handleMessage s c m) = new ++ effects s
    ∧ (∀ r f, (r, f) ∈ frames new → r = id c)
    ∧ (ws c ≠ OPEN → frames new = [])
    ∧ (frames new = []
       ∨ (∃ f, frames new = [(id c, f)])
       ∨ ∃ fr cid key cp message text n,
           m = Json fr
           ∧ control fr = Register cid key (Some cp)
           ∧ tools cp = NotAnArray
           ∧ ClientManager.valid
               (ClientManager.validateClient (clientManager s) cid key)
             = true
           ∧ frames new
             = [(id c,
                 RegistrationAck cid rejected (Some message) None None);
                (id c, RegistrationAck cid accepted None (Some text)
                         (Some n))])
    ∧ (∀ r f, (r, f) ∈ frames new →
         (∃ fr, m = Json fr ∧ control fr = Ping ∧ f = Pong)
         ∨ ∃ fr cid key caps st reason text n,
             m = Json fr
             ∧ control fr = Register cid key caps
             ∧ f = RegistrationAck cid st reason text n).
Proof.
  unfold handleMessage.
  destruct (RpcClient.handleResponse (rpcClient c) m) as [[r o] []].
  { destruct o as [o|]; [exists [Settle (id c) o]|exists []]; simpl;
      (split; [done|]); (split; [by intros ? ? ?%elem_of_nil|]);
      (split; [done|]); (split; [by left|]);
      by intros ? ? ?%elem_of_nil. }
  destruct m as [text| |fr];
    try (eexists [_]; simpl; (split; [done|]);
         (split; [by intros ? ? ?%elem_of_nil|]); (split; [done|]);
         (split; [by left|]); by intros ? ? ?%elem_of_nil).
  destruct (control fr) as [cid key caps| | |i st p t0|ty] eqn:Hfr; simpl;
    try (eexists [_]; simpl; (split; [done|]);
         (split; [by intros ? ? ?%elem_of_nil|]); (split; [done|]);
         (split; [by left|]); by intros ? ? ?%elem_of_nil).
  - destruct (handleRegistration_effects s c cid key caps)
      as (new & Hnew & Hf).
    exists new. split; [done|]. rewrite Hf.
    destruct (isOpen (ws c)) eqn:Hopen.
    2:{ split; [by intros ? ? ?%elem_of_nil|]. split; [done|].
        split; [by left|]. by intros ? ? ?%elem_of_nil. }
    assert (ws c = OPEN) as Hws by (by destruct (ws c)).
    split.
    { intros r0 f Hin. apply list_elem_of_fmap in Hin as (f0 & Heq & _).
      by injection Heq as -> _. }
    split; [done|]. split.
    + destruct (ClientManager.valid _) eqn:Hv;
        [|right; left; by eexists].
      destruct (ClientManager.registerClient _ _ _ _) as [message|result];
        [right; left; by eexists|].
      destruct (joinTools caps) as [message|joined] eqn:Hj;
        [|right; left; by eexists].
      apply joinTools_throws in Hj as [(cp & -> & Hcp) ->].
      right. right. by eexists fr, cid, key, cp, _, _, _.
    + intros r0 f Hin. apply list_elem_of_fmap in Hin as (f0 & Heq & Hin).
      injection Heq as _ ->. right. exists fr, cid, key, caps.
      destruct (ClientManager.valid _).
      * destruct (ClientManager.registerClient _ _ _ _)
          as [message|result].
        { apply list_elem_of_singleton in Hin as ->.
          by eexists _, _, _, _. }
        apply elem_of_app in Hin as [Hin|Hin].
        { destruct (joinTools caps); [|by apply elem_of_nil in Hin].
          apply list_elem_of_singleton in Hin as ->.
          by eexists _, _, _, _. }
        apply list_elem_of_singleton in Hin as ->. by eexists _, _, _, _.
      * apply list_elem_of_singleton in Hin as ->. by eexists _, _, _, _.
  - rewrite sendMessage_effects.
    eexists. split; [done|].
    destruct (ws c) eqn:Hopen; simpl;
      try (split; [by intros ? ? ?%elem_of_nil|]; split; [done|];
           split; [by left|]; by intros ? ? ?%elem_of_nil).
    split; [by intros r0 f [= -> _]%list_elem_of_singleton|].
    split; [done|]. split; [right; left; by eexists|].
    intros r0 f [= _ ->]%list_elem_of_singleton. left. by exists fr.
  - destruct (registered c); simpl;
      (eexists [_]; simpl; (split; [done|]);
       (split; [by intros ? ? ?%elem_of_nil|]); (split; [done|]);
       (split; [by left|]); by intros ? ? ?%elem_of_nil).
  - unfold handleStatusUpdate. destruct (registered c); simpl.
    + eexists [_]; simpl; (split; [done|]);
        (split; [by intros ? ? ?%elem_of_nil|]); (split; [done|]);
        (split; [by left|]); by intros ? ? ?%elem_of_nil.
    + exists []; simpl; (split; [done|]);
        (split; [by intros ? ? ?%elem_of_nil|]); (split; [done|]);
        (split; [by left|]); by intros ? ? ?%elem_of_nil.
Qed.

End Replies.

(** ** Shape of the heap along a run *)

Section Heap.

Import EvaluationServer.

Implicit Types (s : EvaluationServer.t) (c : Connection).

Lemma laterOf_refl c : laterOf c c.
Proof. unfold laterOf. naive_solver. Qed.

Lemma laterOf_trans c c1 c2 : laterOf c c1 → laterOf c1 c2 → laterOf c c2.
Proof.
  unfold laterOf. intros (-> & ? & ? & ?) (-> & ? & ? & ?). naive_solver.
Qed.

Lemma laterOf_withRpcClient c r : laterOf c (withRpcClient r c).
Proof. unfold laterOf, flagsCoherent. simpl. naive_solver. Qed.

Lemma laterOf_withSocket c w : laterOf c (withSocket w c).
Proof. unfold laterOf, flagsCoherent. simpl. naive_solver. Qed.

Lemma laterOf_markRegistered c cid caps :
  laterOf c (markRegistered cid caps c).
Proof.
  unfold laterOf, flagsCoherent. simpl.
  split; [done|]. split; [done|]. split; [done|]. intros _.
  split; [by eexists|done].
Qed.

Lemma laterOf_markReady c : laterOf c (markReady c).
Proof. unfold laterOf, flagsCoherent. simpl. naive_solver. Qed.

Lemma connections_handleMessage s c m :
  connections (handleMessage s c m) = connections s
  ∨ ∃ c1, connections (handleMessage s c m)
          = <[id c := c1]> (connections s)
          ∧ laterOf c c1.
Proof.
  unfold handleMessage.
  destruct (RpcClient.handleResponse (rpcClient c) m) as [[r o] []].
  { right. exists (withRpcClient r c).
    split; [by destruct o|apply laterOf_withRpcClient]. }
  destruct m as [text| |fr]; simpl; auto.
  destruct (control fr) as [cid key caps| | |i st p t0|ty]; simpl; auto.
  - destruct (connections_handleRegistration s c cid key caps) as [->| ->];
      [by left|right].
    eexists. split; [done|apply laterOf_markRegistered].
  - left. apply connections_sendMessage.
  - destruct (registered c); simpl; [|by left].
    right. eexists. split; [done|apply laterOf_markReady].
  - left. unfold handleStatusUpdate. by destruct (registered c).
Qed.

Lemma connections_handleConnection s i a t0 :
  connections (handleConnection s i a t0)
  = <[i := newConnection i a t0]> (connections s).
Proof. unfold handleConnection. by rewrite connections_sendMessage. Qed.

Lemma connections_handleDisconnection s c :
  connections (handleDisconnection s c)
  = <[id c := withRpcClient RpcClient.new c]> (connections s).
Proof. done. Qed.

Lemma connections_executeEvaluation_call s c evaluation i :
  ∃ r, connections (executeEvaluation_call s c evaluation i)
       = <[id c := withRpcClient r c]> (connections s).
Proof. by eexists. Qed.

(** What one event does to the heap: it adds a fresh connection object,
    or leaves the heap alone, or replaces one object by a later state of
    itself. *)
Lemma connections_step s e :
  heapCoherent s →
  (∃ i a t0, e = Connected i a t0
             ∧ connections (step s e)
               = <[i := newConnection i a t0]> (connections s))
  ∨ connections (step s e) = connections s
  ∨ ∃ r c c1, connections s !! r = Some c
              ∧ connections (step s e) = <[r := c1]> (connections s)
              ∧ laterOf c c1.
Proof.
  intros Hs. destruct e as [i a t0|r m|r|key i|r ev i|j r ev resp d];
    cbn [step].
  - left. exists i, a, t0. split; [done|].
    apply connections_handleConnection.
  - destruct (connections s !! r) as [c|] eqn:Hl; [|by right; left].
    destruct (Hs r c Hl) as [Hid _].
    destruct (connections_handleMessage s c m) as [->|(c1 & -> & Hc1)];
      [by right; left|].
    right; right. exists r, c, c1. by rewrite Hid.
  - destruct (connections s !! r) as [c|] eqn:Hl; [|by right; left].
    destruct (Hs r c Hl) as [Hid _].
    right; right. exists r, c, (withRpcClient RpcClient.new
                                  (withSocket CLOSED c)).
    split; [done|]. split.
    + rewrite connections_handleDisconnection. simpl.
      by rewrite insert_insert_eq, Hid.
    + eapply laterOf_trans;
        [apply laterOf_withSocket|apply laterOf_withRpcClient].
  - unfold processClientEvaluations, getAgent.
    destruct (connectedAgents s !! key) as [r|]; simpl; [|by right; left].
    destruct (connections s !! r) as [c|] eqn:Hl; simpl; [|by right; left].
    destruct (ready c); simpl; [|by right; left].
    destruct (ClientManager.getNextEvaluation _ _); [|by right; left].
    destruct (Hs r c Hl) as [Hid _].
    right; right. exists r, c. eexists. split; [done|].
    split; [by rewrite <- Hid|apply laterOf_withRpcClient].
  - destruct (connections s !! r) as [c|] eqn:Hl; [|by right; left].
    destruct (Hs r c Hl) as [Hid _].
    right; right. exists r, c. eexists. split; [done|].
    split; [by rewrite <- Hid|apply laterOf_withRpcClient].
  - destruct (connections s !! r) as [c|] eqn:Hl; [|by right; left].
    right; left. apply connections_executeEvaluation_settle.
Qed.

Lemma heapCoherent_step s e : heapCoherent s → heapCoherent (step s e).
Proof.
  intros Hs. unfold heapCoherent.
  destruct (connections_step s e Hs)
    as [(i & a & t0 & _ & He)|[He|(r & c & c1 & Hl & He & Hc1)]];
    rewrite He; [|done|].
  - intros r c [[<- <-]|[_ Hl]]%lookup_insert_Some; [|by apply Hs].
    split; [done|]. simpl. split; [done|]. by intros [? [=]].
  - intros r0 c0 [[<- <-]|[_ Hl0]]%lookup_insert_Some; [|by apply Hs].
    destruct (Hs r c Hl) as [Hid Hf].
    destruct Hc1 as (Hid1 & _ & _ & Hf1). split; [congruence|by apply Hf1].
Qed.

Lemma heapCoherent_run s es : heapCoherent s → heapCoherent (run s es).
Proof.
  revert s. induction es as [|e es IH]; intros s Hs; [done|].
  simpl. by apply IH, heapCoherent_step.
Qed.

Lemma connections_step_mono s e r :
  heapCoherent s →
  is_Some (connections s !! r) → is_Some (connections (step s e) !! r).
Proof.
  intros Hs Hr.
  destruct (connections_step s e Hs)
    as [(i & a & t0 & _ & He)|[He|(r1 & c & c1 & Hl & He & Hc1)]];
    rewrite He; [|done|]; apply lookup_insert_is_Some.
  - destruct (decide (i = r)); [by left|by right].
  - destruct (decide (r1 = r)); [by left|by right].
Qed.

End Heap.

(** ** Frames along a run *)

Section Traffic.

Import EvaluationServer.

Implicit Types (s : EvaluationServer.t) (c : Connection).

Lemma elem_of_frames (l : list Effect) (r : string) (f : Outbound) :
  (r, f) ∈ frames l ↔ Send r f ∈ l.
Proof.
  unfold frames. rewrite list_elem_of_omap. split.
  - intros ([r1 f1|lv t0|r1 o] & Hin & [=]). by subst.
  - intros Hin. by exists (Send r f).
Qed.

Lemma sentTo_app s s1 new r :
  effects s1 = new ++ effects s →
  sentTo r s1 = sentTo r s ++ omap (toConnection r) (rev new).
Proof.
  intros He. unfold sentTo. rewrite He, rev_app_distr.
  apply (omap_app (toConnection r)).
Qed.

Lemma omap_toConnection_nil r (l : list Effect) :
  (∀ f, Send r f ∉ l) → omap (toConnection r) (rev l) = [].
Proof.
  intros Hl. apply elem_of_nil_inv. intros f.
  rewrite list_elem_of_omap. intros (e & Hin & He).
  apply list_elem_of_In, in_rev, list_elem_of_In in Hin.
  destruct e as [r1 f1|lv t0|r1 o]; simpl in He; try done.
  destruct (decide (r1 = r)) as [->|]; [|done].
  injection He as ->. by apply (Hl f).
Qed.

Lemma handleMessage_sends s c m :
  ∃ new, effects (handleMessage s c m) = new ++ effects s
         ∧ ∀ r f, Send r f ∈ new → r = id c.
Proof.
  unfold handleMessage.
  destruct (RpcClient.handleResponse (rpcClient c) m) as [[r o] []].
  { destruct o as [o|]; [exists [Settle (id c) o]|exists []];
      (split; [done|]); intros r0 f; set_solver. }
  destruct m as [text| |fr];
    try (eexists [_]; (split; [done|]); intros r0 f; set_solver).
  destruct (control fr) as [cid key caps| | |i st p t0|ty]; simpl;
    try (eexists [_]; (split; [done|]); intros r0 f; set_solver).
  - destruct (handleRegistration_effects s c cid key caps)
      as (new & Hnew & Hf).
    exists new. split; [done|]. intros r0 f Hin%elem_of_frames.
    rewrite Hf in Hin. destruct (isOpen (ws c));
      [|by apply elem_of_nil in Hin].
    apply list_elem_of_fmap in Hin as (f0 & Heq & _).
    by injection Heq as -> _.
  - rewrite sendMessage_effects. eexists. split; [done|].
    intros r0 f. destruct (isOpen (ws c)); set_solver.
  - destruct (registered c); simpl;
      (eexists [_]; (split; [done|]); intros r0 f; set_solver).
  - unfold handleStatusUpdate. destruct (registered c); simpl;
      [eexists [_]|exists []]; (split; [done|]); intros r0 f;
      set_solver.
Qed.

Lemma handleMessage_keeps s c m :
  connections s !! id c = Some c →
  is_Some (connections (handleMessage s c m) !! id c).
Proof.
  intros Hl.
  destruct (connections_handleMessage s c m) as [->|(c1 & -> & _)];
    [by eexists|]. rewrite lookup_insert_eq. by eexists.
Qed.

Lemma executeEvaluation_settle_effects evaluate s c evaluation response
    duration :
  ∃ new,
    effects (executeEvaluation_settle evaluate s c evaluation response
               duration).1 = new ++ effects s
    ∧ ∀ r f, Send r f ∉ new.
Proof.
  unfold executeEvaluation_settle.
  destruct response as [e|response]; simpl.
  { eexists [_]. split; [done|]. intros r f. set_solver. }
  destruct (ClientManager.validation evaluation) as [v|]; simpl.
  - destruct (validateResponse evaluate response evaluation v); simpl;
      eexists [_; _]; (split; [done|]); intros r f; set_solver.
  - eexists [_; _]; (split; [done|]); intros r f; set_solver.
Qed.

Lemma step_effects s e :
  heapCoherent s →
  ∃ new,
    effects (step s e) = new ++ effects s
    ∧ (∀ r f, Send r f ∈ new → is_Some (connections (step s e) !! r))
    ∧ (∀ i a t0, e = Connected i a t0 →
                 new = [Send i (Welcome "server-001" "1.0.0");
                        Log info "connected"]).
Proof.
  intros Hs. destruct e as [i a t0|r m|r|key i|r ev i|j r ev resp d];
    cbn [step].
  - eexists [_; _]. split; [done|]. split.
    + intros r f Hin. rewrite connections_handleConnection.
      assert (r = i) as -> by set_solver.
      rewrite lookup_insert_eq. by eexists.
    + by intros ? ? ? [= -> -> ->].
  - destruct (connections s !! r) as [c|] eqn:Hl.
    + destruct (Hs r c Hl) as [Hid _].
      destruct (handleMessage_sends s c m) as (new & Hnew & Hto).
      exists new. split; [done|]. split; [|done].
      intros r0 f ->%Hto. apply handleMessage_keeps. by rewrite Hid.
    + exists []. split; [done|]. split; [|done]. intros r0 f. set_solver.
  - destruct (connections s !! r) as [c|] eqn:Hl.
    + unfold handleDisconnection. simpl.
      eexists (_ :: _). split; [by rewrite app_comm_cons|].
      split; [|done]. intros r0 f Hin. exfalso.
      apply elem_of_cons in Hin as [[=]|Hin].
      apply list_elem_of_fmap in Hin as (o & [=] & _).
    + exists []. split; [done|]. split; [|done]. intros r0 f. set_solver.
  - unfold processClientEvaluations, getAgent.
    destruct (connectedAgents s !! key) as [r|]; simpl;
      [|exists []; split; [done|]; split; [|done]; intros ? ?; set_solver].
    destruct (connections s !! r) as [c|] eqn:Hl; simpl;
      [|exists []; split; [done|]; split; [|done]; intros ? ?; set_solver].
    destruct (ready c); simpl;
      [|exists []; split; [done|]; split; [|done]; intros ? ?; set_solver].
    destruct (ClientManager.getNextEvaluation _ _);
      [|eexists [_]; split; [done|]; split; [|done]; intros ? ?;
        set_solver].
    eexists [_; _]. split; [done|]. split; [|done].
    intros r0 f Hin. assert (r0 = id c) as -> by set_solver.
    simpl. rewrite lookup_insert_eq. by eexists.
  - destruct (connections s !! r) as [c|] eqn:Hl;
      [|exists []; split; [done|]; split; [|done]; intros ? ?; set_solver].
    eexists [_; _]. split; [done|]. split; [|done].
    intros r0 f Hin. assert (r0 = id c) as -> by set_solver.
    simpl. rewrite lookup_insert_eq. by eexists.
  - destruct (connections s !! r) as [c|] eqn:Hl;
      [|exists []; split; [done|]; split; [|done]; intros ? ?; set_solver].
    destruct (executeEvaluation_settle_effects j s c ev resp d)
      as (new & Hnew & Hno).
    exists new. split; [done|]. split; [|done].
    intros r0 f Hin. by apply Hno in Hin.
Qed.

Lemma welcomedFirst_step s e :
  heapCoherent s → welcomedFirst s → welcomedFirst (step s e).
Proof.
  intros Hs Hw r.
  destruct (step_effects s e Hs) as (new & Hnew & Hto & Hconn).
  rewrite (sentTo_app s _ new r Hnew).
  specialize (Hw r).
  destruct (connections (step s e) !! r) as [c1|] eqn:Hl1.
  - destruct (connections s !! r) as [c|] eqn:Hl.
    + destruct Hw as [rest ->]. by eexists.
    + rewrite Hw. simpl.
      destruct (connections_step s e Hs)
        as [(i & a & t0 & -> & He)|[He|(r1 & c & c0 & Hl0 & He & _)]].
      * rewrite He in Hl1.
        apply lookup_insert_Some in Hl1 as [[-> _]|[_ Hl1]];
          [|congruence].
        rewrite (Hconn r a t0 eq_refl). simpl.
        rewrite decide_True by done. by eexists.
      * congruence.
      * rewrite He in Hl1.
        apply lookup_insert_Some in Hl1 as [[-> _]|[_ Hl1]]; congruence.
  - assert (connections s !! r = None) as Hl.
    { destruct (connections s !! r) eqn:Hl; [|done].
      destruct (connections_step_mono s e r Hs) as [? ?];
        [by eexists|congruence]. }
    rewrite Hl in Hw. rewrite Hw. simpl.
    apply omap_toConnection_nil. intros f Hin.
    destruct (Hto r f Hin) as [? ?]. congruence.
Qed.

Lemma directoryBound_step s e :
  heapCoherent s → directoryBound s → directoryBound (step s e).
Proof.
  intros Hs Hd.
  assert (Hold : ∀ k r, connectedAgents s !! k = Some r →
                        is_Some (connections (step s e) !! r)).
  { intros k r Hk. apply connections_step_mono; [done|by eapply Hd]. }
  destruct e as [i a t0|r m|r|key i|r ev i|j r ev resp d]; cbn [step].
  - intros k r. unfold handleConnection.
    rewrite connectedAgents_sendMessage, connections_sendMessage. simpl.
    intros [[-> <-]|[_ Hk]]%lookup_insert_Some.
    + rewrite lookup_insert_eq. by eexists.
    + apply (Hold k r Hk).
  - destruct (connections s !! r) as [c|] eqn:Hl; [|done].
    destruct (Hs r c Hl) as [Hid _].
    assert (Hkeep : is_Some (connections (handleMessage s c m) !! id c))
      by (apply handleMessage_keeps; by rewrite Hid).
    specialize (Hold) as Hold1. cbn [step] in Hold1. rewrite Hl in Hold1.
    intros k r0. unfold handleMessage.
    unfold handleMessage in Hold1, Hkeep.
    destruct (RpcClient.handleResponse (rpcClient c) m) as [[r1 o] []].
    { destruct o; apply Hold1. }
    destruct m as [text| |fr];
      simpl; simpl in Hold1, Hkeep; try apply Hold1.
    destruct (control fr) as [cid key caps| | |i st p t0|ty];
      simpl; simpl in Hold1, Hkeep; try apply Hold1.
    + destruct (ClientManager.valid
                  (ClientManager.validateClient (clientManager s) cid key))
        eqn:Hv.
      * rewrite (connectedAgents_registered s c cid key caps Hv).
        intros [[_ <-]|[_ Hk]]%lookup_insert_Some; [done|].
        apply lookup_delete_Some in Hk as [_ Hk]. by apply (Hold1 k).
      * rewrite handleRegistration_rejected by done. simpl.
        rewrite connectedAgents_sendMessage.
        rewrite handleRegistration_rejected in Hold1 by done.
        apply Hold1.
    + rewrite connectedAgents_sendMessage. apply Hold1.
    + destruct (registered c); apply Hold1.
    + unfold handleStatusUpdate in *. destruct (registered c); apply Hold1.
  - destruct (connections s !! r) as [c|] eqn:Hl; [|done].
    specialize (Hold) as Hold1. cbn [step] in Hold1. rewrite Hl in Hold1.
    intros k r0. unfold handleDisconnection at 1. simpl.
    intros [_ Hk]%lookup_delete_Some. by apply (Hold1 k).
  - specialize (Hold) as Hold1. cbn [step] in Hold1.
    intros k r0 Hk. apply (Hold1 k).
    revert Hk. unfold processClientEvaluations.
    destruct (getAgent s key) as [c|]; [|done].
    destruct (ready c); simpl; [|done].
    by destruct (ClientManager.getNextEvaluation _ _).
  - specialize (Hold) as Hold1. cbn [step] in Hold1.
    destruct (connections s !! r) as [c|] eqn:Hl; [|done].
    intros k r0 Hk. by apply (Hold1 k).
  - specialize (Hold) as Hold1. cbn [step] in Hold1.
    destruct (connections s !! r) as [c|] eqn:Hl; [|done].
    intros k r0 Hk. apply (Hold1 k). revert Hk.
    unfold executeEvaluation_settle.
    destruct resp as [e|resp]; [done|].
    destruct (ClientManager.validation ev) as [v|]; [|done].
    by destruct (validateResponse j resp ev v).
Qed.

Lemma well_formed_run s es :
  heapCoherent s ∧ directoryBound s ∧ welcomedFirst s →
  heapCoherent (run s es) ∧ directoryBound (run s es)
  ∧ welcomedFirst (run s es).
Proof.
  revert s. induction es as [|e es IH]; intros s (H1 & H2 & H3); [done|].
  simpl. apply IH. split; [by apply heapCoherent_step|].
  split; [by apply directoryBound_step|by apply welcomedFirst_step].
Qed.

(** X2. In every state the server reaches from its start, each connection
    object is filed in the heap under its own id and carries a client id
    exactly when it has registered; every directory entry leads to a
    connection object; and what any connection has been sent begins with
    the [welcome] frame, while an id the server never accepted has been
    sent nothing. *)
Theorem reachable_states_are_well_formed cm es :
  let s := run (empty cm) es in
  heapCoherent s ∧ directoryBound s ∧ welcomedFirst s.
Proof.
  apply well_formed_run. split; [|split].
  - by intros r c.
  - by intros k r.
  - by intros r.
Qed.

End Traffic.

(** ** Flags are never cleared *)

Section Sticky.

Import EvaluationServer.

Implicit Types (s : EvaluationServer.t) (c : Connection).

(** X3. No operation of the server clears a flag of a connection object.
    Along any run in which the id is not handed to a newly accepted
    connection, the object stays in the heap under its id, and once it is
    registered it stays registered, once it is ready it stays ready, also
    after a rejected re-registration and after its socket has closed. *)
Theorem connection_flags_are_never_cleared s es r c :
  heapCoherent s →
  connections s !! r = Some c →
  notAcceptedAgain r es →
  ∃ c1, connections (run s es) !! r = Some c1 ∧ laterOf c c1.
Proof.
  revert s c. induction es as [|e es IH]; intros s c Hs Hl Hes.
  { exists c. split; [done|apply laterOf_refl]. }
  assert (notAcceptedAgain r es) as Hes1.
  { intros a t0 Hin. apply (Hes a t0). by right. }
  assert (∃ c0, connections (step s e) !! r = Some c0 ∧ laterOf c c0)
    as (c0 & Hl0 & Hc0).
  { destruct (connections_step s e Hs)
      as [(i & a & t0 & -> & He)|[He|(r1 & c1 & c2 & Hl1 & He & Hc2)]];
      rewrite He.
    - assert (i ≠ r) by (intros ->; apply (Hes a t0); by left).
      rewrite lookup_insert_ne by done.
      exists c. split; [done|apply laterOf_refl].
    - exists c. split; [done|apply laterOf_refl].
    - destruct (decide (r1 = r)) as [->|Hne].
      + rewrite lookup_insert_eq. exists c2. split; [done|]. congruence.
      + rewrite lookup_insert_ne by done.
        exists c. split; [done|apply laterOf_refl]. }
  destruct (IH (step s e) c0 (heapCoherent_step s e Hs) Hl0 Hes1)
    as (c1 & Hl1 & Hc1).
  exists c1. split; [done|]. by eapply laterOf_trans.
Qed.

End Sticky.

(** ** Consequences of keying the directory by client id *)

Section Keys.

Import EvaluationServer.

Implicit Types (s : EvaluationServer.t) (c : Connection).

Lemma step_register s r c cid key caps :
  connections s !! r = Some c →
  step s (Received r (Json (Register cid key caps)))
  = handleRegistration s c cid key caps.
Proof. intros Hl. cbn [step]. by rewrite Hl. Qed.

Lemma step_closed s r c :
  connections s !! r = Some c →
  step s (Closed r)
  = handleDisconnection (store (withSocket CLOSED c) s)
      (withSocket CLOSED c).
Proof. intros Hl. cbn [step]. by rewrite Hl. Qed.

Lemma directoryKey_registered c cid :
  registered c = true → clientId c = Some cid → cid ≠ "" →
  directoryKey c = cid.
Proof.
  intros Hr Hc Hne. unfold directoryKey. rewrite Hr, Hc. simpl.
  destruct (String.eqb cid "") eqn:E; [|done]. by apply String.eqb_eq in E.
Qed.

(** X4. A connection may register again under another client id. The
    second registration adds the new key and leaves the first key in the
    directory; when the socket closes only the latest key is removed. The
    first key then still leads to the connection object, whose socket is
    closed and whose ready flag is as it was. *)
Theorem reregistration_leaves_first_key s r c cid1 key1 caps1 cid2 key2
    caps2 :
  connections s !! r = Some c → id c = r →
  ClientManager.valid
    (ClientManager.validateClient (clientManager s) cid1 key1) = true →
  ClientManager.valid
    (ClientManager.validateClient (clientManager s) cid2 key2) = true →
  cid1 ≠ cid2 → cid1 ≠ r → cid2 ≠ "" →
  let s2 := run s [Received r (Json (Register cid1 key1 caps1));
                   Received r (Json (Register cid2 key2 caps2))] in
  let s3 := step s2 (Closed r) in
  connectedAgents s2 !! cid1 = Some r
  ∧ connectedAgents s2 !! cid2 = Some r
  ∧ connectedAgents s3 !! cid2 = None
  ∧ connectedAgents s3 !! cid1 = Some r
  ∧ ∃ c3, getAgent s3 cid1 = Some c3
          ∧ ws c3 = CLOSED
          ∧ clientId c3 = Some cid2
          ∧ ready c3 = ready c.
Proof.
  intros Hl Hid Hv1 Hv2 Hne Hner Hne2 s2 s3.
  set (s1 := handleRegistration s c cid1 key1 caps1).
  set (c1 := markRegistered cid1 caps1 c).
  set (c2 := markRegistered cid2 caps2 c1).
  assert (Hs2 : s2 = handleRegistration s1 c1 cid2 key2 caps2).
  { unfold s2, run. cbn [foldl]. rewrite (step_register s r c) by done.
    apply step_register. fold s1. unfold s1.
    rewrite connections_registered by done.
    rewrite Hid. apply lookup_insert_eq. }
  assert (Hv2' : ClientManager.valid
                   (ClientManager.validateClient (clientManager s1) cid2
                      key2) = true).
  { unfold s1. by rewrite clientManager_handleRegistration. }
  assert (Hd2 : connectedAgents s2
                = <[cid2 := r]> (delete r (<[cid1 := r]>
                                             (delete r (connectedAgents s))))).
  { rewrite Hs2, connectedAgents_registered by done.
    unfold s1. rewrite connectedAgents_registered by done.
    simpl. by rewrite Hid. }
  assert (Hc2 : connections s2 !! r = Some c2).
  { rewrite Hs2, connections_registered by done.
    simpl. rewrite Hid. apply lookup_insert_eq. }
  assert (Hs3 : s3 = handleDisconnection (store (withSocket CLOSED c2) s2)
                       (withSocket CLOSED c2)).
  { unfold s3. by apply step_closed. }
  assert (Hk : directoryKey (withSocket CLOSED c2) = cid2)
    by by apply directoryKey_registered.
  assert (Hd3 : connectedAgents s3 = delete cid2 (connectedAgents s2)).
  { rewrite Hs3. unfold handleDisconnection. simpl. by rewrite Hk. }
  split; [|split; [|split; [|split]]].
  - rewrite Hd2, lookup_insert_ne, lookup_delete_ne by done.
    apply lookup_insert_eq.
  - rewrite Hd2. apply lookup_insert_eq.
  - rewrite Hd3. apply lookup_delete_eq.
  - rewrite Hd3, lookup_delete_ne, Hd2 by done.
    rewrite lookup_insert_ne, lookup_delete_ne by done.
    apply lookup_insert_eq.
  - exists (withRpcClient RpcClient.new (withSocket CLOSED c2)).
    split; [|done]. unfold getAgent.
    rewrite Hd3, lookup_delete_ne, Hd2 by done.
    rewrite lookup_insert_ne, lookup_delete_ne by done.
    rewrite lookup_insert_eq. simpl.
    rewrite Hs3, connections_handleDisconnection. simpl.
    rewrite Hid. apply lookup_insert_eq.
Qed.

(** X5. When two connections register under the same client id, the entry
    belongs to the second. Closing the first connection afterwards removes
    that entry: the client id then leads to no connection although the
    second connection is still registered, with its socket as it was. *)
Theorem first_close_removes_second_entry s r1 r2 c1 c2 cid key1 caps1 key2
    caps2 :
  connections s !! r1 = Some c1 → id c1 = r1 →
  connections s !! r2 = Some c2 → id c2 = r2 →
  r1 ≠ r2 →
  ClientManager.valid
    (ClientManager.validateClient (clientManager s) cid key1) = true →
  ClientManager.valid
    (ClientManager.validateClient (clientManager s) cid key2) = true →
  cid ≠ "" →
  let s2 := run s [Received r1 (Json (Register cid key1 caps1));
                   Received r2 (Json (Register cid key2 caps2))] in
  let s3 := step s2 (Closed r1) in
  getAgent s2 cid = Some (markRegistered cid caps2 c2)
  ∧ getAgent s3 cid = None
  ∧ connections s3 !! r2 = Some (markRegistered cid caps2 c2).
Proof.
  intros Hl1 Hid1 Hl2 Hid2 Hne Hv1 Hv2 Hcid s2 s3.
  set (s1 := handleRegistration s c1 cid key1 caps1).
  assert (Hc1 : connections s1 = <[r1 := markRegistered cid caps1 c1]>
                                   (connections s)).
  { unfold s1. rewrite connections_registered by done. by rewrite Hid1. }
  assert (Hs2 : s2 = handleRegistration s1 c2 cid key2 caps2).
  { unfold s2, run. cbn [foldl]. rewrite (step_register s r1 c1) by done.
    apply step_register. fold s1. by rewrite Hc1, lookup_insert_ne. }
  assert (Hv2' : ClientManager.valid
                   (ClientManager.validateClient (clientManager s1) cid
                      key2) = true).
  { unfold s1. by rewrite clientManager_handleRegistration. }
  assert (Hd2 : connectedAgents s2 !! cid = Some r2).
  { rewrite Hs2, connectedAgents_registered by done.
    rewrite Hid2. apply lookup_insert_eq. }
  assert (Hh2 : connections s2
                = <[r2 := markRegistered cid caps2 c2]> (connections s1)).
  { rewrite Hs2, connections_registered by done. by rewrite Hid2. }
  assert (Hs3 : s3 = handleDisconnection
                       (store (withSocket CLOSED
                                 (markRegistered cid caps1 c1)) s2)
                       (withSocket CLOSED (markRegistered cid caps1 c1))).
  { unfold s3. apply step_closed.
    rewrite Hh2, lookup_insert_ne, Hc1 by done. apply lookup_insert_eq. }
  assert (Hk : directoryKey (withSocket CLOSED (markRegistered cid caps1 c1))
               = cid) by by apply directoryKey_registered.
  split; [|split].
  - unfold getAgent. rewrite Hd2. simpl. rewrite Hh2.
    apply lookup_insert_eq.
  - unfold getAgent. rewrite Hs3. unfold handleDisconnection. simpl.
    by rewrite Hk, lookup_delete_eq.
  - rewrite Hs3, connections_handleDisconnection. simpl.
    rewrite Hid1, !lookup_insert_ne by done.
    rewrite Hh2. apply lookup_insert_eq.
Qed.

End Keys.

(** ** Settling an evaluation *)

Section Settling.

Import EvaluationServer.

Implicit Types (s : EvaluationServer.t) (c : Connection).

(** X6. When the awaited call of [executeEvaluation] settles, exactly one
    of two records is stored, with the measured duration. If the call
    answered and validation (when configured) raised no error, the status
    stored is [completed] with the response and the validation result,
    and nothing is re-thrown. Otherwise (the call failed or timed out, or
    the judge raised an error) the status stored is [failed] with the
    error message, and that error is re-thrown. Neither the connection
    heap nor the directory changes. *)
Theorem settled_evaluation_is_completed_or_failed evaluate s c evaluation
    response duration :
  let out := executeEvaluation_settle evaluate s c evaluation response
               duration in
  let judged resp :=
    match ClientManager.validation evaluation with
    | Some cfg => validateResponse evaluate resp evaluation cfg
    | None => inr None
    end in
  connections out.1 = connections s
  ∧ connectedAgents out.1 = connectedAgents s
  ∧ match out.2 with
    | None =>
        ∃ resp v,
          response = inr resp ∧ judged resp = inr v
          ∧ clientManager out.1
            = ClientManager.updateEvaluationStatus (clientManager s)
                (clientId c) (ClientManager.id evaluation) "completed"
                (Some (ClientManager.Outcome resp v duration))
    | Some e =>
        (response = inl e
         ∨ ∃ resp, response = inr resp ∧ judged resp = inl e)
        ∧ clientManager out.1
          = ClientManager.updateEvaluationStatus (clientManager s)
              (clientId c) (ClientManager.id evaluation) "failed"
              (Some (ClientManager.Failure e duration))
    end
  ∧ ∀ cid e0,
      clientId c = Some cid →
      ClientManager.findEvaluation (clientManager s) cid
        (ClientManager.id evaluation) = Some e0 →
      ∃ e1,
        ClientManager.findEvaluation (clientManager out.1) cid
          (ClientManager.id evaluation) = Some e1
        ∧ ClientManager.status e1
          = match out.2 with
            | Some _ => "failed"
            | None => "completed"
            end
        ∧ is_Some (ClientManager.lastResult e1).
Proof.
  intros out judged. unfold out, executeEvaluation_settle.
  assert (Hfound : ∀ st res cid e0,
            clientId c = Some cid →
            ClientManager.findEvaluation (clientManager s) cid
              (ClientManager.id evaluation) = Some e0 →
            ∃ e1,
              ClientManager.findEvaluation
                (ClientManager.updateEvaluationStatus (clientManager s)
                   (clientId c) (ClientManager.id evaluation) st (Some res))
                cid (ClientManager.id evaluation) = Some e1
              ∧ ClientManager.status e1 = st
              ∧ is_Some (ClientManager.lastResult e1)).
  { intros st res cid e0 Hc He0. rewrite Hc. eexists.
    split; [by apply findEvaluation_update|]. split; [done|by eexists]. }
  destruct response as [e|resp]; simpl.
  { split; [done|]. split; [done|]. split; [|apply Hfound].
    split; [by left|done]. }
  unfold judged.
  destruct (ClientManager.validation evaluation) as [cfg|]; simpl.
  - destruct (validateResponse evaluate resp evaluation cfg) as [e|v]
      eqn:Hj; simpl; (split; [done|]); (split; [done|]);
      (split; [|apply Hfound]).
    + split; [|done]. right. by exists resp.
    + by exists resp, v.
  - split; [done|]. split; [done|]. split; [|apply Hfound].
    by exists resp, None.
Qed.

(** X7. An evaluation with no validation block, or with a validation type
    other than [llm-judge] and [hybrid], is not validated: any response
    completes it, with [validation: null] stored beside the response, and
    the outcome is the same whatever the judge would have said. *)
Theorem unjudged_response_always_completes evaluate s c evaluation resp
    duration :
  (∀ cfg, ClientManager.validation evaluation = Some cfg →
          isJudged (ClientManager.v_type cfg) = false) →
  ∀ evaluate2,
    executeEvaluation_settle evaluate s c evaluation (inr resp) duration
    = executeEvaluation_settle evaluate2 s c evaluation (inr resp) duration
    ∧ (executeEvaluation_settle evaluate s c evaluation (inr resp)
         duration).2 = None
    ∧ clientManager
        (executeEvaluation_settle evaluate s c evaluation (inr resp)
           duration).1
      = ClientManager.updateEvaluationStatus (clientManager s)
          (clientId c) (ClientManager.id evaluation) "completed"
          (Some (ClientManager.Outcome resp None duration)).
Proof.
  intros Hv evaluate2. unfold executeEvaluation_settle.
  destruct (ClientManager.validation evaluation) as [cfg|]; [|done].
  unfold validateResponse. by rewrite (Hv cfg eq_refl).
Qed.

End Settling.

(** ** Responses *)

Section Responses.

Import EvaluationServer.

Implicit Types (s : EvaluationServer.t) (c : Connection).

(** X8. A response settles its call once. When a response frame (success
    or error) arrives for a pending call, the call is settled and its
    entry dropped; a second response frame with the same id on that
    connection is not matched any more and is only logged as an unknown
    message. *)
Theorem response_settles_its_call_once s r c i p m1 m2 :
  connections s !! r = Some c → id c = r →
  RpcClient.pendingRequests (rpcClient c) !! i = Some p →
  ((∃ res, m1 = Json (RpcSuccess i res)) ∨ (∃ e, m1 = Json (RpcFailure i e)))
  →
  ((∃ res, m2 = Json (RpcSuccess i res)) ∨ (∃ e, m2 = Json (RpcFailure i e)))
  →
  ∃ o,
    settled_id o = i
    ∧ effects (run s [Received r m1; Received r m2])
      = Log warn "Unknown message type" :: Settle r o :: effects s
    ∧ ∃ c2, connections (run s [Received r m1; Received r m2]) !! r
            = Some c2
            ∧ RpcClient.pendingRequests (rpcClient c2) !! i = None.
Proof.
  intros Hl Hid Hp H1 H2. subst r. unfold run. cbn [foldl step].
  rewrite Hl.
  assert (∃ o, settled_id o = i
               ∧ handleMessage s c m1
                 = emit (Settle (id c) o)
                     (store (withRpcClient
                               {| RpcClient.pendingRequests :=
                                    delete i (RpcClient.pendingRequests
                                                (rpcClient c)) |} c) s))
    as (o & Ho & ->).
  { destruct H1 as [[res ->]|[e ->]]; eexists; (split; [|
      unfold handleMessage; simpl; rewrite Hp; reflexivity]); done. }
  exists o. split; [done|]. simpl. rewrite lookup_insert_eq.
  destruct H2 as [[res ->]|[e ->]]; unfold handleMessage; simpl;
    rewrite lookup_delete_eq; simpl; (split; [done|]);
    eexists; (split; [apply lookup_insert_eq|]); simpl;
    apply lookup_delete_eq.
Qed.

End Responses.

(** ** The status report *)

Section Reporting.

Import EvaluationServer Report.

Implicit Types (s : EvaluationServer.t) (c : Connection).

Lemma filter_length_le {A} (f : A → bool) (l : list A) :
  length (List.filter f l) ≤ length l.
Proof.
  induction l as [|x l IH]; simpl; [done|]. destruct (f x); simpl; lia.
Qed.

Lemma omap_length_le {A B} (f : A → option B) (l : list A) :
  length (omap f l) ≤ length l.
Proof.
  induction l as [|x l IH]; [done|].
  change (omap f (x :: l))
    with (match f x with Some y => y :: omap f l | None => omap f l end).
  destruct (f x); simpl; lia.
Qed.

(** X9. The status report never shows more ready agents than connected
    ones, and a registration changes the connected count as follows. A
    refused registration leaves it as it was. An accepted one replaces
    the connection's transient key by the client id: the count stays as
    it was when the transient key was there and the client id is not the
    key of another entry; it drops by one when the client id is already
    such a key (the second tab of a client), although no socket closed;
    and when the connection has registered before, so that its transient
    key is gone, the count rises by one under a client id that is no key
    yet, although no socket opened, and stays as it was under a client id
    that is a key already. *)
Theorem status_counts s c cid key caps :
  let s1 := handleRegistration s c cid key caps in
  let valid :=
    ClientManager.valid
      (ClientManager.validateClient (clientManager s) cid key) in
  let held := is_Some (connectedAgents s !! id c) in
  let taken := cid ≠ id c ∧ is_Some (connectedAgents s !! cid) in
  readyCount (getStatus s) ≤ connectedCount (getStatus s)
  ∧ (valid = false →
     connectedCount (getStatus s1) = connectedCount (getStatus s))
  ∧ (valid = true →
     (held → ¬ taken →
      connectedCount (getStatus s1) = connectedCount (getStatus s))
     ∧ (held → taken →
        S (connectedCount (getStatus s1)) = connectedCount (getStatus s))
     ∧ (¬ held → ¬ taken →
        connectedCount (getStatus s1) = S (connectedCount (getStatus s)))
     ∧ (¬ held → taken →
        connectedCount (getStatus s1) = connectedCount (getStatus s))).
Proof.
  intros s1 valid held taken. split; [|split].
  - unfold getStatus, agents. simpl.
    etrans; [apply filter_length_le|].
    etrans; [apply omap_length_le|]. by rewrite length_map_to_list.
  - intros Hv. unfold getStatus, s1. simpl.
    rewrite handleRegistration_rejected by done. simpl.
    by rewrite connectedAgents_sendMessage.
  - intros Hv. unfold getStatus. simpl. unfold s1.
    rewrite connectedAgents_registered by done.
    assert (Hheld : held →
              size (connectedAgents s)
              = S (size (delete (id c) (connectedAgents s)))).
    { intros [x Hx].
      rewrite <- (insert_delete_id (connectedAgents s) (id c) x) at 1
        by done.
      rewrite map_size_insert_None; [done|apply lookup_delete_eq]. }
    assert (Hgone : ¬ held →
              delete (id c) (connectedAgents s) = connectedAgents s).
    { intros Hno. apply delete_id.
      destruct (connectedAgents s !! id c) eqn:E; [|done].
      exfalso. apply Hno. by eexists. }
    assert (Hfree : ¬ taken →
              delete (id c) (connectedAgents s) !! cid = None).
    { intros Hno. destruct (decide (cid = id c)) as [->|Hne];
        [apply lookup_delete_eq|].
      rewrite lookup_delete_ne by done.
      destruct (connectedAgents s !! cid) eqn:E; [|done].
      exfalso. apply Hno. split; [done|by eexists]. }
    assert (Htaken : taken →
              is_Some (delete (id c) (connectedAgents s) !! cid)).
    { intros [Hne Hin]. by rewrite lookup_delete_ne. }
    split; [|split; [|split]].
    + intros Hh Hf. rewrite map_size_insert_None by auto.
      by rewrite Hheld.
    + intros Hh Ht. rewrite map_size_insert_Some by auto.
      by rewrite Hheld.
    + intros Hh Hf. rewrite map_size_insert_None by auto.
      by rewrite Hgone.
    + intros Hh Ht. rewrite map_size_insert_Some by auto.
      by rewrite Hgone.
Qed.

End Reporting.

(** ** Invariants of the agent *)

Section AgentInvariants.

Import EvaluationAgent AgentQueries.

Implicit Types (a x : EvaluationAgent.t).

Lemma onlyTalked_refl a : onlyTalked a a.
Proof. by repeat split. Qed.

Lemma onlyTalked_emit a x e :
  (∀ ms, e ≠ IntervalSet ms) → e ≠ IntervalCleared →
  onlyTalked a x → onlyTalked a (emit e x).
Proof.
  intros H1 H2 (? & ? & ? & ? & Ht). repeat split; try done.
  simpl. destruct e as [k f|k|ms| |lv tx]; try done.
  by destruct (H1 ms).
Qed.

Lemma onlyTalked_send a x c f : onlyTalked a x → onlyTalked a (send c f x).
Proof. by apply onlyTalked_emit. Qed.

Lemma onlyTalked_withActive a x m :
  onlyTalked a x → onlyTalked a (withActive m x).
Proof. done. Qed.

Lemma onlyTalked_sendStatus a x i st p m :
  onlyTalked a x → onlyTalked a (sendStatus i st p m x).
Proof.
  intros Hx. unfold sendStatus. destruct (client x); [|done].
  destruct (ready x); simpl; [|done]. by apply onlyTalked_send.
Qed.

Lemma onlyTalked_register a x : onlyTalked a x → onlyTalked a (register x).
Proof.
  intros Hx. unfold register. destruct (client x); [|done].
  by apply onlyTalked_send, onlyTalked_emit.
Qed.

Lemma onlyTalked_heartbeat a x :
  onlyTalked a x → onlyTalked a (heartbeat x).
Proof.
  intros Hx. unfold heartbeat. destruct (client x); [|done].
  destruct (ready x); [|done]. by apply onlyTalked_send.
Qed.

Lemma onlyTalked_finishEvaluation a x requestId params outcome elapsed :
  onlyTalked a x →
  onlyTalked a (finishEvaluation x requestId params outcome elapsed).
Proof.
  intros Hx. unfold finishEvaluation. apply onlyTalked_withActive.
  destruct outcome as [e|r].
  - apply onlyTalked_sendStatus.
    destruct (client (emit (Logged error "Evaluation failed") x)).
    + by apply onlyTalked_send, onlyTalked_emit.
    + by apply onlyTalked_emit.
  - apply onlyTalked_emit; [done|done|]. apply onlyTalked_sendStatus.
    destruct (client x); [|done]. by apply onlyTalked_send.
Qed.

Lemma onlyTalked_beginEvaluation a x registry params now :
  onlyTalked a x → onlyTalked a (beginEvaluation registry x params now).1.
Proof.
  intros Hx. unfold beginEvaluation.
  assert (onlyTalked a
            (sendStatus (p_evaluationId params) "running"
               (Some (1 # 10)%Q) (Some "Starting evaluation...")
               (withActive
                  (<[p_evaluationId params :=
                       {| startTime := now; a_tool := p_tool params |}]>
                     (activeEvaluations
                        (emit (Logged info "Received evaluation request")
                           x)))
                  (emit (Logged info "Received evaluation request") x))))
    as Hx1.
  { apply onlyTalked_sendStatus, onlyTalked_withActive.
    by apply onlyTalked_emit. }
  destruct (getRegisteredTool registry (p_tool params)); simpl; [|done].
  apply onlyTalked_sendStatus.
  destruct (EvaluationServer.truthy (p_url params)); [|done]. by apply onlyTalked_sendStatus.
Qed.

Lemma onlyTalked_handleEvaluationRequest a x registry requestId params now
    elapsed :
  onlyTalked a x →
  onlyTalked a (handleEvaluationRequest registry (λ y, y) x requestId
                  params now elapsed).
Proof.
  intros Hx. unfold handleEvaluationRequest.
  pose proof (onlyTalked_beginEvaluation a x registry params now Hx) as Hb.
  destruct (beginEvaluation registry x params now) as [x1 [e|tool]];
    by apply onlyTalked_finishEvaluation.
Qed.

Lemma agentInvariant_onlyTalked a a1 :
  onlyTalked a a1 →
  readyMeansServing a ∧ timersBalanced a →
  readyMeansServing a1 ∧ timersBalanced a1.
Proof.
  intros (Hr & Hg & Hc & Hh & Ht) [H1 H2].
  unfold readyMeansServing, timersBalanced. rewrite Hr, Hg, Hc, Hh, Ht.
  done.
Qed.

Lemma agentInvariant_stopHeartbeat_unready a :
  timersBalanced a → timersBalanced (stopHeartbeat a)
  ∧ heartbeatInterval (stopHeartbeat a) = None.
Proof.
  unfold timersBalanced, stopHeartbeat.
  destruct (heartbeatInterval a) eqn:Hh; simpl; [|by rewrite Hh].
  intros ->. done.
Qed.

Lemma agentInvariant_step registry a e :
  readyMeansServing a ∧ timersBalanced a →
  readyMeansServing (step registry a e)
  ∧ timersBalanced (step registry a e).
Proof.
  intros [H1 H2]. destruct e as [sock| |m now elapsed| |]; cbn [step].
  - unfold connect.
    destruct (client a) as [c|] eqn:Hc;
      [destruct (connectionReady c)|];
      (split; [|done]); intros Hr; destruct (H1 Hr) as (? & ? & ?);
      repeat split; simpl; try done; rewrite ?Hc; by eexists.
  - destruct (agentInvariant_stopHeartbeat_unready a H2) as [Hb Hn].
    unfold disconnect. split; [by intros [=]|].
    unfold timersBalanced in *. revert Hb Hn.
    destruct (client (stopHeartbeat a)); simpl; intros -> ->; done.
  - destruct m as [sid v|cid st r m n| |i method params]; cbn [handleMessage].
    + apply (agentInvariant_onlyTalked a); [|done].
      apply onlyTalked_register, onlyTalked_emit; try done.
    + destruct st; cbn [handleRegistrationAck].
      * unfold sendReady, startHeartbeat, timersBalanced,
          readyMeansServing in *. simpl.
        destruct (client a) as [c|] eqn:Hc; simpl;
          destruct (heartbeatInterval a) as [h|] eqn:Hh; simpl;
          rewrite ?Hc, ?Hh; simpl; rewrite ?H2;
          (split; [|done]); intros Hr; repeat split; try done;
          try by eexists.
        all: destruct (H1 Hr) as (_ & [? [=]] & _) || destruct (H1 Hr)
               as (_ & _ & [? [=]]).
      * destruct (agentInvariant_stopHeartbeat_unready
                    (emit (Logged error "Registration rejected") a))
          as [Hb Hn]; [done|].
        unfold disconnect. split; [by intros [=]|].
        unfold timersBalanced in *. revert Hb Hn.
        destruct (client (stopHeartbeat _)); simpl; intros -> ->; done.
    + apply (agentInvariant_onlyTalked a); [|done].
      apply onlyTalked_emit; try done.
    + destruct (isEvaluationRequest method);
        (apply (agentInvariant_onlyTalked a); [|done]).
      * apply onlyTalked_handleEvaluationRequest, onlyTalked_refl.
      * apply onlyTalked_emit; try done.
  - unfold onDisconnected.
    destruct (agentInvariant_stopHeartbeat_unready
                (withReady false
                   (withRegistered false
                      (withClient
                         (c ← client
                                (emit (Logged info "WebSocket disconnected")
                                   a);
                          Some {| socket := socket c;
                                  connectionReady := false |})
                         (emit (Logged info "WebSocket disconnected") a)))))
      as [Hb Hn]; [done|].
    split; [|done]. unfold readyMeansServing, stopHeartbeat. simpl.
    by destruct (heartbeatInterval a).
  - apply (agentInvariant_onlyTalked a); [|done].
    apply onlyTalked_heartbeat, onlyTalked_refl.
Qed.

(** X10. Whatever the agent is put through from its creation on
    (connections, disconnections, frames of the server, heartbeat ticks),
    it is ready only while it is registered, holds a socket client and has
    its heartbeat timer running; and the interval timers it set and has
    not cleared are exactly the one it holds: never two at a time, and
    none once the heartbeat is stopped. *)
Theorem agent_ready_means_serving registry cid ep key es :
  let a := run registry (new cid ep key) es in
  readyMeansServing a ∧ timersBalanced a.
Proof.
  simpl.
  assert (∀ a0, readyMeansServing a0 ∧ timersBalanced a0 →
                readyMeansServing (run registry a0 es)
                ∧ timersBalanced (run registry a0 es)) as Hrun.
  { induction es as [|e es IH]; intros a0 Ha0; [done|].
    simpl. by apply IH, agentInvariant_step. }
  apply Hrun. split; [by intros [=]|done].
Qed.

End AgentInvariants.

(** ** What the agent writes while it runs an evaluation *)

Section AgentFrames.

Import EvaluationAgent AgentQueries.

Implicit Types (a x : EvaluationAgent.t).

Lemma sentOn_withActive k m x : sentOn k (withActive m x) = sentOn k x.
Proof. done. Qed.

Lemma sentOn_send x c f :
  sentOn (socket c) (send c f x) = sentOn (socket c) x ++ [f].
Proof. unfold send. rewrite sentOn_emit. by rewrite decide_True. Qed.

Lemma sentOn_sendStatus x c i st p m :
  client x = Some c →
  sentOn (socket c) (sendStatus i st p m x)
  = sentOn (socket c) x ++ (if ready x then [Status i st p m] else []).
Proof.
  intros Hc. unfold sendStatus. rewrite Hc.
  destruct (ready x); simpl; [apply sentOn_send|by rewrite app_nil_r].
Qed.

Lemma activeEvaluations_sendStatus x i st p m :
  activeEvaluations (sendStatus i st p m x) = activeEvaluations x.
Proof.
  unfold sendStatus. destruct (client x); [|done]. by destruct (ready x).
Qed.

(** The progress frames of the try block, before the tool is awaited. *)
Lemma sentOn_beginEvaluation registry x params now c :
  client x = Some c →
  sentOn (socket c) (beginEvaluation registry x params now).1
  = sentOn (socket c) x
    ++ (if ready x then
          Status (p_evaluationId params) "running" (Some (1 # 10)%Q)
            (Some "Starting evaluation...")
          :: match getRegisteredTool registry (p_tool params) with
             | Some _ =>
                 (if EvaluationServer.truthy (p_url params) then
                    [Status (p_evaluationId params) "running"
                       (Some (2 # 10)%Q) (Some "Navigating to URL...")]
                  else [])
                 ++ [Status (p_evaluationId params) "running"
                       (Some (5 # 10)%Q)
                       (Some ("Executing " +:+ p_tool params +:+ "..."))]
             | None => []
             end
        else []).
Proof.
  intros Hc. unfold beginEvaluation.
  set (x0 := withActive _ (emit (Logged info "Received evaluation request")
                             x)).
  assert (Hc0 : client x0 = Some c) by done.
  assert (Hs0 : sentOn (socket c) x0 = sentOn (socket c) x).
  { unfold x0. rewrite sentOn_withActive, sentOn_emit. apply app_nil_r. }
  assert (Hr0 : ready x0 = ready x) by done.
  destruct (getRegisteredTool registry (p_tool params)); simpl.
  - destruct (EvaluationServer.truthy (p_url params)); simpl.
    + rewrite !sentOn_sendStatus by (by rewrite ?client_sendStatus).
      destruct (onlyTalked_sendStatus x0 x0 (p_evaluationId params)
                  "running" (Some (1 # 10)%Q)
                  (Some "Starting evaluation...") (onlyTalked_refl x0))
        as (Hr1 & _).
      destruct (onlyTalked_sendStatus x0 _ (p_evaluationId params)
                  "running" (Some (2 # 10)%Q)
                  (Some "Navigating to URL...")
                  (onlyTalked_sendStatus x0 x0 (p_evaluationId params)
                     "running" (Some (1 # 10)%Q)
                     (Some "Starting evaluation...") (onlyTalked_refl x0)))
        as (Hr2 & _).
      rewrite Hr2, Hr1, Hs0, Hr0. destruct (ready x); simpl;
        by rewrite <- ?app_assoc, ?app_nil_r.
    + rewrite !sentOn_sendStatus by (by rewrite ?client_sendStatus).
      destruct (onlyTalked_sendStatus x0 x0 (p_evaluationId params)
                  "running" (Some (1 # 10)%Q)
                  (Some "Starting evaluation...") (onlyTalked_refl x0))
        as (Hr1 & _).
      rewrite Hr1, Hs0, Hr0. destruct (ready x); simpl;
        by rewrite <- ?app_assoc, ?app_nil_r.
  - rewrite sentOn_sendStatus by done. by rewrite Hs0, Hr0.
Qed.

(** The reply and the closing status frame. *)
Lemma sentOn_finishEvaluation x requestId params outcome elapsed c :
  client x = Some c →
  sentOn (socket c) (finishEvaluation x requestId params outcome elapsed)
  = sentOn (socket c) x
    ++ match outcome with
       | inr toolResult =>
           RpcSuccess requestId
             {| output := Some toolResult; executionTime := elapsed;
                r_status := "success";
                r_evaluationId := Some (p_evaluationId params) |}
           :: (if ready x then
                 [Status (p_evaluationId params) "completed" (Some 1%Q)
                    (Some "Evaluation completed successfully")]
               else [])
       | inl e =>
           RpcFailure requestId (toolFailure params (errorMessage e))
           :: (if ready x then
                 [Status (p_evaluationId params) "failed" (Some 1%Q)
                    (Some (errorMessage e))]
               else [])
       end.
Proof.
  intros Hc. unfold finishEvaluation. rewrite sentOn_withActive.
  destruct outcome as [e|r]; simpl; rewrite Hc.
  - rewrite sentOn_sendStatus by done. rewrite sentOn_send, sentOn_emit.
    simpl. rewrite app_nil_r, <- app_assoc. done.
  - rewrite sentOn_emit, sentOn_sendStatus by done. rewrite sentOn_send.
    simpl. rewrite app_nil_r, <- app_assoc. done.
Qed.

(** X11. A ready agent frames every evaluation the same way on its
    socket: one or more [status] frames saying [running], then the
    JSON-RPC response with the id of the request, then one closing
    [status] frame that agrees with the response: [completed] after a
    success, [failed] with the error message after an error. An agent that
    is not ready writes the response alone. *)
Theorem evaluation_frames_in_order registry a requestId params now elapsed
    c :
  client a = Some c →
  let a1 := handleEvaluationRequest registry (λ x, x) a requestId params now
              elapsed in
  ∃ reply,
    ((∃ res, reply = RpcSuccess requestId res)
     ∨ (∃ e, reply = RpcFailure requestId e))
    ∧ (ready a = false →
       sentOn (socket c) a1 = sentOn (socket c) a ++ [reply])
    ∧ (ready a = true →
       ∃ progress st message,
         sentOn (socket c) a1
         = sentOn (socket c) a ++ progress
           ++ [reply;
               Status (p_evaluationId params) st (Some 1%Q) (Some message)]
         ∧ progress ≠ []
         ∧ Forall (isRunningStatus (p_evaluationId params)) progress
         ∧ (((∃ res, reply = RpcSuccess requestId res) ∧ st = "completed")
            ∨ (reply = RpcFailure requestId (toolFailure params message)
               ∧ st = "failed"))).
Proof.
  intros Hc a1.
  pose proof (sentOn_beginEvaluation registry a params now c Hc) as Hb.
  pose proof (onlyTalked_beginEvaluation a a registry params now
                (onlyTalked_refl a)) as (Hr & _ & Hcl & _).
  destruct (beginEvaluation_quiet registry a params now (socket c))
    as (_ & _ & Hout).
  unfold a1, handleEvaluationRequest.
  destruct (beginEvaluation registry a params now) as [x out].
  simpl in Hb, Hr, Hcl, Hout. rewrite Hc in Hcl.
  assert (∀ outcome,
            sentOn (socket c)
              (finishEvaluation x requestId params outcome elapsed)
            = sentOn (socket c) x
              ++ match outcome with
                 | inr toolResult =>
                     RpcSuccess requestId
                       {| output := Some toolResult;
                          executionTime := elapsed; r_status := "success";
                          r_evaluationId := Some (p_evaluationId params) |}
                     :: (if ready a then
                           [Status (p_evaluationId params) "completed"
                              (Some 1%Q)
                              (Some "Evaluation completed successfully")]
                         else [])
                 | inl e =>
                     RpcFailure requestId
                       (toolFailure params (errorMessage e))
                     :: (if ready a then
                           [Status (p_evaluationId params) "failed"
                              (Some 1%Q) (Some (errorMessage e))]
                         else [])
                 end) as Hfin.
  { intros outcome. rewrite (sentOn_finishEvaluation x _ _ _ _ c Hcl).
    by rewrite Hr. }
  assert (∃ outcome,
            match out with
            | inl e => finishEvaluation x requestId params (inl e) elapsed
            | inr tool =>
                finishEvaluation x requestId params
                  (executeToolWithTimeout tool (p_input params)
                     (effectiveTimeout params)) elapsed
            end = finishEvaluation x requestId params outcome elapsed)
    as [outcome ->] by (destruct out; by eexists).
  rewrite Hfin, Hb. clear Hfin Hb.
  destruct outcome as [e|toolResult].
  - eexists. split; [right; by eexists|]. split.
    + intros ->. by rewrite app_nil_r.
    + intros ->. eexists _, "failed", (errorMessage e).
      rewrite <- app_assoc. split; [done|]. split; [done|].
      split; [|by right].
      apply Forall_cons. split; [by eexists _, _|].
      destruct (getRegisteredTool registry (p_tool params)); [|done].
      apply Forall_app. split; [|apply Forall_cons; split;
                                  [by eexists _, _|done]].
      destruct (EvaluationServer.truthy (p_url params)); [|done].
      apply Forall_cons. split; [by eexists _, _|done].
  - eexists. split; [left; by eexists|]. split.
    + intros ->. by rewrite app_nil_r.
    + intros ->. eexists _, "completed", _.
      rewrite <- app_assoc. split; [done|]. split; [done|].
      split; [|left; split; [by eexists|done]].
      apply Forall_cons. split; [by eexists _, _|].
      destruct (getRegisteredTool registry (p_tool params)); [|done].
      apply Forall_app. split; [|apply Forall_cons; split;
                                  [by eexists _, _|done]].
      destruct (EvaluationServer.truthy (p_url params)); [|done].
      apply Forall_cons. split; [by eexists _, _|done].
Qed.


End AgentFrames.

(** ** The handshake, both sides together *)

Section Handshake.

Import EvaluationServer.

Implicit Types (s : EvaluationServer.t) (a : EvaluationAgent.t).

Lemma sentTo_emit r e s :
  sentTo r (emit e s) = sentTo r s ++ option_list (toConnection r e).
Proof.
  rewrite (sentTo_app s (emit e s) [e] r eq_refl). simpl.
  by destruct (toConnection r e).
Qed.

Lemma sentTo_handleConnection s r addr t0 :
  sentTo r (handleConnection s r addr t0)
  = sentTo r s ++ [Welcome "server-001" "1.0.0"].
Proof.
  rewrite (sentTo_app s (handleConnection s r addr t0)
             [Send r (Welcome "server-001" "1.0.0"); Log info "connected"]
             r eq_refl).
  simpl. by rewrite decide_True.
Qed.

Lemma getAgent_handleConnection s r addr t0 :
  getAgent (handleConnection s r addr t0) r
  = Some (newConnection r addr t0).
Proof.
  unfold getAgent, handleConnection.
  rewrite connectedAgents_sendMessage, connections_sendMessage. simpl.
  rewrite lookup_insert_eq. simpl. apply lookup_insert_eq.
Qed.

Lemma agent_sentOn_register a c :
  EvaluationAgent.client a = Some c →
  EvaluationAgent.sentOn (EvaluationAgent.socket c)
    (EvaluationAgent.register a)
  = EvaluationAgent.sentOn (EvaluationAgent.socket c) a
    ++ [Register (EvaluationAgent.clientId a) (EvaluationAgent.secretKey a)
          (Some {| tools := ToolList []; maxConcurrency := Some 3;
                   version := Some "1.0.0"; tabId := None |})].
Proof.
  intros Hc. unfold EvaluationAgent.register. rewrite Hc.
  rewrite sentOn_send, sentOn_emit. simpl. by rewrite app_nil_r.
Qed.

Lemma sentOn_withReady k b a :
  EvaluationAgent.sentOn k (EvaluationAgent.withReady b a)
  = EvaluationAgent.sentOn k a.
Proof. done. Qed.

Lemma sentOn_withRegistered k b a :
  EvaluationAgent.sentOn k (EvaluationAgent.withRegistered b a)
  = EvaluationAgent.sentOn k a.
Proof. done. Qed.

Lemma sentOn_withHeartbeat k h a :
  EvaluationAgent.sentOn k (EvaluationAgent.withHeartbeat h a)
  = EvaluationAgent.sentOn k a.
Proof. done. Qed.

(** What an [accepted] acknowledgement does to an agent that holds a
    client. *)
Lemma agent_accepted a c :
  EvaluationAgent.client a = Some c →
  let a1 := EvaluationAgent.handleRegistrationAck a accepted in
  EvaluationAgent.sentOn (EvaluationAgent.socket c) a1
  = EvaluationAgent.sentOn (EvaluationAgent.socket c) a ++ [Ready]
  ∧ EvaluationAgent.registered a1 = true
  ∧ EvaluationAgent.ready a1 = true
  ∧ is_Some (EvaluationAgent.heartbeatInterval a1)
  ∧ EvaluationAgent.client a1 = Some c.
Proof.
  intros Hc a1. unfold a1, EvaluationAgent.handleRegistrationAck,
    EvaluationAgent.sendReady, EvaluationAgent.startHeartbeat.
  simpl. rewrite Hc. simpl.
  destruct (EvaluationAgent.heartbeatInterval a) eqn:Hh; simpl;
    rewrite ?Hh; (split; [|by repeat split; try eexists]);
    rewrite ?sentOn_withHeartbeat, ?sentOn_emit; simpl;
    rewrite ?app_nil_r, ?sentOn_emit; simpl;
    rewrite ?app_nil_r, sentOn_withReady, sentOn_send,
      sentOn_withRegistered, sentOn_emit; simpl; by rewrite app_nil_r.
Qed.

Lemma exchange_server_frame fuel registry r k s a i j m :
  sentTo r s !! j = Some m →
  Session.exchange (S fuel) registry r k s a i j
  = Session.exchange fuel registry r k s
      (EvaluationAgent.handleMessage registry a m 0 0) i (S j).
Proof. intros Hm. cbn [Session.exchange]. by rewrite Hm. Qed.

Lemma exchange_agent_frame fuel registry r k s a i j f :
  sentTo r s !! j = None →
  EvaluationAgent.sentOn k a !! i = Some f →
  Session.exchange (S fuel) registry r k s a i j
  = Session.exchange fuel registry r k (step s (Received r (Json f))) a
      (S i) j.
Proof. intros Hm Hf. cbn [Session.exchange]. by rewrite Hm, Hf. Qed.

Lemma exchange_done fuel registry r k s a i j :
  sentTo r s !! j = None →
  EvaluationAgent.sentOn k a !! i = None →
  Session.exchange fuel registry r k s a i j = (s, a).
Proof.
  intros Hm Hf. destruct fuel; [done|].
  cbn [Session.exchange]. by rewrite Hm, Hf.
Qed.

Lemma clientManager_handleConnection s r addr t0 :
  clientManager (handleConnection s r addr t0) = clientManager s.
Proof. unfold handleConnection. by rewrite clientManager_sendMessage. Qed.

Lemma sentTo_registered s c cid key caps joined :
  ws c = OPEN →
  ClientManager.valid
    (ClientManager.validateClient (clientManager s) cid key) = true →
  joinTools caps = inr joined →
  ∃ text count,
    sentTo (id c) (handleRegistration s c cid key caps)
    = sentTo (id c) s
      ++ [RegistrationAck cid accepted None (Some text) (Some count)].
Proof.
  intros Hopen Hv Hj. rewrite handleRegistration_accepted by done.
  cbv zeta. rewrite Hj.
  eexists _, _. rewrite sentTo_emit. simpl. rewrite app_nil_r.
  unfold sendMessage. simpl. rewrite Hopen.
  rewrite sentTo_emit. simpl. by rewrite decide_True.
Qed.

Lemma sentTo_rejected s c cid key caps :
  ws c = OPEN →
  ClientManager.valid
    (ClientManager.validateClient (clientManager s) cid key) = false →
  sentTo (id c) (handleRegistration s c cid key caps)
  = sentTo (id c) s
    ++ [RegistrationAck cid rejected
          (ClientManager.reason
             (ClientManager.validateClient (clientManager s) cid key))
          None None].
Proof.
  intros Hopen Hv. rewrite handleRegistration_rejected by done.
  rewrite sentTo_emit. simpl. rewrite app_nil_r.
  unfold sendMessage. rewrite Hopen.
  rewrite sentTo_emit. simpl. by rewrite decide_True.
Qed.

(** X13. The handshake of an agent with the server. The server accepts
    the connection and sends [welcome]; the agent answers with [register];
    the store accepts its credentials, so the server answers [accepted];
    the agent sends [ready]. When nothing is left to deliver, the agent is
    registered and ready with its heartbeat running, and the server's
    directory leads from the agent's client id to this connection,
    registered and ready. Each side has written exactly two frames. *)
Theorem handshake_makes_both_sides_ready registry s r addr t0 a c n :
  sentTo r s = [] →
  EvaluationAgent.client a = Some c →
  EvaluationAgent.sentOn (EvaluationAgent.socket c) a = [] →
  ClientManager.valid
    (ClientManager.validateClient (clientManager s)
       (EvaluationAgent.clientId a) (EvaluationAgent.secretKey a)) = true →
  let cid := EvaluationAgent.clientId a in
  let out := Session.exchange (4 + n) registry r (EvaluationAgent.socket c)
               (handleConnection s r addr t0) a 0 0 in
  (∃ text count,
     sentTo r out.1
     = [Welcome "server-001" "1.0.0";
        RegistrationAck cid accepted None (Some text) (Some count)])
  ∧ EvaluationAgent.sentOn (EvaluationAgent.socket c) out.2
    = [Register cid (EvaluationAgent.secretKey a)
         (Some {| tools := ToolList []; maxConcurrency := Some 3;
                  version := Some "1.0.0"; tabId := None |});
       Ready]
  ∧ EvaluationAgent.registered out.2 = true
  ∧ EvaluationAgent.ready out.2 = true
  ∧ is_Some (EvaluationAgent.heartbeatInterval out.2)
  ∧ ∃ c1, getAgent out.1 cid = Some c1
          ∧ id c1 = r ∧ registered c1 = true ∧ ready c1 = true
          ∧ ws c1 = OPEN.
Proof.
  intros Hs Hc Ha Hv cid out.
  set (caps := Some {| tools := ToolList []; maxConcurrency := Some 3;
                       version := Some "1.0.0"; tabId := None |}).
  set (s1 := handleConnection s r addr t0) in *.
  set (c0 := newConnection r addr t0).
  set (a1 := EvaluationAgent.handleMessage registry a
               (Welcome "server-001" "1.0.0") 0 0).
  set (s2 := handleRegistration s1 c0 cid (EvaluationAgent.secretKey a)
               caps).
  set (a2 := EvaluationAgent.handleRegistrationAck a1 accepted).
  set (c1 := markRegistered cid caps c0).
  set (s3 := emit (Log info "Client ready for evaluations")
               (store (markReady c1) s2)).
  assert (Hs1 : sentTo r s1 = [Welcome "server-001" "1.0.0"]).
  { unfold s1. by rewrite sentTo_handleConnection, Hs. }
  assert (Hl1 : connections s1 !! r = Some c0).
  { unfold s1. rewrite connections_handleConnection.
    apply lookup_insert_eq. }
  assert (Hv1 : ClientManager.valid
                  (ClientManager.validateClient (clientManager s1) cid
                     (EvaluationAgent.secretKey a)) = true).
  { unfold s1. by rewrite clientManager_handleConnection. }
  assert (Hc1 : EvaluationAgent.client a1 = Some c).
  { unfold a1. cbn [EvaluationAgent.handleMessage].
    by destruct (onlyTalked_register _ _ (onlyTalked_refl
                   (EvaluationAgent.emit
                      (EvaluationAgent.Logged info
                         "Received welcome message from server") a)))
      as (_ & _ & -> & _). }
  assert (Ha1 : EvaluationAgent.sentOn (EvaluationAgent.socket c) a1
                = [Register cid (EvaluationAgent.secretKey a) caps]).
  { unfold a1. cbn [EvaluationAgent.handleMessage].
    rewrite (agent_sentOn_register _ c) by done.
    by rewrite sentOn_emit, Ha. }
  destruct (sentTo_registered s1 c0 cid (EvaluationAgent.secretKey a) caps
              (Some "") eq_refl Hv1 eq_refl) as (text & count & Hs2).
  fold s2 in Hs2. change (id c0) with r in Hs2. rewrite Hs1 in Hs2.
  simpl in Hs2.
  assert (Hl2 : connections s2 !! r = Some c1).
  { unfold s2. rewrite connections_registered by done.
    apply lookup_insert_eq. }
  destruct (agent_accepted a1 c Hc1) as (Ha2 & Hreg2 & Hrdy2 & Hhb2 & _).
  fold a2 in Ha2, Hreg2, Hrdy2, Hhb2. rewrite Ha1 in Ha2. simpl in Ha2.
  assert (Hs3 : step s2 (Received r (Json Ready)) = s3).
  { cbn [step]. rewrite Hl2. done. }
  assert (Hs3s : sentTo r s3 = sentTo r s2).
  { unfold s3. rewrite sentTo_emit. simpl. by rewrite app_nil_r. }
  assert (Hout : out = (s3, a2)).
  { unfold out. change (4 + n) with (S (S (S (S n)))).
    rewrite (exchange_server_frame _ _ _ _ _ _ _ _
               (Welcome "server-001" "1.0.0")) by (by rewrite Hs1).
    fold a1.
    rewrite (exchange_agent_frame _ _ _ _ _ _ _ _
               (Register cid (EvaluationAgent.secretKey a) caps))
      by (by rewrite ?Hs1, ?Ha1).
    rewrite (step_register s1 r c0) by done. fold s2.
    rewrite (exchange_server_frame _ _ _ _ _ _ _ _
               (RegistrationAck cid accepted None (Some text) (Some count)))
      by (by rewrite Hs2).
    change (EvaluationAgent.handleMessage registry a1
              (RegistrationAck cid accepted None (Some text) (Some count))
              0 0) with a2.
    rewrite (exchange_agent_frame _ _ _ _ _ _ _ _ Ready)
      by (by rewrite ?Hs2, ?Ha2).
    rewrite Hs3. apply exchange_done; by rewrite ?Hs3s, ?Hs2, ?Ha2. }
  rewrite Hout. simpl.
  split; [exists text, count; by rewrite Hs3s|].
  split; [done|]. split; [done|]. split; [done|]. split; [done|].
  exists (markReady c1). split; [|done].
  unfold getAgent, s3. simpl.
  unfold s2. rewrite connectedAgents_registered by done.
  rewrite lookup_insert_eq. simpl. apply lookup_insert_eq.
Qed.

(** What a [rejected] acknowledgement does to an agent that holds a
    client. *)
Lemma agent_rejected a c :
  EvaluationAgent.client a = Some c →
  let a1 := EvaluationAgent.handleRegistrationAck a rejected in
  EvaluationAgent.sentOn (EvaluationAgent.socket c) a1
  = EvaluationAgent.sentOn (EvaluationAgent.socket c) a
  ∧ EvaluationAgent.client a1 = None
  ∧ EvaluationAgent.registered a1 = false
  ∧ EvaluationAgent.ready a1 = false
  ∧ EvaluationAgent.SocketClosed (EvaluationAgent.socket c)
    ∈ EvaluationAgent.trace a1.
Proof.
  intros Hc a1. unfold a1, EvaluationAgent.handleRegistrationAck,
    EvaluationAgent.disconnect, EvaluationAgent.stopHeartbeat.
  simpl.
  destruct (EvaluationAgent.heartbeatInterval a) eqn:Hh; simpl;
    rewrite Hc; simpl; (split; [|split_and!; try done; set_solver]);
    unfold EvaluationAgent.sentOn; simpl; rewrite ?omap_app; simpl;
    by rewrite ?app_nil_r.
Qed.

(** X14. The handshake with credentials the store refuses. The server
    answers the agent's [register] with [rejected] and the store's reason;
    the agent closes its socket and drops its client without writing
    anything more. The server meanwhile keeps the connection, unregistered,
    under its transient id; the entry goes when the close of the socket
    reaches the server. *)
Theorem rejected_handshake_ends_the_session registry s r addr t0 a c n :
  sentTo r s = [] →
  EvaluationAgent.client a = Some c →
  EvaluationAgent.sentOn (EvaluationAgent.socket c) a = [] →
  ClientManager.valid
    (ClientManager.validateClient (clientManager s)
       (EvaluationAgent.clientId a) (EvaluationAgent.secretKey a)) = false →
  let cid := EvaluationAgent.clientId a in
  let out := Session.exchange (3 + n) registry r (EvaluationAgent.socket c)
               (handleConnection s r addr t0) a 0 0 in
  sentTo r out.1
  = [Welcome "server-001" "1.0.0";
     RegistrationAck cid rejected
       (ClientManager.reason
          (ClientManager.validateClient (clientManager s) cid
             (EvaluationAgent.secretKey a))) None None]
  ∧ EvaluationAgent.sentOn (EvaluationAgent.socket c) out.2
    = [Register cid (EvaluationAgent.secretKey a)
         (Some {| tools := ToolList []; maxConcurrency := Some 3;
                  version := Some "1.0.0"; tabId := None |})]
  ∧ EvaluationAgent.client out.2 = None
  ∧ EvaluationAgent.registered out.2 = false
  ∧ EvaluationAgent.ready out.2 = false
  ∧ EvaluationAgent.SocketClosed (EvaluationAgent.socket c)
    ∈ EvaluationAgent.trace out.2
  ∧ getAgent out.1 r = Some (newConnection r addr t0)
  ∧ getAgent (step out.1 (Closed r)) r = None.
Proof.
  intros Hs Hc Ha Hv cid out.
  set (caps := Some {| tools := ToolList []; maxConcurrency := Some 3;
                       version := Some "1.0.0"; tabId := None |}).
  set (s1 := handleConnection s r addr t0) in *.
  set (c0 := newConnection r addr t0).
  set (a1 := EvaluationAgent.handleMessage registry a
               (Welcome "server-001" "1.0.0") 0 0).
  set (s2 := handleRegistration s1 c0 cid (EvaluationAgent.secretKey a)
               caps).
  set (a2 := EvaluationAgent.handleRegistrationAck a1 rejected).
  assert (Hs1 : sentTo r s1 = [Welcome "server-001" "1.0.0"]).
  { unfold s1. by rewrite sentTo_handleConnection, Hs. }
  assert (Hl1 : connections s1 !! r = Some c0).
  { unfold s1. rewrite connections_handleConnection.
    apply lookup_insert_eq. }
  assert (Hcm : clientManager s1 = clientManager s)
    by apply clientManager_handleConnection.
  assert (Hv1 : ClientManager.valid
                  (ClientManager.validateClient (clientManager s1) cid
                     (EvaluationAgent.secretKey a)) = false)
    by by rewrite Hcm.
  assert (Hc1 : EvaluationAgent.client a1 = Some c).
  { unfold a1. cbn [EvaluationAgent.handleMessage].
    by destruct (onlyTalked_register _ _ (onlyTalked_refl
                   (EvaluationAgent.emit
                      (EvaluationAgent.Logged info
                         "Received welcome message from server") a)))
      as (_ & _ & -> & _). }
  assert (Ha1 : EvaluationAgent.sentOn (EvaluationAgent.socket c) a1
                = [Register cid (EvaluationAgent.secretKey a) caps]).
  { unfold a1. cbn [EvaluationAgent.handleMessage].
    rewrite (agent_sentOn_register _ c) by done.
    by rewrite sentOn_emit, Ha. }
  pose proof (sentTo_rejected s1 c0 cid (EvaluationAgent.secretKey a) caps
                eq_refl Hv1) as Hs2.
  fold s2 in Hs2. change (id c0) with r in Hs2.
  rewrite Hs1, Hcm in Hs2. simpl in Hs2.
  destruct (agent_rejected a1 c Hc1) as (Ha2 & Hcl2 & Hreg2 & Hrdy2 & Hsc2).
  fold a2 in Ha2, Hcl2, Hreg2, Hrdy2, Hsc2. rewrite Ha1 in Ha2.
  assert (Hout : out = (s2, a2)).
  { unfold out. change (3 + n) with (S (S (S n))).
    rewrite (exchange_server_frame _ _ _ _ _ _ _ _
               (Welcome "server-001" "1.0.0")) by (by rewrite Hs1).
    fold a1.
    rewrite (exchange_agent_frame _ _ _ _ _ _ _ _
               (Register cid (EvaluationAgent.secretKey a) caps))
      by (by rewrite ?Hs1, ?Ha1).
    rewrite (step_register s1 r c0) by done. fold s2.
    rewrite (exchange_server_frame _ _ _ _ _ _ _ _
               (RegistrationAck cid rejected
                  (ClientManager.reason
                     (ClientManager.validateClient (clientManager s) cid
                        (EvaluationAgent.secretKey a))) None None))
      by (by rewrite Hs2).
    change (EvaluationAgent.handleMessage registry a1
              (RegistrationAck cid rejected
                 (ClientManager.reason
                    (ClientManager.validateClient (clientManager s) cid
                       (EvaluationAgent.secretKey a))) None None) 0 0)
      with a2.
    apply exchange_done; by rewrite ?Hs2, ?Ha2. }
  assert (Hh2 : connections s2 = connections s1
                ∧ connectedAgents s2 = connectedAgents s1).
  { unfold s2. by rewrite handleRegistration_rejected. }
  destruct Hh2 as [Hh2 Hd2].
  assert (Hg2 : getAgent s2 r = Some c0).
  { unfold getAgent. rewrite Hd2, Hh2.
    apply (getAgent_handleConnection s r addr t0). }
  rewrite Hout. cbn [fst snd].
  split; [done|]. split; [done|]. split; [done|]. split; [done|].
  split; [done|]. split; [done|]. split; [done|].
  rewrite (step_closed s2 r c0) by (by rewrite Hh2).
  unfold getAgent, handleDisconnection. simpl.
  by rewrite lookup_delete_eq.
Qed.

End Handshake.

(** ** The operator console *)

Section Operator.

Import EvaluationServer Console.

Implicit Types (s : EvaluationServer.t) (c : Connection).

Lemma executeEvaluation_settle_thrown evaluate s c evaluation response
    duration :
  (executeEvaluation_settle evaluate s c evaluation response duration).2
  = None
  ↔ completes evaluate evaluation response = true.
Proof.
  unfold executeEvaluation_settle, completes.
  destruct response as [e|resp]; [done|].
  destruct (ClientManager.validation evaluation) as [cfg|]; [|done].
  by destruct (validateResponse evaluate resp evaluation cfg).
Qed.

Lemma connections_executeEvaluation evaluate dur s c evaluation i response
    duration :
  connections (executeEvaluation evaluate dur s c evaluation i response
                 duration).1
  = connections (dur (executeEvaluation_call s c evaluation i)).
Proof. unfold executeEvaluation. apply connections_executeEvaluation_settle. Qed.

Lemma sentTo_executeEvaluation_call s c evaluation i :
  sentTo (id c) (executeEvaluation_call s c evaluation i)
  = sentTo (id c) s ++ [RpcRequest i "evaluate" (rpcParams evaluation)].
Proof.
  rewrite (sentTo_app s (executeEvaluation_call s c evaluation i)
             [Send (id c) (RpcRequest i "evaluate" (rpcParams evaluation));
              Log info "Starting evaluation"] (id c) eq_refl).
  simpl. by rewrite decide_True.
Qed.

Lemma runEach_tally evaluate s r clientId evaluations answers completed
    failed :
  (∃ c, connections s !! r = Some c ∧ id c = r) →
  keepConnection r answers →
  length answers = length evaluations →
  let verdicts :=
    zip_with (λ evaluation answer,
                completes evaluate evaluation (response answer))
      evaluations answers in
  let out :=
    runEach evaluate s r clientId evaluations answers completed failed in
  out.1.2 = completed + length (List.filter (λ b, b) verdicts)
  ∧ out.2 = failed + length (List.filter negb verdicts)
  ∧ ∃ rest, sentTo r out.1.1 = sentTo r s ++ rest
            ∧ batchRequests evaluations answers `sublist_of` rest.
Proof.
  revert s answers completed failed.
  induction evaluations as [|ev evs IH];
    intros s [|ans answers] completed failed Hr Hkeep Hlen; simpl in Hlen;
    try done; cbn zeta; cbn [runEach zip_with List.filter batchRequests].
  { split; [simpl; lia|]. split; [simpl; lia|]. exists [].
    split; [by rewrite app_nil_r|done]. }
  destruct Hr as (c & Hc & Hid). rewrite Hc.
  set (s0 := withClientManager _ s).
  set (s1 := executeEvaluation_call s0 c ev (callId ans)).
  assert (Hsent1 : sentTo r s1
                   = sentTo r s
                     ++ [RpcRequest (callId ans) "evaluate"
                           (rpcParams ev)]).
  { unfold s1. rewrite <- Hid. by rewrite sentTo_executeEvaluation_call. }
  destruct (Hkeep ans s1) as [Hobj [new Hnew]]; [by left|].
  destruct (Hobj (withRpcClient
                    (RpcClient.callMethod (rpcClient c) (callId ans)
                       "evaluate" (rpcParams ev)
                       (orDefault (ClientManager.timeout ev) 45000)).1 c))
    as (c1 & Hc1 & Hid1); [|done|].
  { unfold s1, executeEvaluation_call. simpl. rewrite <- Hid at 1.
    apply lookup_insert_eq. }
  pose proof (executeEvaluation_settle_thrown evaluate
                (during ans s1) c ev (response ans) (duration ans))
    as Hthrown.
  pose proof (connections_executeEvaluation_settle evaluate (during ans s1)
                c ev (response ans) (duration ans)) as Hconn.
  destruct (executeEvaluation_settle_effects evaluate (during ans s1) c ev
              (response ans) (duration ans)) as (new2 & Hnew2 & Hquiet).
  assert (keepConnection r answers) as Hkeep1.
  { intros a x Hin. apply Hkeep. by right. }
  unfold executeEvaluation. fold s1.
  destruct (executeEvaluation_settle evaluate (during ans s1) c ev
              (response ans) (duration ans)) as [s2 thrown] eqn:Hset.
  simpl in Hthrown, Hconn, Hnew2.
  assert (Hsent2 : sentTo r s2
                   = sentTo r s
                     ++ RpcRequest (callId ans) "evaluate" (rpcParams ev)
                        :: omap (toConnection r) (rev new)).
  { rewrite (sentTo_app _ _ _ r Hnew2), (sentTo_app _ _ _ r Hnew), Hsent1.
    rewrite (omap_toConnection_nil r new2) by (intros f; apply Hquiet).
    by rewrite app_nil_r, <- app_assoc. }
  assert (Hr2 : ∃ c2, connections s2 !! r = Some c2 ∧ id c2 = r)
    by (exists c1; by rewrite Hconn).
  destruct thrown as [e|].
  - destruct (completes evaluate ev (response ans)) eqn:Hok.
    { discriminate (proj2 Hthrown eq_refl). }
    destruct (IH s2 answers completed (S failed) Hr2 Hkeep1)
      as (H1 & H2 & rest & Hrest & Hsub); [lia|].
    cbv zeta in H1, H2, Hrest. rewrite H1, H2. cbn [negb].
    split; [simpl; lia|]. split; [simpl; lia|].
    eexists. split.
    + rewrite Hrest, Hsent2, <- app_assoc. reflexivity.
    + simpl. apply sublist_skip. by apply sublist_inserts_l.
  - rewrite (proj1 Hthrown eq_refl).
    destruct (IH s2 answers (S completed) failed Hr2 Hkeep1)
      as (H1 & H2 & rest & Hrest & Hsub); [lia|].
    cbv zeta in H1, H2, Hrest. rewrite H1, H2. cbn [negb].
    split; [simpl; lia|]. split; [simpl; lia|].
    eexists. split.
    + rewrite Hrest, Hsent2, <- app_assoc. reflexivity.
    + simpl. apply sublist_skip. by apply sublist_inserts_l.
Qed.

(** X15. [run-all] attempts every evaluation of the client, in order, and
    a failure does not stop the batch: with one answer for each
    evaluation, every evaluation's [evaluate] request is sent to the
    connection, in the order of the client's list, whatever else is sent
    in between. The figures it prints are the number of answers that
    complete their evaluation and the number that do not (the call failed
    or timed out, or the judge raised an error), so that they add up to
    the number of evaluations. When the client id leads to no connection,
    or to one that is not ready, nothing is run and the server is left as
    it was. *)
Theorem runAll_reports_every_evaluation evaluate s clientId answers :
  (∀ r c, connectedAgents s !! clientId = Some r →
          connections s !! r = Some c → id c = r → ready c = true →
          keepConnection r answers →
          length answers
          = length (ClientManager.getClientEvaluations (clientManager s)
                      clientId) →
          0 < length answers →
          let evaluations :=
            ClientManager.getClientEvaluations (clientManager s) clientId in
          let verdicts :=
            zip_with (λ evaluation answer,
                        completes evaluate evaluation (response answer))
              evaluations answers in
          let out := runAllEvaluations evaluate s clientId answers in
          out.2
          = Results (length (List.filter (λ b, b) verdicts))
              (length (List.filter negb verdicts))
          ∧ length (List.filter (λ b, b) verdicts)
            + length (List.filter negb verdicts)
            = length evaluations
          ∧ ∃ rest,
              sentTo r out.1 = sentTo r s ++ rest
              ∧ batchRequests evaluations answers `sublist_of` rest)
  ∧ ((∀ c, getAgent s clientId = Some c → ready c = false) →
     runAllEvaluations evaluate s clientId answers = (s, NotConnected)).
Proof.
  split.
  - intros r c Hk Hc Hid Hready Hkeep Hlen Hpos evaluations verdicts out.
    subst verdicts out evaluations.
    unfold runAllEvaluations. rewrite Hk, Hc, Hready. cbn [negb].
    destruct (ClientManager.getClientEvaluations (clientManager s) clientId)
      as [|ev evs] eqn:Hevs; [simpl in Hlen; lia|]. cbv beta iota.
    destruct (runEach_tally evaluate s r clientId (ev :: evs) answers 0 0)
      as (H1 & H2 & Hreq); [by exists c|done|done|].
    cbv zeta in H1, H2, Hreq.
    destruct (runEach evaluate s r clientId (ev :: evs) answers 0 0)
      as [[s1 n1] n2]. simpl in H1, H2, Hreq. subst n1 n2.
    split; [done|]. split; [|exact Hreq].
    assert (∀ l : list bool,
              length (List.filter (λ b, b) l) + length (List.filter negb l)
              = length l) as Hsplit.
    { induction l as [|[] l IHl]; simpl; lia. }
    rewrite Hsplit, length_zip_with. lia.
  - intros Hno. unfold runAllEvaluations, getAgent in *.
    destruct (connectedAgents s !! clientId) as [r|]; [|done]. simpl in Hno.
    destruct (connections s !! r) as [c|]; [|done].
    by rewrite (Hno c eq_refl).
Qed.

(** X19. [run <client> <evaluation>] runs an evaluation only on a
    connection that is in the directory under the client id and is ready,
    and only if the client owns the evaluation; otherwise it prints why and
    leaves the server as it was. The stored status of the evaluation plays
    no part: it is reset to [pending] and the evaluation is executed again.
    The console then reports success exactly when the call was answered
    and validation raised no error, and reports the error otherwise. *)
Theorem run_command_guards_and_verdict evaluate dur s clientId evaluationId
    i response duration :
  let out := runSpecificEvaluation evaluate dur s clientId evaluationId i
               response duration in
  ((∀ c, getAgent s clientId = Some c → ready c = false) →
   out = (s, NotConnected))
  ∧ (ClientManager.findEvaluation (clientManager s) clientId evaluationId
     = None →
     out.1 = s ∧ (out.2 = NotConnected ∨ out.2 = NotFound))
  ∧ (∀ c e0,
       getAgent s clientId = Some c → ready c = true →
       ClientManager.findEvaluation (clientManager s) clientId evaluationId
       = Some e0 →
       (out.2 = Completed ↔ completes evaluate e0 response = true)
       ∧ (completes evaluate e0 response = false → ∃ m, out.2 = Failed m)
       ∧ connections out.1
         = connections
             (dur (executeEvaluation_call
                     (withClientManager
                        (ClientManager.updateEvaluationStatus
                           (clientManager s) (Some clientId) evaluationId
                           "pending" None) s) c e0 i))).
Proof.
  intros out. unfold out, runSpecificEvaluation.
  split; [|split].
  - intros Hno. destruct (getAgent s clientId) as [c|]; [|done].
    by rewrite (Hno c eq_refl).
  - intros Hnone. rewrite Hnone.
    destruct (getAgent s clientId) as [c|]; [|by split; [|left]].
    destruct (ready c); simpl; by split; [|auto].
  - intros c e0 Hg Hready Hfind. rewrite Hg, Hready, Hfind. cbn [negb].
    cbv beta iota zeta.
    set (s0 := withClientManager _ s).
    pose proof (executeEvaluation_settle_thrown evaluate
                  (dur (executeEvaluation_call s0 c e0 i)) c e0 response
                  duration) as Hthrown.
    pose proof (connections_executeEvaluation evaluate dur s0 c e0 i
                  response duration) as Hconn.
    unfold executeEvaluation in *.
    destruct (executeEvaluation_settle evaluate _ c e0 response duration)
      as [s1 [m|]]; simpl in *.
    + split; [|split; [by eexists|done]].
      split; [done|]. intros Hok. by apply Hthrown in Hok.
    + split; [|split; [|done]].
      * split; [|done]. intros _. by apply Hthrown.
      * intros Hno. rewrite (proj1 Hthrown eq_refl) in Hno. done.
Qed.

End Operator.

(** ** Dispatch along a run *)

Section Dispatching.

Import EvaluationServer.

Implicit Types (s : EvaluationServer.t) (c : Connection).

(** X16. In every state the server reaches from its start, the processing
    loop hands an evaluation only to a connection that has registered and
    declared itself ready, and only an evaluation of that client id whose
    status is [pending]; it then starts [executeEvaluation] on that
    connection. In every other case it sends nothing and leaves the heap,
    the directory and the store as they were. *)
Theorem processing_dispatches_pending_to_ready cm es key callId :
  let s := run (empty cm) es in
  let s1 := processClientEvaluations s key callId in
  (∃ c evaluation,
     getAgent s key = Some c
     ∧ registered c = true ∧ ready c = true
     ∧ evaluation ∈ ClientManager.getClientEvaluations (clientManager s) key
     ∧ ClientManager.status evaluation = "pending"
     ∧ s1 = executeEvaluation_call s c evaluation callId)
  ∨ (connections s1 = connections s
     ∧ connectedAgents s1 = connectedAgents s
     ∧ clientManager s1 = clientManager s
     ∧ ∀ r, sentTo r s1 = sentTo r s).
Proof.
  intros s s1. unfold s1, processClientEvaluations.
  destruct (getAgent s key) as [c|] eqn:Hg; [|by right].
  destruct (ready c) eqn:Hr; simpl; [|by right].
  destruct (ClientManager.getNextEvaluation (clientManager s) key)
    as [evaluation|] eqn:Hn.
  - left. exists c, evaluation. split; [done|].
    assert (registered c = true) as Hreg.
    { unfold getAgent in Hg.
      destruct (connectedAgents s !! key) as [r|]; [|done]. simpl in Hg.
      eapply (ready_implies_registered_run (empty cm) es); [|done..].
      by intros r0 c0. }
    unfold ClientManager.getNextEvaluation in Hn.
    apply find_some in Hn as [Hin Hp].
    apply bool_decide_eq_true in Hp.
    repeat split; try done. by apply list_elem_of_In.
  - right. repeat split. intros r. rewrite sentTo_emit. simpl.
    apply app_nil_r.
Qed.

(** X17. The two timeouts of one evaluation. The agent runs the tool
    against the timeout the request carries, [evaluation.timeout || 30000];
    the server waits for the response [evaluation.timeout || 45000]
    milliseconds, and records that with the pending call. So the agent's
    limit never exceeds the server's: with no timeout configured the agent
    gives up 15 seconds before the server does, and with a timeout
    configured both limits are that same number. *)
Theorem agent_timeout_within_call_timeout s c evaluation callId :
  let agentLimit := EvaluationAgent.effectiveTimeout (rpcParams evaluation) in
  let serverLimit := orDefault (ClientManager.timeout evaluation) 45000 in
  (agentLimit ≤ serverLimit)%Z
  ∧ (∃ c1 p,
       connections (executeEvaluation_call s c evaluation callId) !! id c
       = Some c1
       ∧ RpcClient.pendingRequests (rpcClient c1) !! callId = Some p
       ∧ RpcClient.timeoutMs p = serverLimit
       ∧ p_timeout (RpcClient.params p) = Some agentLimit)
  ∧ (orDefault (ClientManager.timeout evaluation) 0 = 0%Z →
     agentLimit = 30000%Z ∧ serverLimit = 45000%Z)
  ∧ (∀ t, ClientManager.timeout evaluation = Some t → t ≠ 0%Z →
          agentLimit = t ∧ serverLimit = t).
Proof.
  intros agentLimit serverLimit.
  assert (Hagent : agentLimit
                   = orDefault (ClientManager.timeout evaluation) 30000).
  { unfold agentLimit, EvaluationAgent.effectiveTimeout, rpcParams,
      orDefault. simpl.
    destruct (ClientManager.timeout evaluation) as [t|]; [|done].
    destruct (t =? 0)%Z eqn:E; [done|by rewrite E]. }
  split; [|split; [|split]].
  - rewrite Hagent. unfold serverLimit, orDefault.
    destruct (ClientManager.timeout evaluation) as [t|]; [|lia].
    destruct (t =? 0)%Z; lia.
  - eexists _, _. unfold executeEvaluation_call. simpl.
    split; [apply lookup_insert_eq|]. simpl.
    split; [apply lookup_insert_eq|]. split; [done|]. simpl.
    by rewrite Hagent.
  - rewrite Hagent. unfold serverLimit, orDefault.
    destruct (ClientManager.timeout evaluation) as [t|]; [|done].
    destruct (t =? 0)%Z eqn:E; [done|]. intros ->. done.
  - intros t Ht Hne. rewrite Hagent. unfold serverLimit, orDefault.
    rewrite Ht. by rewrite (proj2 (Z.eqb_neq t 0) Hne).
Qed.

End Dispatching.

(** ** An evaluation call, end to end *)

Section RoundTrip.

Import EvaluationServer.

Implicit Types (s : EvaluationServer.t) (c : Connection).

Lemma deliver_app r fs1 fs2 s :
  deliver r (fs1 ++ fs2) s = deliver r fs2 (deliver r fs1 s).
Proof. unfold deliver, run. by rewrite fmap_app, foldl_app. Qed.

(** Status frames touch neither the heap nor the wire: the server only
    logs them and updates the store. *)
Lemma deliver_status r fs s :
  Forall isStatus fs →
  connections (deliver r fs s) = connections s
  ∧ ∃ logs, Forall isLog logs
            ∧ effects (deliver r fs s) = logs ++ effects s.
Proof.
  intros Hfs. revert s.
  induction Hfs as [|f fs (i & st & p & m & ->) _ IH]; intros s.
  - split; [done|]. by exists [].
  - change (deliver r (Status i st p m :: fs) s)
      with (deliver r fs (step s (Received r (Json (Status i st p m))))).
    destruct (IH (step s (Received r (Json (Status i st p m)))))
      as (Hh & logs & Hlogs & He).
    rewrite Hh, He. clear Hh He IH. cbn [step].
    destruct (connections s !! r) as [c|]; [|split; [done|by exists logs]].
    unfold handleMessage.
    cbn [RpcClient.handleResponse dispatchFrame typed rpc control].
    unfold handleStatusUpdate.
    destruct (registered c); simpl; [|split; [done|by exists logs]].
    split; [done|].
    exists (logs ++ [Log info "Evaluation status update"]).
    split; [|by rewrite <- app_assoc].
    apply Forall_app. split; [done|].
    apply Forall_cons. split; [by eexists _, _|done].
Qed.

(** The frames the evaluation handler writes: status frames around one
    response. *)
Lemma written_evaluation registry a requestId params now elapsed ca :
  EvaluationAgent.client a = Some ca →
  ∃ pre post,
    Forall isStatus pre ∧ Forall isStatus post
    ∧ written (EvaluationAgent.socket ca) a
        (EvaluationAgent.handleEvaluationRequest registry (λ x, x) a
           requestId params now elapsed)
      = pre
        ++ match toolOutcome registry params with
           | inr toolResult =>
               RpcSuccess requestId
                 {| output := Some toolResult; executionTime := elapsed;
                    r_status := "success";
                    r_evaluationId := Some (p_evaluationId params) |}
           | inl e =>
               RpcFailure requestId
                 (EvaluationAgent.toolFailure params
                    (EvaluationAgent.errorMessage e))
           end :: post.
Proof.
  intros Hc.
  pose proof (sentOn_beginEvaluation registry a params now ca Hc) as Hb.
  pose proof (onlyTalked_beginEvaluation a a registry params
                now (onlyTalked_refl a)) as (_ & _ & Hcl & _).
  assert (Hout : (EvaluationAgent.beginEvaluation registry a params now).2
                 = match EvaluationAgent.getRegisteredTool registry
                           (p_tool params) with
                   | None =>
                       inl (EvaluationAgent.ErrorObject
                              ("Tool not found: " +:+ p_tool params))
                   | Some tool => inr tool
                   end).
  { unfold EvaluationAgent.beginEvaluation.
    by destruct (EvaluationAgent.getRegisteredTool registry
                   (p_tool params)). }
  unfold written, EvaluationAgent.handleEvaluationRequest, toolOutcome.
  destruct (EvaluationAgent.beginEvaluation registry a params now)
    as [x out].
  simpl in Hb, Hcl, Hout. rewrite Hc in Hcl. subst out.
  set (progress := if EvaluationAgent.ready a then _ else _) in Hb.
  assert (Hp : Forall isStatus progress).
  { unfold progress. destruct (EvaluationAgent.ready a); [|done].
    apply Forall_cons. split; [by eexists _, _, _, _|].
    destruct (EvaluationAgent.getRegisteredTool registry (p_tool params));
      [|done].
    apply Forall_app. split.
    - destruct (EvaluationServer.truthy (p_url params)); [|done].
      apply Forall_cons. split; [by eexists _, _, _, _|done].
    - apply Forall_cons. split; [by eexists _, _, _, _|done]. }
  assert (Hfin : ∀ outcome,
            drop (length (EvaluationAgent.sentOn
                            (EvaluationAgent.socket ca) a))
              (EvaluationAgent.sentOn (EvaluationAgent.socket ca)
                 (EvaluationAgent.finishEvaluation x requestId params
                    outcome elapsed))
            = progress
              ++ match outcome with
                 | inr toolResult =>
                     RpcSuccess requestId
                       {| output := Some toolResult;
                          executionTime := elapsed; r_status := "success";
                          r_evaluationId := Some (p_evaluationId params) |}
                     :: (if EvaluationAgent.ready x then
                           [Status (p_evaluationId params) "completed"
                              (Some 1%Q)
                              (Some "Evaluation completed successfully")]
                         else [])
                 | inl e =>
                     RpcFailure requestId
                       (EvaluationAgent.toolFailure params
                          (EvaluationAgent.errorMessage e))
                     :: (if EvaluationAgent.ready x then
                           [Status (p_evaluationId params) "failed"
                              (Some 1%Q)
                              (Some (EvaluationAgent.errorMessage e))]
                         else [])
                 end).
  { intros outcome.
    rewrite (sentOn_finishEvaluation x _ _ _ _ ca Hcl), Hb.
    rewrite <- app_assoc. apply drop_app_length. }
  destruct (EvaluationAgent.getRegisteredTool registry (p_tool params))
    as [tool|].
  - rewrite Hfin.
    destruct (EvaluationAgent.executeToolWithTimeout tool (p_input params)
                (EvaluationAgent.effectiveTimeout params)).
    + eexists progress, _. split; [done|]. split; [|done].
      destruct (EvaluationAgent.ready x); [|done].
      apply Forall_cons. split; [by eexists _, _, _, _|done].
    + eexists progress, _. split; [done|]. split; [|done].
      destruct (EvaluationAgent.ready x); [|done].
      apply Forall_cons. split; [by eexists _, _, _, _|done].
  - rewrite Hfin. eexists progress, _. split; [done|]. split; [|done].
    destruct (EvaluationAgent.ready x); [|done].
    apply Forall_cons. split; [by eexists _, _, _, _|done].
Qed.


End RoundTrip.

(** ** The further properties at work *)

Section FurtherWitnesses.

Import EvaluationServer Examples Scenarios.

Lemma heapCoherent_empty cm : heapCoherent (empty cm).
Proof. intros r c H. simpl in H. by rewrite lookup_empty in H. Qed.

(** After [u1] closed and pinged, its object is still in the heap with
    its flags. *)
Lemma connection_flags_are_never_cleared_witness :
  heapCoherent oneReady
  ∧ connections oneReady !! "u1" = Some readyU1
  ∧ notAcceptedAgain "u1" [Closed "u1"; Received "u1" (Json Ping)]
  ∧ ∃ c1, connections
            (run oneReady [Closed "u1"; Received "u1" (Json Ping)]) !! "u1"
          = Some c1
          ∧ laterOf readyU1 c1.
Proof.
  assert (H1 : heapCoherent oneReady)
    by (apply heapCoherent_run, heapCoherent_empty).
  assert (H2 : connections oneReady !! "u1" = Some readyU1)
    by (vm_compute; reflexivity).
  assert (H3 : notAcceptedAgain "u1"
                 [Closed "u1"; Received "u1" (Json Ping)]).
  { intros a t0 Hin. apply elem_of_cons in Hin as [Hin|Hin]; [done|].
    apply elem_of_cons in Hin as [Hin|Hin]; [done|].
    by apply elem_of_nil in Hin. }
  split; [exact H1|]. split; [exact H2|]. split; [exact H3|].
  exact (connection_flags_are_never_cleared oneReady
           [Closed "u1"; Received "u1" (Json Ping)] "u1" readyU1 H1 H2 H3).
Defined.

Lemma reregistration_leaves_first_key_witness :
  connectedAgents
    (run oneAccepted2
       [Received "u1" (Json (Register "base" None None));
        Received "u1" (Json (Register "spare" None None));
        Closed "u1"]) !! "base" = Some "u1".
Proof.
  assert (Hne1 : "base" ≠ "spare") by discriminate.
  assert (Hne2 : "base" ≠ "u1") by discriminate.
  assert (Hne3 : "spare" ≠ "") by discriminate.
  destruct (reregistration_leaves_first_key oneAccepted2 "u1" u1 "base" None
              None "spare" None None eq_refl eq_refl eq_refl eq_refl Hne1
              Hne2 Hne3) as (_ & _ & _ & H & _).
  exact H.
Defined.

Lemma first_close_removes_second_entry_witness :
  getAgent
    (run twoAccepted
       [Received "u1" (registerAs "t1"); Received "u2" (registerAs "t2");
        Closed "u1"]) "base" = None
  ∧ connections
      (run twoAccepted
         [Received "u1" (registerAs "t1"); Received "u2" (registerAs "t2");
          Closed "u1"]) !! "u2"
    = Some (markRegistered "base" (tab "t2") u2).
Proof.
  assert (Hne1 : "u1" ≠ "u2") by discriminate.
  assert (Hne2 : "base" ≠ "") by discriminate.
  destruct (first_close_removes_second_entry twoAccepted "u1" "u2" u1 u2
              "base" (Some "s3cret") (tab "t1") (Some "s3cret") (tab "t2")
              eq_refl eq_refl eq_refl eq_refl Hne1 eq_refl eq_refl Hne2)
    as (_ & H1 & H2).
  split; [exact H1|exact H2].
Defined.

Lemma settled_evaluation_is_completed_or_failed_witness :
  clientId readyU1 = Some "base"
  ∧ ClientManager.findEvaluation (clientManager oneReady) "base" "e1"
    = Some (e1 None)
  ∧ ∃ e,
      ClientManager.findEvaluation
        (clientManager
           (executeEvaluation_settle (scoring (9 # 10)) oneReady readyU1
              (e1 None) (inl "Request timeout") 5000).1) "base" "e1"
      = Some e
      ∧ ClientManager.status e = "failed"
      ∧ is_Some (ClientManager.lastResult e).
Proof.
  split; [reflexivity|]. split; [vm_compute; reflexivity|].
  destruct (settled_evaluation_is_completed_or_failed (scoring (9 # 10))
              oneReady readyU1 (e1 None) (inl "Request timeout") 5000)
    as (_ & _ & _ & H).
  assert (Hf : ClientManager.findEvaluation (clientManager oneReady) "base"
                 "e1" = Some (e1 None)) by (vm_compute; reflexivity).
  exact (H "base" (e1 None) eq_refl Hf).
Defined.

Lemma unjudged_response_always_completes_witness :
  (executeEvaluation_settle (scoring 0) oneReady readyU1 e2 (inr paris)
     120).2 = None.
Proof.
  assert (Hv : ∀ cfg, ClientManager.validation e2 = Some cfg →
                      isJudged (ClientManager.v_type cfg) = false).
  { intros cfg Hcfg. injection Hcfg as <-. reflexivity. }
  destruct (unjudged_response_always_completes (scoring 0) oneReady readyU1
              e2 paris 120 Hv (scoring 1)) as (_ & H & _).
  exact H.
Defined.

Lemma response_settles_its_call_once_witness :
  connections (run server0 (take 4 statusMidFlight)) !! "u1" = Some busy
  ∧ ∃ o,
      settled_id o = "rpc-1"
      ∧ effects
          (run (run server0 (take 4 statusMidFlight))
             [Received "u1" (Json (RpcSuccess "rpc-1" paris));
              Received "u1" (Json (RpcSuccess "rpc-1" paris))])
        = Log warn "Unknown message type"
          :: Settle "u1" o
          :: effects (run server0 (take 4 statusMidFlight)).
Proof.
  assert (Hc : connections (run server0 (take 4 statusMidFlight)) !! "u1"
               = Some busy) by (vm_compute; reflexivity).
  split; [exact Hc|].
  destruct (response_settles_its_call_once
              (run server0 (take 4 statusMidFlight)) "u1" busy "rpc-1"
              {| RpcClient.method := "evaluate";
                 RpcClient.params := rpcParams (e1 None);
                 RpcClient.timeoutMs := 5000 |}
              (Json (RpcSuccess "rpc-1" paris))
              (Json (RpcSuccess "rpc-1" paris)) Hc eq_refl eq_refl
              (or_introl (ex_intro _ paris eq_refl))
              (or_introl (ex_intro _ paris eq_refl)))
    as (o & Ho & He & _).
  exists o. split; [exact Ho|exact He].
Defined.

Lemma status_counts_witness :
  Report.connectedCount
    (Report.getStatus
       (handleRegistration twoAccepted u2 "base" (Some "s3cret")
          (tab "t2")))
  = Report.connectedCount (Report.getStatus twoAccepted)
  ∧ connections onceRegistered !! "u1" = Some (markRegistered "base" None u1)
  ∧ Report.connectedCount (Report.getStatus onceRegistered) = 1
  ∧ Report.connectedCount
      (Report.getStatus
         (handleRegistration onceRegistered (markRegistered "base" None u1)
            "spare" None None))
    = 2.
Proof.
  split; [|split; [vm_compute; reflexivity|split; [reflexivity|]]].
  - destruct (status_counts twoAccepted u2 "base" (Some "s3cret")
                (tab "t2")) as (_ & _ & H).
    destruct (H eq_refl) as (Hsame & _).
    apply Hsame.
    + exists "u2". vm_compute. reflexivity.
    + intros [_ [x Hx]]. vm_compute in Hx. discriminate Hx.
  - destruct (status_counts onceRegistered (markRegistered "base" None u1)
                "spare" None None) as (_ & _ & H).
    destruct (H eq_refl) as (_ & _ & Hmore & _).
    apply Hmore.
    + intros [x Hx]. vm_compute in Hx. discriminate Hx.
    + intros [_ [x Hx]]. vm_compute in Hx. discriminate Hx.
Defined.

Lemma evaluation_frames_in_order_witness :
  EvaluationAgent.client AgentExamples.serving = Some AgentExamples.socket1
  ∧ ∃ reply,
      (EvaluationAgent.ready AgentExamples.serving = true →
       ∃ progress st message,
         EvaluationAgent.sentOn 1
           (EvaluationAgent.handleEvaluationRequest AgentExamples.registry1
              (λ x, x) AgentExamples.serving "rpc-7"
              (AgentExamples.ask "chat" 5000) 0 100)
         = EvaluationAgent.sentOn 1 AgentExamples.serving ++ progress
           ++ [reply; Status "e1" st (Some 1%Q) (Some message)]
         ∧ progress ≠ []).
Proof.
  split; [reflexivity|].
  destruct (evaluation_frames_in_order AgentExamples.registry1
              AgentExamples.serving "rpc-7" (AgentExamples.ask "chat" 5000)
              0 100 AgentExamples.socket1 eq_refl)
    as (reply & _ & _ & H).
  exists reply. intros Hr.
  destruct (H Hr) as (progress & st & message & Hs & Hp & _).
  exists progress, st, message. split; [exact Hs|exact Hp].
Defined.


Lemma handshake_makes_both_sides_ready_witness :
  EvaluationAgent.ready
    (Session.exchange 4 AgentExamples.registry1 "u1" 1
       (handleConnection server0 "u1" "127.0.0.1" "t0") fresh 0 0).2 = true
  ∧ ∃ c1, getAgent
            (Session.exchange 4 AgentExamples.registry1 "u1" 1
               (handleConnection server0 "u1" "127.0.0.1" "t0") fresh 0
               0).1 "base" = Some c1
          ∧ ready c1 = true.
Proof.
  destruct (handshake_makes_both_sides_ready AgentExamples.registry1 server0
              "u1" "127.0.0.1" "t0" fresh AgentExamples.socket1 0 eq_refl
              eq_refl eq_refl eq_refl)
    as (_ & _ & _ & Hr & _ & c1 & Hg & _ & _ & Hc & _).
  split; [exact Hr|]. exists c1. split; [exact Hg|exact Hc].
Defined.

Lemma rejected_handshake_ends_the_session_witness :
  EvaluationAgent.client
    (Session.exchange 3 AgentExamples.registry1 "u1" 1
       (handleConnection server0 "u1" "127.0.0.1" "t0") intruder 0 0).2
  = None
  ∧ getAgent
      (Session.exchange 3 AgentExamples.registry1 "u1" 1
         (handleConnection server0 "u1" "127.0.0.1" "t0") intruder 0 0).1
      "base" = None.
Proof.
  destruct (rejected_handshake_ends_the_session AgentExamples.registry1
              server0 "u1" "127.0.0.1" "t0" intruder AgentExamples.socket1 0
              eq_refl eq_refl eq_refl eq_refl)
    as (_ & _ & Hc & _).
  split; [exact Hc|]. vm_compute. reflexivity.
Defined.

Lemma runAll_reports_every_evaluation_witness :
  (Console.runAllEvaluations (scoring (9 # 10)) oneReady "base"
     [answerParis]).2
  = Console.Results 1 0
  ∧ ∃ rest,
      sentTo "u1"
        (Console.runAllEvaluations (scoring (9 # 10)) oneReady "base"
           [answerParis]).1
      = sentTo "u1" oneReady ++ rest
      ∧ [RpcRequest "rpc-1" "evaluate" (rpcParams (e1 None))]
        `sublist_of` rest.
Proof.
  destruct (runAll_reports_every_evaluation (scoring (9 # 10)) oneReady
              "base" [answerParis]) as (H & _).
  assert (Hk : connectedAgents oneReady !! "base" = Some "u1")
    by (vm_compute; reflexivity).
  assert (Hc : connections oneReady !! "u1" = Some readyU1)
    by (vm_compute; reflexivity).
  assert (Hkeep : Console.keepConnection "u1" [answerParis]).
  { intros answer x Hin. apply list_elem_of_singleton in Hin as ->.
    split; [intros c Hx Hid; by exists c|by exists []]. }
  assert (Hlen : length [answerParis]
                 = length (ClientManager.getClientEvaluations
                             (clientManager oneReady) "base"))
    by (vm_compute; reflexivity).
  destruct (H "u1" readyU1 Hk Hc eq_refl eq_refl Hkeep Hlen
              (Nat.lt_0_succ 0)) as (Hres & _ & Hreq).
  split; [exact Hres|exact Hreq].
Defined.

Lemma agent_timeout_within_call_timeout_witness :
  ClientManager.timeout (e1 None) = Some 5000%Z
  ∧ EvaluationAgent.effectiveTimeout (rpcParams (e1 None)) = 5000%Z
  ∧ orDefault (ClientManager.timeout (e1 None)) 45000 = 5000%Z.
Proof.
  split; [reflexivity|].
  destruct (agent_timeout_within_call_timeout oneReady readyU1 (e1 None)
              "rpc-1") as (_ & _ & _ & H).
  assert (Hne : 5000%Z ≠ 0%Z) by discriminate.
  exact (H 5000%Z eq_refl Hne).
Defined.


Lemma run_command_guards_and_verdict_witness :
  getAgent oneReady "base" = Some readyU1
  ∧ ready readyU1 = true
  ∧ ClientManager.findEvaluation (clientManager oneReady) "base" "e1"
    = Some (e1 None)
  ∧ Console.completes (scoring (9 # 10)) (e1 None) (inr paris) = true
  ∧ (Console.runSpecificEvaluation (scoring (9 # 10)) (λ x, x) oneReady
       "base" "e1" "rpc-1" (inr paris) 120).2 = Console.Completed.
Proof.
  assert (Hg : getAgent oneReady "base" = Some readyU1)
    by (vm_compute; reflexivity).
  assert (Hf : ClientManager.findEvaluation (clientManager oneReady) "base"
                 "e1" = Some (e1 None)) by (vm_compute; reflexivity).
  assert (Hok : Console.completes (scoring (9 # 10)) (e1 None) (inr paris)
                = true) by (vm_compute; reflexivity).
  split; [exact Hg|]. split; [reflexivity|]. split; [exact Hf|].
  split; [exact Hok|].
  destruct (run_command_guards_and_verdict (scoring (9 # 10)) (λ x, x)
              oneReady "base" "e1" "rpc-1" (inr paris) 120)
    as (_ & _ & H).
  destruct (H readyU1 (e1 None) Hg eq_refl Hf) as (Hiff & _).
  exact (proj2 Hiff Hok).
Defined.

End FurtherWitnesses.
